(** * ts-rest-api-express: the authentication and authorization pipeline

    A shallow embedding of the service code (auth service, user service,
    JWT and password utilities, authentication middleware, request
    validation, rate limiting) together with the properties the
    specification states about it.

    Conventions.
    - JavaScript strings are [string], one byte per character; letter
      case, white space and length are those of JavaScript on ASCII
      strings ([isAscii]).  Numbers are rationals [Q], and [Z] where the
      code only has integers (timestamps in milliseconds, status codes,
      counters).
    - [undefined]/[null] are [None].
    - An async function that reads or writes the database is a function in
      the monad [Eff]: it takes the collection, returns a value or a thrown
      exception, and the collection afterwards.
    - Values the program obtains from outside (the clock, fresh ObjectIds,
      bcrypt salts, [crypto.randomBytes]) are explicit arguments; an
      operation reads the clock once.
    - The third-party primitives (bcrypt, HMAC, the JWT wire format, the
      [ms] timespan parser) are fields of the record [Externals]; what
      MongoDB computes for a filtered, sorted listing is the record
      [QueryEngine]. *)

From Stdlib Require Import ZArith QArith String Ascii List Bool Lia DecimalString.
From stdpp Require Import base option gmap strings list.

Open Scope Z_scope.
Open Scope string_scope.
Open Scope list_scope.

(* ===================================================================== *)
(** ** JavaScript strings and values *)
(* ===================================================================== *)

Module JS.

(** White space in the sense of [String.prototype.trim] and the regular
    expression class [\s], restricted to the ASCII range. *)
Definition isSpace (c : ascii) : bool :=
  let n := nat_of_ascii c in
  orb (Nat.eqb n 32) (andb (Nat.leb 9 n) (Nat.leb n 13)).

Definition isUpper (c : ascii) : bool :=
  let n := nat_of_ascii c in andb (Nat.leb 65 n) (Nat.leb n 90).

Definition isLetter (c : ascii) : bool :=
  let n := nat_of_ascii c in
  orb (andb (Nat.leb 65 n) (Nat.leb n 90)) (andb (Nat.leb 97 n) (Nat.leb n 122)).

Definition isHexDigit (c : ascii) : bool :=
  let n := nat_of_ascii c in
  orb (andb (Nat.leb 48 n) (Nat.leb n 57))
      (orb (andb (Nat.leb 65 n) (Nat.leb n 70)) (andb (Nat.leb 97 n) (Nat.leb n 102))).

Definition lowerChar (c : ascii) : ascii :=
  if isUpper c then ascii_of_nat (nat_of_ascii c + 32) else c.

Fixpoint dropSpaces (l : list ascii) : list ascii :=
  match l with
  | c :: l' => if isSpace c then dropSpaces l' else l
  | [] => []
  end.

(** [s.trim()] *)
Definition trim (s : string) : string :=
  string_of_list_ascii
    (rev (dropSpaces (rev (dropSpaces (list_ascii_of_string s))))).

(** [s.toLowerCase()], on the letters of the ASCII range *)
Definition toLowerCase (s : string) : string :=
  string_of_list_ascii (map lowerChar (list_ascii_of_string s)).

(** [s.startsWith(p)] *)
Definition startsWith (s p : string) : bool := String.prefix p s.

(** [s.substring(n)] *)
Definition substringFrom (n : nat) (s : string) : string :=
  String.substring n (String.length s - n) s.

(** [s.length]: the number of characters.  The strings here hold one
    byte per character, so on an ASCII string this is the number of
    UTF-16 units JavaScript counts. *)
Definition strlen (s : string) : Z := Z.of_nat (String.length s).

Definition forallChars (p : ascii -> bool) (s : string) : bool :=
  forallb p (list_ascii_of_string s).

(** [v !== undefined] *)
Definition defined {A} (v : option A) : bool :=
  match v with Some _ => true | None => false end.

(** Truthiness of a value of type [string | undefined]. *)
Definition truthy (v : option string) : bool :=
  match v with
  | Some s => negb (String.eqb s EmptyString)
  | None => false
  end.

(** [a || b] where [b] is a string: [a] unless it is undefined or empty. *)
Definition orElse (a : option string) (b : string) : string :=
  match a with
  | Some s => if String.eqb s EmptyString then b else s
  | None => b
  end.

(** JSON values as they travel in request and response bodies.  [JDate]
    stands for a [Date] (milliseconds since the epoch); [JArray] and
    [JObject] for a nested array or object, whose content no code here
    looks at. *)
Inductive value : Type :=
| JNull
| JBool (b : bool)
| JNum (q : Q)
| JStr (s : string)
| JDate (ms : Z)
| JArray
| JObject.

Definition isString (v : value) : bool :=
  match v with JStr _ => true | _ => false end.

Definition isNumber (v : value) : bool :=
  match v with JNum _ => true | _ => false end.

Definition object := list (string * value).

(** [o[k]] *)
Fixpoint get (k : string) (o : object) : option value :=
  match o with
  | (k', v) :: o' => if String.eqb k k' then Some v else get k o'
  | [] => None
  end.

(** [k in o] *)
Definition has (k : string) (o : object) : bool :=
  match get k o with Some _ => true | None => false end.

(** [delete o[k]] *)
Definition delete (k : string) (o : object) : object :=
  List.filter (fun kv => negb (String.eqb k (fst kv))) o.

Definition keys (o : object) : list string := map fst o.

(** [Number.isInteger] *)
Definition isInteger (q : Q) : bool := Pos.eqb (Qden (Qred q)) 1.

End JS.

(* ===================================================================== *)
(** ** Error model (ApiError.ts) *)
(* ===================================================================== *)

(** Anything a JavaScript function can throw here: an [ApiError] carrying a
    client message and an HTTP status, or another [Error], of which only
    the [name] and the message matter.  [ApiError] does not set [name], so
    an [ApiError] has the name of its base class. *)
Inductive Exn : Type :=
| ApiError (message : string) (statusCode : Z)
| JsError (name : string) (message : string).

Definition isApiError (e : Exn) : bool :=
  match e with ApiError _ _ => true | JsError _ _ => false end.

Definition exnName (e : Exn) : string :=
  match e with ApiError _ _ => "Error" | JsError n _ => n end.

Definition exnMessage (e : Exn) : string :=
  match e with ApiError m _ => m | JsError _ m => m end.

(** The status the global error handler answers with:
    [err.statusCode || err.status || 500]. *)
Definition statusOf (e : Exn) : Z :=
  match e with
  | ApiError _ c => if Z.eqb c 0 then 500 else c
  | JsError _ _ => 500
  end.

(** The outcome of running a function: a returned value or a thrown
    exception. *)
Inductive Result (A : Type) : Type :=
| Ok (a : A)
| Throw (e : Exn).
Arguments Ok {A} a.
Arguments Throw {A} e.

(** [try { body } catch (error) { handler }] for code without side effects *)
Definition tryCatch {A} (body : Result A) (handler : Exn -> Result A) : Result A :=
  match body with
  | Ok a => Ok a
  | Throw e => handler e
  end.

(* ===================================================================== *)
(** ** Third-party primitives and configuration *)
(* ===================================================================== *)

Module Jwt.

(** Claims carried by a token: what [jwt.sign] puts in the payload and
    [jwt.verify] gives back (the interface [JwtPayload]).  A token signed
    elsewhere with the same key may lack any of them. *)
Record Payload : Type := mkPayload {
  id : option string;
  email : option string;
  iat : option Z;
  exp : option Z
}.

(** A token once its three dot-separated parts are decoded: the payload
    and the signature found in the third part. *)
Record Jws : Type := mkJws {
  payload : Payload;
  signature : string
}.

End Jwt.

(** What the program takes from its libraries without the source saying
    how it is computed: bcrypt ([bcrypt_hash] takes the password, the
    rounds and the salt bcrypt draws), the HMAC-SHA256 of jsonwebtoken's
    HS256, the compact serialization of a signed token with its parser,
    and the [ms] package, which reads a timespan such as 7d into
    milliseconds. *)
Record Externals : Type := mkExternals {
  bcrypt_hash : string -> Z -> string -> string;
  bcrypt_compare : string -> string -> bool;
  hmac : string -> Jwt.Payload -> string;
  jws_encode : Jwt.Jws -> string;
  jws_decode : string -> option Jwt.Jws;
  ms : string -> option Z
}.

(** [env], the validated environment of config/env.ts, and the two
    variables the JWT utilities also read from [process.env] directly. *)
Record Env : Type := mkEnv {
  JWT_SECRET : string;
  JWT_EXPIRES_IN : string;
  BCRYPT_ROUND : Z;
  process_env_JWT_SECRET : option string;
  process_env_JWT_EXPIRES_IN : option string
}.

(* ===================================================================== *)
(** ** Password utilities (password.ts) *)
(* ===================================================================== *)

Module Password.
Section WithExternals.
Context (X : Externals) (env : Env).

(** [hashPassword]; [salt] is the salt bcrypt generates. *)
Definition hashPassword (password salt : string) : string :=
  bcrypt_hash X password (BCRYPT_ROUND env) salt.

(** [comparePassword]; bcrypt rejects a missing hash, which the
    function reports as a plain [Error]. *)
Definition comparePassword (password : string) (hashedPassword : option string)
    : Result bool :=
  match hashedPassword with
  | Some h => Ok (bcrypt_compare X password h)
  | None => Throw (JsError "Error" "Password comparison failed")
  end.

End WithExternals.
End Password.

(* ===================================================================== *)
(** ** JWT utilities (jwt.ts) *)
(* ===================================================================== *)

Module JWT.
Section WithExternals.
Context (X : Externals) (env : Env).

(** The clock of jsonwebtoken: [Math.floor(Date.now() / 1000)]. *)
Definition clockTimestamp (now : Z) : Z := now / 1000.

(** The claims [jwt.sign] writes for a payload [{ id, email }] and a
    lifetime of [span] milliseconds: [iat] is the clock, [exp] is [iat]
    plus the lifetime in seconds. *)
Definition stamp (pid pemail : string) (span now : Z) : Jwt.Payload :=
  Jwt.mkPayload (Some pid) (Some pemail) (Some (clockTimestamp now))
                (Some (clockTimestamp now + span / 1000)).

(** The claims together with their HS256 signature. *)
Definition seal (secret : string) (claims : Jwt.Payload) : Jwt.Jws :=
  Jwt.mkJws claims (hmac X secret claims).

(** [jwt.sign(payload, secret, { expiresIn })] of the jsonwebtoken
    package, for a payload [{ id, email }]. *)
Definition sign (pid pemail : string) (secret : string) (expiresIn : string)
    (now : Z) : Result string :=
  if String.eqb secret EmptyString then
    Throw (JsError "Error" "secretOrPrivateKey must have a value")
  else
    match ms X expiresIn with
    | None => Throw (JsError "Error" "expiresIn should be a number of seconds or string representing a timespan")
    | Some span => Ok (jws_encode X (seal secret (stamp pid pemail span now)))
    end.

(** [jwt.verify(token, secret)] of the jsonwebtoken package: structure,
    then signature, then expiry ([clockTimestamp >= payload.exp]). *)
Definition verify (token : string) (secret : string) (now : Z) : Result Jwt.Payload :=
  if String.eqb token EmptyString then
    Throw (JsError "JsonWebTokenError" "jwt must be provided")
  else
    match jws_decode X token with
    | None => Throw (JsError "JsonWebTokenError" "jwt malformed")
    | Some j =>
        if negb (String.eqb (Jwt.signature j) (hmac X secret (Jwt.payload j))) then
          Throw (JsError "JsonWebTokenError" "invalid signature")
        else
          match Jwt.exp (Jwt.payload j) with
          | Some e =>
              if (e <=? clockTimestamp now)%Z then
                Throw (JsError "TokenExpiredError" "jwt expired")
              else Ok (Jwt.payload j)
          | None => Ok (Jwt.payload j)
          end
    end.

(** [process.env.JWT_SECRET || env.JWT_SECRET] *)
Definition jwtSecret : string :=
  JS.orElse (process_env_JWT_SECRET env) (JWT_SECRET env).

(** [process.env.JWT_EXPIRES_IN || env.JWT_EXPIRES_IN || '7d'] *)
Definition jwtExpires : string :=
  JS.orElse (Some (JS.orElse (process_env_JWT_EXPIRES_IN env) (JWT_EXPIRES_IN env))) "7d".

(** [generateToken] *)
Definition generateToken (pid pemail : string) (now : Z) : Result string :=
  tryCatch
    (if String.eqb jwtSecret EmptyString then
       Throw (JsError "Error" "JWT_SECRET is required")
     else sign pid pemail jwtSecret jwtExpires now)
    (fun error => Throw (ApiError "Failed to generate authentication token" 500)).

(** [verifyToken] *)
Definition verifyToken (token : string) (now : Z) : Result Jwt.Payload :=
  tryCatch
    (if String.eqb jwtSecret EmptyString then
       Throw (JsError "Error" "JWT_SECRET not available for verification")
     else
       match verify token jwtSecret now with
       | Ok decoded =>
           if andb (JS.defined (Jwt.id decoded)) (JS.defined (Jwt.email decoded))
           then Ok decoded
           else Throw (ApiError "Invalid token structure" 401)
       | Throw e => Throw e
       end)
    (fun error =>
       if String.eqb (exnName error) "JsonWebTokenError" then
         Throw (ApiError "Invalid authentication token" 401)
       else if String.eqb (exnName error) "TokenExpiredError" then
         Throw (ApiError "Authentication token has expired" 401)
       else Throw (ApiError "Authentication failed" 401)).

End WithExternals.
End JWT.

(* ===================================================================== *)
(** ** State and exceptions *)
(* ===================================================================== *)

(** A computation over a mutable store [S] that may throw.  What was
    written before a throw stays written. *)
Definition Eff (S A : Type) : Type := S -> Result A * S.

Definition ret {S A} (a : A) : Eff S A := fun s => (Ok a, s).

Definition throw {S A} (e : Exn) : Eff S A := fun s => (Throw e, s).

Definition bind {S A B} (m : Eff S A) (k : A -> Eff S B) : Eff S B :=
  fun s =>
    match m s with
    | (Ok a, s') => k a s'
    | (Throw e, s') => (Throw e, s')
    end.

(** [try { m } catch (error) { h }] *)
Definition catch {S A} (m : Eff S A) (h : Exn -> Eff S A) : Eff S A :=
  fun s =>
    match m s with
    | (Ok a, s') => (Ok a, s')
    | (Throw e, s') => h e s'
    end.

Definition lift {S A} (r : Result A) : Eff S A := fun s => (r, s).

Notation "x <- m ;; k" := (bind m (fun x => k))
  (at level 100, m at next level, right associativity).

(** The handler every service function ends with:
    [if (error instanceof ApiError) throw error; throw new ApiError(msg, 500)] *)
Definition rethrowApiOr {S A} (msg : string) (error : Exn) : Eff S A :=
  if isApiError error then throw error else throw (ApiError msg 500).

(* ===================================================================== *)
(** ** The user model (user.model.ts) and the users collection *)
(* ===================================================================== *)

Module UserModel.

(** A record of the users collection, with the fields of [userSchema]
    and the two timestamps Mongoose maintains ([timestamps: true]). *)
Record User : Type := mkUser {
  _id : string;
  name : string;
  email : string;
  password : string;
  age : Q;
  passwordResetToken : option string;
  passwordResetExpires : option Z;
  createdAt : Z;
  updatedAt : Z
}.

(** The collection, in insertion order. *)
Definition Collection : Type := list User.

Definition M (A : Type) : Type := Eff Collection A.

Inductive Path : Type :=
| P_name | P_email | P_password | P_age
| P_passwordResetToken | P_passwordResetExpires.

Definition Path_eqb (p q : Path) : bool :=
  match p, q with
  | P_name, P_name | P_email, P_email | P_password, P_password
  | P_age, P_age | P_passwordResetToken, P_passwordResetToken
  | P_passwordResetExpires, P_passwordResetExpires => true
  | _, _ => false
  end.

Definition hasPath (p : Path) (l : list Path) : bool := existsb (Path_eqb p) l.

(** A Mongoose document: the field values it holds, which of the
    [select: false] paths it holds at all, and its change tracking. *)
Record UserDocument : Type := mkDoc {
  fields : User;
  populated : list Path;
  isNew : bool;
  modifiedPaths : list Path
}.

(** [doc.isModified(path)] *)
Definition isModified (p : Path) (d : UserDocument) : bool :=
  hasPath p (modifiedPaths d).

(** The setters of the schema: [trim] on name; [trim] and [lowercase] on
    email.  Mongoose applies them to assigned values and to the values of
    a query filter alike. *)
Definition castName (s : string) : string := JS.trim s.
Definition castEmail (s : string) : string := JS.trim (JS.toLowerCase s).

Definition with_password (v : string) (u : User) : User :=
  mkUser (_id u) (name u) (email u) v (age u)
         (passwordResetToken u) (passwordResetExpires u) (createdAt u) (updatedAt u).

Definition with_passwordResetToken (v : option string) (u : User) : User :=
  mkUser (_id u) (name u) (email u) (password u) (age u)
         v (passwordResetExpires u) (createdAt u) (updatedAt u).

Definition with_passwordResetExpires (v : option Z) (u : User) : User :=
  mkUser (_id u) (name u) (email u) (password u) (age u)
         (passwordResetToken u) v (createdAt u) (updatedAt u).

Definition with_name (v : string) (u : User) : User :=
  mkUser (_id u) v (email u) (password u) (age u)
         (passwordResetToken u) (passwordResetExpires u) (createdAt u) (updatedAt u).

Definition with_email (v : string) (u : User) : User :=
  mkUser (_id u) (name u) v (password u) (age u)
         (passwordResetToken u) (passwordResetExpires u) (createdAt u) (updatedAt u).

Definition with_age (v : Q) (u : User) : User :=
  mkUser (_id u) (name u) (email u) (password u) v
         (passwordResetToken u) (passwordResetExpires u) (createdAt u) (updatedAt u).

Definition with_timestamps (c m : Z) (u : User) : User :=
  mkUser (_id u) (name u) (email u) (password u) (age u)
         (passwordResetToken u) (passwordResetExpires u) c m.

Definition markModified (p : Path) (d : UserDocument) (f : User) : UserDocument :=
  mkDoc f
        (if hasPath p (populated d) then populated d else p :: populated d)
        (isNew d)
        (if hasPath p (modifiedPaths d) then modifiedPaths d else p :: modifiedPaths d).

(** [user.password]: undefined unless the path was selected or assigned *)
Definition get_password (d : UserDocument) : option string :=
  if hasPath P_password (populated d) then Some (password (fields d)) else None.

(** [user.password = v].  Mongoose marks a path modified when the value
    assigned differs from the one the document holds. *)
Definition set_password (v : string) (d : UserDocument) : UserDocument :=
  if andb (hasPath P_password (populated d)) (String.eqb v (password (fields d)))
  then d
  else markModified P_password d (with_password v (fields d)).

(** [user.passwordResetToken = v] *)
Definition set_passwordResetToken (v : option string) (d : UserDocument) : UserDocument :=
  if andb (hasPath P_passwordResetToken (populated d))
          (bool_decide (v = passwordResetToken (fields d)))
  then d
  else markModified P_passwordResetToken d (with_passwordResetToken v (fields d)).

(** [user.passwordResetExpires = v] *)
Definition set_passwordResetExpires (v : option Z) (d : UserDocument) : UserDocument :=
  if andb (hasPath P_passwordResetExpires (populated d))
          (bool_decide (v = passwordResetExpires (fields d)))
  then d
  else markModified P_passwordResetExpires d (with_passwordResetExpires v (fields d)).

(** The value a document or an update would write for a path passes the
    [required: true] validator of that path. *)
Definition requiredOk (p : Path) (u : User) : bool :=
  match p with
  | P_name => negb (String.eqb (name u) EmptyString)
  | P_email => negb (String.eqb (email u) EmptyString)
  | P_password => negb (String.eqb (password u) EmptyString)
  | _ => true
  end.

Definition allPaths : list Path :=
  [P_name; P_email; P_password; P_age; P_passwordResetToken; P_passwordResetExpires].

(** Validation before save: every path of a new document, the modified
    paths of a loaded one. *)
Definition validateDoc (d : UserDocument) : bool :=
  forallb (fun p => requiredOk p (fields d))
          (if isNew d then allPaths else modifiedPaths d).

(** What a save writes over the stored record [u]: the value of every
    modified path, and [updatedAt]. *)
Definition applyModified (d : UserDocument) (now : Z) (u : User) : User :=
  let f := fields d in
  let pick (p : Path) {A} (new old : A) : A := if isModified p d then new else old in
  mkUser (_id u)
         (pick P_name (name f) (name u))
         (pick P_email (email f) (email u))
         (pick P_password (password f) (password u))
         (pick P_age (age f) (age u))
         (pick P_passwordResetToken (passwordResetToken f) (passwordResetToken u))
         (pick P_passwordResetExpires (passwordResetExpires f) (passwordResetExpires u))
         (createdAt u)
         now.

(** the filter [{ email }] *)
Definition byEmail (e : string) (u : User) : bool :=
  String.eqb (email u) (castEmail e).

(** the filter [{ _id: i }], for an id already cast to an ObjectId *)
Definition byId (i : string) (u : User) : bool := String.eqb (_id u) i.

(** the filter [{ passwordResetToken: token, passwordResetExpires: { $gt: now } }] *)
Definition byResetToken (token : string) (now : Z) (u : User) : bool :=
  match passwordResetToken u, passwordResetExpires u with
  | Some t, Some e => andb (String.eqb t token) (now <? e)%Z
  | _, _ => false
  end.

(** [updateOne]: the first record that matches is rewritten. *)
Fixpoint updateFirst (p : User -> bool) (f : User -> User) (db : Collection) : Collection :=
  match db with
  | [] => []
  | u :: rest => if p u then f u :: rest else u :: updateFirst p f rest
  end.

Section WithExternals.
Context (X : Externals) (env : Env).

(** The [pre('save')] hook: hash the password if it was modified. *)
Definition preSave (d : UserDocument) (salt : string) : UserDocument :=
  if negb (isModified P_password d) then d
  else mkDoc (with_password (Password.hashPassword X env (password (fields d)) salt) (fields d))
             (populated d) (isNew d) (modifiedPaths d).

(** [await user.save()]: validation, the pre-save hook, then an insert
    (new document; the unique index on email is enforced) or an update
    of the modified paths.  Returns the document as it is afterwards. *)
Definition save (d : UserDocument) (now : Z) (salt : string) : M UserDocument :=
  fun db =>
    if negb (validateDoc d) then
      (Throw (JsError "ValidationError" "User validation failed"), db)
    else
      let d1 := preSave d salt in
      if isNew d1 then
        if existsb (fun u => String.eqb (email u) (email (fields d1))) db then
          (Throw (JsError "MongoServerError" "E11000 duplicate key error"), db)
        else
          let row := with_timestamps now now (fields d1) in
          (Ok (mkDoc row (populated d1) false []), db ++ [row])
      else
        match modifiedPaths d1 with
        | [] => (Ok d1, db)
        | _ :: _ =>
            (Ok (mkDoc (applyModified d1 now (fields d1)) (populated d1) false []),
             updateFirst (byId (_id (fields d1))) (applyModified d1 now) db)
        end.

End WithExternals.

(** A record as a query hands it out: a document that holds the
    [select: false] paths named in [select] only. *)
Definition hydrate (select : list Path) (u : User) : UserDocument :=
  mkDoc u select false [].

(** [User.findOne(filter).select(...)]: the first record that matches *)
Definition findOne (filter : User -> bool) (select : list Path) : M (option UserDocument) :=
  fun db => (Ok (option_map (hydrate select) (find filter db)), db).

(** [new User(userData)]: the setters run on construction; [oid] is the
    ObjectId the driver generates. *)
Definition newUser (oid : string) (n e p : string) (a : Q) : UserDocument :=
  mkDoc (mkUser oid (castName n) (castEmail e) p a None None 0 0)
        [P_password] true [P_name; P_email; P_password; P_age].

(** [user.toJSON()] with the schema's options: the [id] virtual is added
    and the transform deletes [_id], [__v] and [password]. *)
Definition toJSON (d : UserDocument) : JS.object :=
  let u := fields d in
  let opt (p : Path) (kv : list (string * JS.value)) :=
    if hasPath p (populated d) then kv else [] in
  let ret :=
    [("_id", JS.JStr (_id u)); ("name", JS.JStr (name u)); ("email", JS.JStr (email u))]
    ++ opt P_password [("password", JS.JStr (password u))]
    ++ [("age", JS.JNum (age u))]
    ++ opt P_passwordResetToken
         [("passwordResetToken",
           match passwordResetToken u with Some t => JS.JStr t | None => JS.JNull end)]
    ++ opt P_passwordResetExpires
         [("passwordResetExpires",
           match passwordResetExpires u with Some t => JS.JDate t | None => JS.JNull end)]
    ++ [("createdAt", JS.JDate (createdAt u)); ("updatedAt", JS.JDate (updatedAt u));
        ("__v", JS.JNum 0); ("id", JS.JStr (_id u))] in
  JS.delete "password" (JS.delete "__v" (JS.delete "_id" ret)).

End UserModel.

(* ===================================================================== *)
(** ** Queries by id *)
(* ===================================================================== *)

Module UserQueries.
Import UserModel.

(** A string Mongoose casts to an ObjectId: 24 hexadecimal digits. *)
Definition isObjectId (s : string) : bool :=
  andb (JS.strlen s =? 24)%Z (JS.forallChars JS.isHexDigit s).

(** The ObjectId a well-formed string denotes, printed the way stored ids
    are: in lower case. *)
Definition objectIdOf (s : string) : string := JS.toLowerCase s.

Definition castError {A} : Result A :=
  Throw (JsError "CastError" "Cast to ObjectId failed for value at path _id").

(** [User.findById(id)]: the id is cast, then looked up. *)
Definition findById (i : string) (select : list Path) : M (option UserDocument) :=
  fun db =>
    if isObjectId i then findOne (byId (objectIdOf i)) select db
    else (castError, db).

(** [deleteOne]: the first record that matches is removed. *)
Fixpoint removeFirst (p : User -> bool) (db : Collection) : Collection :=
  match db with
  | [] => []
  | u :: rest => if p u then rest else u :: removeFirst p rest
  end.

(** [User.findByIdAndDelete(id)]: returns the record it removed, if any. *)
Definition findByIdAndDelete (i : string) : M (option UserDocument) :=
  fun db =>
    if isObjectId i then
      match find (byId (objectIdOf i)) db with
      | Some u => (Ok (Some (hydrate [] u)), removeFirst (byId (objectIdOf i)) db)
      | None => (Ok None, db)
      end
    else (castError, db).

End UserQueries.

(* ===================================================================== *)
(** ** Node's crypto module, as far as the service uses it *)
(* ===================================================================== *)

Module Crypto.

Definition hexDigit (n : N) : ascii :=
  if (n <? 10)%N then ascii_of_N (48 + n) else ascii_of_N (87 + n).

Definition hexByte (b : Byte.byte) : list ascii :=
  let n := Byte.to_N b in [hexDigit (n / 16)%N; hexDigit (n mod 16)%N].

(** [buffer.toString('hex')] *)
Definition toHex (bs : list Byte.byte) : string :=
  string_of_list_ascii (flat_map hexByte bs).

(** [crypto.randomBytes(n)], reading the entropy source [rnd] *)
Definition randomBytes (rnd : nat -> Byte.byte) (n : nat) : list Byte.byte :=
  map rnd (seq 0 n).

End Crypto.

(* ===================================================================== *)
(** ** Authentication types (auth.types.ts) *)
(* ===================================================================== *)

Module RegisterUserData.
Record t : Type := mk { name : string; email : string; password : string; age : Q }.
End RegisterUserData.

Module LoginCredentials.
Record t : Type := mk { email : string; password : string }.
End LoginCredentials.

Module ChangePasswordData.
Record t : Type := mk { currentPassword : string; newPassword : string }.
End ChangePasswordData.

Module PasswordResetRequestData.
Record t : Type := mk { email : string }.
End PasswordResetRequestData.

Module PasswordResetData.
Record t : Type := mk { token : string; newPassword : string }.
End PasswordResetData.

(** [{ success, message, data: { user, token } }] *)
Module AuthResponse.
Record t : Type := mk {
  success : bool;
  message : string;
  data_user : JS.object;
  data_token : string
}.
End AuthResponse.

(** [{ success, message, resetToken? }] *)
Module ResetRequestResponse.
Record t : Type := mk {
  success : bool;
  message : string;
  resetToken : option string
}.
End ResetRequestResponse.

(** [{ success, message }] *)
Module MessageResponse.
Record t : Type := mk { success : bool; message : string }.
End MessageResponse.

Module TokenVerificationResult.
Record t : Type := mk {
  valid : bool;
  user : option (string * string);
  error : option string
}.
End TokenVerificationResult.

(* ===================================================================== *)
(** ** The authentication service (auth.service.ts) *)
(* ===================================================================== *)

Module AuthService.
Import UserModel.

Section WithExternals.
Context (X : Externals) (env : Env).

(** [registerUser] *)
Definition registerUser (userData : RegisterUserData.t) (now : Z) (oid salt : string)
    : M AuthResponse.t :=
  catch
    (existingUser <- findOne (byEmail (RegisterUserData.email userData)) [] ;;
     match existingUser with
     | Some _ => throw (ApiError "Email already registered" 409)
     | None =>
         user <- save X env
                   (newUser oid (RegisterUserData.name userData)
                            (RegisterUserData.email userData)
                            (RegisterUserData.password userData)
                            (RegisterUserData.age userData))
                   now salt ;;
         token <- lift (JWT.generateToken X env (_id (fields user)) (email (fields user)) now) ;;
         ret (AuthResponse.mk true "User registered successfully" (toJSON user) token)
     end)
    (rethrowApiOr "Registration failed").

(** [loginUser] *)
Definition loginUser (credentials : LoginCredentials.t) (now : Z) : M AuthResponse.t :=
  catch
    (user <- findOne (byEmail (LoginCredentials.email credentials)) [P_password] ;;
     match user with
     | None => throw (ApiError "Invalid login credentials" 401)
     | Some user =>
         isPasswordValid <-
           lift (Password.comparePassword X (LoginCredentials.password credentials)
                                          (get_password user)) ;;
         if negb isPasswordValid then throw (ApiError "Invalid login credentials" 401)
         else
           token <- lift (JWT.generateToken X env (_id (fields user)) (email (fields user)) now) ;;
           ret (AuthResponse.mk true "Login successful" (toJSON user) token)
     end)
    (rethrowApiOr "Login failed").

(** [changePassword] *)
Definition changePassword (userId : string) (passwordData : ChangePasswordData.t)
    (now : Z) (salt : string) : M MessageResponse.t :=
  catch
    (user <- UserQueries.findById userId [P_password] ;;
     match user with
     | None => throw (ApiError "User not found" 404)
     | Some user =>
         isCurrentPasswordValid <-
           lift (Password.comparePassword X (ChangePasswordData.currentPassword passwordData)
                                          (get_password user)) ;;
         if negb isCurrentPasswordValid then
           throw (ApiError "Current password is incorrect" 400)
         else
           let user := set_password (ChangePasswordData.newPassword passwordData) user in
           _ <- save X env user now salt ;;
           ret (MessageResponse.mk true "Password changed successfully")
     end)
    (rethrowApiOr "Password change failed").

(** [requestPasswordReset] *)
Definition requestPasswordReset (requestData : PasswordResetRequestData.t)
    (now : Z) (rnd : nat -> Byte.byte) (salt : string) : M ResetRequestResponse.t :=
  catch
    (user <- findOne (byEmail (PasswordResetRequestData.email requestData)) [] ;;
     match user with
     | None =>
         ret (ResetRequestResponse.mk true
                "If the email exists, a password reset link has been sent" None)
     | Some user =>
         let resetToken := Crypto.toHex (Crypto.randomBytes rnd 32) in
         let resetTokenExpiry := now + 15 * 60 * 1000 in
         let user := set_passwordResetToken (Some resetToken) user in
         let user := set_passwordResetExpires (Some resetTokenExpiry) user in
         _ <- save X env user now salt ;;
         ret (ResetRequestResponse.mk true "Password reset token generated" (Some resetToken))
     end)
    (fun error => throw (ApiError "Password reset request failed" 500)).

(** [resetPassword] *)
Definition resetPassword (resetData : PasswordResetData.t) (now : Z) (salt : string)
    : M MessageResponse.t :=
  catch
    (user <- findOne (byResetToken (PasswordResetData.token resetData) now) [] ;;
     match user with
     | None => throw (ApiError "Invalid or expired reset token" 400)
     | Some user =>
         let user := set_password (PasswordResetData.newPassword resetData) user in
         let user := set_passwordResetToken None user in
         let user := set_passwordResetExpires None user in
         _ <- save X env user now salt ;;
         ret (MessageResponse.mk true "Password reset successful")
     end)
    (rethrowApiOr "Password reset failed").

(** [verifyAuthToken]: never throws *)
Definition verifyAuthToken (token : string) (now : Z) : M TokenVerificationResult.t :=
  catch
    (decoded <- lift (JWT.verifyToken X env token now) ;;
     user <- UserQueries.findById (default EmptyString (Jwt.id decoded)) [] ;;
     match user with
     | None => ret (TokenVerificationResult.mk false None (Some "User no longer exists"))
     | Some _ =>
         ret (TokenVerificationResult.mk true
                (Some (default EmptyString (Jwt.id decoded),
                       default EmptyString (Jwt.email decoded)))
                None)
     end)
    (fun error =>
       ret (TokenVerificationResult.mk false None (Some "Invalid or expired token"))).

(** [getAuthenticatedUserProfile] *)
Definition getAuthenticatedUserProfile (userId : string) : M JS.object :=
  catch
    (user <- UserQueries.findById userId [] ;;
     match user with
     | None => throw (ApiError "User not found" 404)
     | Some user => ret (toJSON user)
     end)
    (rethrowApiOr "Failed to get user profile").

End WithExternals.
End AuthService.

(* ===================================================================== *)
(** ** User types (user.types.ts, api.types.ts) and the query engine *)
(* ===================================================================== *)

Module CreateUserData.
Record t : Type := mk { name : string; email : string; password : string; age : Q }.
End CreateUserData.

Inductive SortField : Type := ByName | ByEmail | ByAge | ByCreatedAt.

Inductive SortOrder : Type := Asc | Desc.

(** [UserQueryParams]: every field may be undefined.  Page and limit are
    integers, as the query schema has them. *)
Module UserQueryParams.
Record t : Type := mk {
  page : option Z;
  limit : option Z;
  age : option Q;
  sortBy : option SortField;
  sortOrder : option SortOrder;
  search : option string
}.
End UserQueryParams.

(** A JavaScript number that a division of integers followed by
    [Math.ceil] can give. *)
Module JSNum.

Inductive t : Type :=
| Finite (z : Z)
| Infinity
| NegInfinity
| NaN.

(** [Math.ceil(a / b)] for integers [a] and [b] *)
Definition ceilDiv (a b : Z) : t :=
  if (b =? 0)%Z then
    if (a =? 0)%Z then NaN else if (0 <? a)%Z then Infinity else NegInfinity
  else Finite (- ((- a) / b)).

(** [a < n] for an integer [a] *)
Definition lt (a : Z) (n : t) : bool :=
  match n with
  | Finite z => (a <? z)%Z
  | Infinity => true
  | NegInfinity => false
  | NaN => false
  end.

End JSNum.

Module Pagination.
Record t : Type := mk {
  page : Z;
  limit : Z;
  total : Z;
  totalPages : JSNum.t;
  hasNext : bool;
  hasPrev : bool
}.
End Pagination.

(** [PaginatedResponse<IUser>] *)
Module PaginatedResponse.
Record t : Type := mk {
  success : bool;
  message : string;
  data : list JS.object;
  pagination : Pagination.t
}.
End PaginatedResponse.

(** The filter [getUsers] builds: [{ age }] and
    [{ $or: [{ name: { $regex, $options: 'i' } }, { email: ... }] }],
    each present or not. *)
Record Filter : Type := mkFilter {
  filter_age : option Q;
  filter_search : option string
}.

(** What MongoDB computes for [getUsers]:
    [User.find(filter).sort({ [sortBy]: order }).skip(skip).limit(limit).lean()]
    and [User.countDocuments(filter)].  Either may fail. *)
Record QueryEngine : Type := mkEngine {
  findPage : Filter -> SortField -> SortOrder -> Z -> Z -> UserModel.Collection
             -> Result (list UserModel.User);
  countDocuments : Filter -> UserModel.Collection -> Result Z
}.

(* ===================================================================== *)
(** ** The user service (user.service.ts) *)
(* ===================================================================== *)

Module UserService.
Import UserModel.

(** [getUserByEmail] *)
Definition getUserByEmail (e : string) (includePassword : bool) : M (option UserDocument) :=
  catch
    (findOne (byEmail (JS.toLowerCase e)) (if includePassword then [P_password] else []))
    (fun error => throw (ApiError "Failed to fetch user" 500)).

(** One write of a [$set], after casting against the schema. *)
Inductive Assignment : Type :=
| SetName (v : string)
| SetEmail (v : string)
| SetPassword (v : string)
| SetAge (v : Q)
| SetPasswordResetToken (v : option string)
| SetPasswordResetExpires (v : option Z).

(** Casting one entry of a [$set] against the schema.  A key the schema
    does not declare is dropped (strict mode).  A value of the declared
    type is taken through the path's setters; a value of another type is
    reported as a cast error (Mongoose would convert some of them). *)
Definition castSet (kv : string * JS.value) : Result (option Assignment) :=
  let (k, v) := kv in
  let castError := Throw (JsError "CastError" "Cast failed for value at path") in
  if String.eqb k "name" then
    match v with JS.JStr s => Ok (Some (SetName (castName s))) | _ => castError end
  else if String.eqb k "email" then
    match v with JS.JStr s => Ok (Some (SetEmail (castEmail s))) | _ => castError end
  else if String.eqb k "password" then
    match v with JS.JStr s => Ok (Some (SetPassword s)) | _ => castError end
  else if String.eqb k "age" then
    match v with JS.JNum q => Ok (Some (SetAge q)) | _ => castError end
  else if String.eqb k "passwordResetToken" then
    match v with
    | JS.JStr s => Ok (Some (SetPasswordResetToken (Some s)))
    | JS.JNull => Ok (Some (SetPasswordResetToken None))
    | _ => castError
    end
  else if String.eqb k "passwordResetExpires" then
    match v with
    | JS.JDate d => Ok (Some (SetPasswordResetExpires (Some d)))
    | JS.JNull => Ok (Some (SetPasswordResetExpires None))
    | _ => castError
    end
  else Ok None.

Fixpoint castUpdate (updateData : JS.object) : Result (list Assignment) :=
  match updateData with
  | [] => Ok []
  | kv :: rest =>
      match castSet kv, castUpdate rest with
      | Ok (Some a), Ok l => Ok (a :: l)
      | Ok None, Ok l => Ok l
      | Throw e, _ => Throw e
      | _, Throw e => Throw e
      end
  end.

Definition assign (u : User) (a : Assignment) : User :=
  match a with
  | SetName v => with_name v u
  | SetEmail v => with_email v u
  | SetPassword v => with_password v u
  | SetAge v => with_age v u
  | SetPasswordResetToken v => with_passwordResetToken v u
  | SetPasswordResetExpires v => with_passwordResetExpires v u
  end.

(** [runValidators]: the [required] validator of a path that is set *)
Definition validAssignment (a : Assignment) : bool :=
  match a with
  | SetName v | SetEmail v | SetPassword v => negb (String.eqb v EmptyString)
  | _ => true
  end.

(** [User.findByIdAndUpdate(userId, { $set: updateData },
    { new: true, runValidators: true })]: the id is cast to an ObjectId,
    the update is cast and validated, then applied to the record with
    that id, if any, together with [updatedAt]; the unique index on email
    is enforced.  Returns the updated record as a document without the
    [select: false] paths. *)
Definition findByIdAndUpdate (userId : string) (updateData : JS.object) (now : Z)
    : M (option UserDocument) :=
  fun db =>
    if negb (UserQueries.isObjectId userId) then (UserQueries.castError, db)
    else
      let oid := UserQueries.objectIdOf userId in
      match castUpdate updateData with
      | Throw e => (Throw e, db)
      | Ok writes =>
          if negb (forallb validAssignment writes) then
            (Throw (JsError "ValidationError" "Validation failed"), db)
          else
            match find (byId oid) db with
            | None => (Ok None, db)
            | Some u =>
                let u' := with_timestamps (createdAt u) now (fold_left assign writes u) in
                if existsb (fun w => andb (negb (String.eqb (_id w) (_id u)))
                                          (String.eqb (email w) (email u'))) db
                then (Throw (JsError "MongoServerError" "E11000 duplicate key error"), db)
                else (Ok (Some (hydrate [] u')), updateFirst (byId oid) (fun _ => u') db)
            end
      end.

(** [updateUser] *)
Definition updateUser (userId : string) (updateData : JS.object) (now : Z) : M JS.object :=
  catch
    (user <- findByIdAndUpdate userId updateData now ;;
     match user with
     | None => throw (ApiError "User not found" 404)
     | Some user => ret (toJSON user)
     end)
    (rethrowApiOr "Failed to update user").

(** [getUserById] *)
Definition getUserById (userId : string) : M JS.object :=
  catch
    (user <- UserQueries.findById userId [] ;;
     match user with
     | None => throw (ApiError "User not found" 404)
     | Some user => ret (toJSON user)
     end)
    (rethrowApiOr "Failed to fetch user").

(** [deleteUser] *)
Definition deleteUser (userId : string) : M unit :=
  catch
    (user <- UserQueries.findByIdAndDelete userId ;;
     match user with
     | None => throw (ApiError "User not found" 404)
     | Some _ => ret tt
     end)
    (rethrowApiOr "Failed to delete user").

(** The object [getUsers] makes of a record:
    [{ id, name, email, age, createdAt, updatedAt }]. *)
Definition listed (user : User) : JS.object :=
  [("id", JS.JStr (_id user)); ("name", JS.JStr (name user));
   ("email", JS.JStr (email user)); ("age", JS.JNum (age user));
   ("createdAt", JS.JDate (createdAt user)); ("updatedAt", JS.JDate (updatedAt user))].

(** [if (age)] for a number *)
Definition truthyNumber (v : option Q) : bool :=
  match v with
  | Some q => negb (Qeq_bool q 0)
  | None => false
  end.

(** [getUsers] *)
Definition getUsers (E : QueryEngine) (queryParams : UserQueryParams.t)
    : M PaginatedResponse.t :=
  catch
    (let page := default 1 (UserQueryParams.page queryParams) in
     let limit := default 10 (UserQueryParams.limit queryParams) in
     let age := UserQueryParams.age queryParams in
     let sortBy := default ByCreatedAt (UserQueryParams.sortBy queryParams) in
     let sortOrder := default Desc (UserQueryParams.sortOrder queryParams) in
     let search := UserQueryParams.search queryParams in
     let filter :=
       mkFilter (if truthyNumber age then age else None)
                (if JS.truthy search then search else None) in
     let skip := (page - 1) * limit in
     users <- (fun db => (findPage E filter sortBy sortOrder skip limit db, db)) ;;
     total <- (fun db => (countDocuments E filter db, db)) ;;
     let totalPages := JSNum.ceilDiv total limit in
     let hasNext := JSNum.lt page totalPages in
     let hasPrev := (1 <? page)%Z in
     ret (PaginatedResponse.mk true "Users retrieved successfully"
            (map listed users)
            (Pagination.mk page limit total totalPages hasNext hasPrev)))
    (fun error => throw (ApiError "Failed to fetch users" 500)).

Section WithExternals.
Context (X : Externals) (env : Env).

(** [createUser] *)
Definition createUser (userData : CreateUserData.t) (now : Z) (oid salt : string)
    : M JS.object :=
  catch
    (existingUser <- findOne (byEmail (CreateUserData.email userData)) [] ;;
     match existingUser with
     | Some _ => throw (ApiError "Email already registered" 409)
     | None =>
         user <- save X env
                   (newUser oid (CreateUserData.name userData)
                            (CreateUserData.email userData)
                            (CreateUserData.password userData)
                            (CreateUserData.age userData))
                   now salt ;;
         ret (toJSON user)
     end)
    (rethrowApiOr "Failed to create user").

End WithExternals.

End UserService.

(* ===================================================================== *)
(** ** Requests, responses and middleware outcomes *)
(* ===================================================================== *)

(** [req.user] of an [AuthenticatedRequest] *)
Module AuthUser.
Record t : Type := mk { id : string; email : string }.
End AuthUser.

(** The parts of an Express request the pipeline reads or writes. *)
Module Request.
Record t : Type := mk {
  ip : string;
  headers_authorization : option string;
  params_id : option string;
  body : JS.object;
  user : option AuthUser.t
}.

Definition with_user (u : option AuthUser.t) (r : t) : t :=
  mk (ip r) (headers_authorization r) (params_id r) (body r) u.

Definition with_body (b : JS.object) (r : t) : t :=
  mk (ip r) (headers_authorization r) (params_id r) b (user r).

Definition with_params_id (i : option string) (r : t) : t :=
  mk (ip r) (headers_authorization r) i (body r) (user r).
End Request.

(** What a middleware does with a request: [next()] with the request as it
    left it, or [next(error)] / a throw, which ends at the error handler. *)
Inductive Outcome : Type :=
| Next (req : Request.t)
| Reject (error : Exn).

(** The response envelope [{ success, message, data? }] and its status. *)
Module Response.
Record t : Type := mk {
  statusCode : Z;
  success : bool;
  message : string;
  data : option JS.object
}.
End Response.

(** [globalErrorHandler] *)
Definition globalErrorHandler (err : Exn) : Response.t :=
  Response.mk (statusOf err) false
              (if String.eqb (exnMessage err) EmptyString then "Internal server error"
               else exnMessage err)
              None.

(* ===================================================================== *)
(** ** Authentication middleware (auth.ts) *)
(* ===================================================================== *)

Module AuthMiddleware.
Import UserModel.

(** [extractToken] *)
Definition extractToken (req : Request.t) : option string :=
  match Request.headers_authorization req with
  | Some authHeader =>
      if andb (JS.truthy (Some authHeader)) (JS.startsWith authHeader "Bearer ")
      then Some (JS.substringFrom 7 authHeader)
      else None
  | None => None
  end.

Section WithExternals.
Context (X : Externals) (env : Env).

(** [authenticate] *)
Definition authenticate (req : Request.t) (now : Z) : M Outcome :=
  catch
    (match extractToken req with
     | Some token =>
         if negb (JS.truthy (Some token)) then
           throw (ApiError "Access token is required. Please log in." 401)
         else
           decoded <- lift (JWT.verifyToken X env token now) ;;
           match Jwt.id decoded, Jwt.email decoded with
           | Some did, Some demail =>
               if orb (negb (JS.truthy (Some did))) (negb (JS.truthy (Some demail))) then
                 throw (ApiError "Invalid token. Please log in again." 401)
               else
                 currentUser <- UserService.getUserByEmail demail false ;;
                 match currentUser with
                 | None =>
                     throw (ApiError "The user belonging to this token no longer exists." 401)
                 | Some currentUser =>
                     ret (Next (Request.with_user
                                  (Some (AuthUser.mk (_id (fields currentUser))
                                                     (email (fields currentUser))))
                                  req))
                 end
           | _, _ => throw (ApiError "Invalid token. Please log in again." 401)
           end
     | None => throw (ApiError "Access token is required. Please log in." 401)
     end)
    (fun error =>
       if isApiError error then ret (Reject error)
       else ret (Reject (ApiError "Authentication failed. Please log in again." 401))).

(** [optionalAuth] *)
Definition optionalAuth (req : Request.t) (now : Z) : M Outcome :=
  catch
    (match extractToken req with
     | Some token =>
         if negb (JS.truthy (Some token)) then ret (Next req)
         else
           decoded <- lift (JWT.verifyToken X env token now) ;;
           match Jwt.id decoded, Jwt.email decoded with
           | Some did, Some demail =>
               if orb (negb (JS.truthy (Some did))) (negb (JS.truthy (Some demail))) then
                 ret (Next req)
               else
                 currentUser <- UserService.getUserByEmail demail false ;;
                 match currentUser with
                 | None => ret (Next req)
                 | Some currentUser =>
                     ret (Next (Request.with_user
                                  (Some (AuthUser.mk (_id (fields currentUser))
                                                     (email (fields currentUser))))
                                  req))
                 end
           | _, _ => ret (Next req)
           end
     | None => ret (Next req)
     end)
    (fun error => ret (Next req)).

End WithExternals.

(** [requireSelfAccess] *)
Definition requireSelfAccess (req : Request.t) : Outcome :=
  let resourceId := Request.params_id req in
  match Request.user req with
  | None => Reject (ApiError "You must be logged in to access this resource." 401)
  | Some authUser =>
      if negb (JS.truthy resourceId) then
        Reject (ApiError "Resource ID is required." 400)
      else if negb (bool_decide (Some (AuthUser.id authUser) = resourceId)) then
        Reject (ApiError "You can only access your own resources." 403)
      else Next req
  end.

(** [restrictTo(...roles)]: the roles are not looked at *)
Definition restrictTo (roles : list string) (req : Request.t) : Outcome :=
  match Request.user req with
  | None => Reject (ApiError "You must be logged in to access this resource." 401)
  | Some _ => Next req
  end.

End AuthMiddleware.

(* ===================================================================== *)
(** ** Request validation (user.schemas.ts, validation.ts) *)
(* ===================================================================== *)

Module Zod.

Record Issue : Type := mkIssue { path : list string; message : string }.

(** The result of [schema.parse]: the transformed value, or the
    [ZodError] with every issue found. *)
Inductive ParseResult (A : Type) : Type :=
| Success (a : A)
| Failure (issues : list Issue).
Arguments Success {A} a.
Arguments Failure {A} issues.

Definition issueIf (failed : bool) (p : list string) (msg : string) : list Issue :=
  if failed then [mkIssue p msg] else [].

(** The name zod has for the type of a value it received. *)
Definition received (v : JS.value) : string :=
  match v with
  | JS.JNull => "null"
  | JS.JBool _ => "boolean"
  | JS.JNum _ => "number"
  | JS.JStr _ => "string"
  | JS.JDate _ => "date"
  | JS.JArray => "array"
  | JS.JObject => "object"
  end.

(** The issue for a value of another type than the one declared. *)
Definition invalidType (p : list string) (expected : string) (v : JS.value) : Issue :=
  mkIssue p ("Expected " ++ expected ++ ", received " ++ received v)%string.

(** A field that is present with another type than the one declared.
    Its issue is fatal: the enclosing object is invalid and the
    refinements on it do not run. *)
Definition mistyped (isType : JS.value -> bool) (v : option JS.value) : bool :=
  match v with
  | Some x => negb (isType x)
  | None => false
  end.

(** [err.path.join('.')] *)
Fixpoint joinWith (sep : string) (l : list string) : string :=
  match l with
  | [] => EmptyString
  | [x] => x
  | x :: rest => (x ++ sep ++ joinWith sep rest)%string
  end.

(** [error.issues.map(err => path + ': ' + message).join(', ')] *)
Definition errorMessages (issues : list Issue) : string :=
  joinWith ", " (map (fun i => (joinWith "." (path i) ++ ": " ++ message i)%string) issues).

End Zod.

Module UserSchemas.
Import Zod.

(** What a request-level schema is parsed from:
    [{ body: req.body || {}, params: req.params || {} }]. *)
Record RequestData : Type := mkRequestData {
  rd_body : JS.object;
  rd_params_id : option string
}.

(** What a request-level schema yields; a part the schema does not
    declare is stripped, hence undefined. *)
Record ValidatedData : Type := mkValidated {
  v_body : option JS.object;
  v_params_id : option (option string)
}.

(** [z.string().min(2).max(50).trim().regex(/^[a-zA-Z\s]+$/).optional()]
    for the field [name] of the update body: the checks run in order,
    the pattern on the trimmed value. *)
Definition parseUpdateName (v : option JS.value) : list Issue * option string :=
  match v with
  | None => ([], None)
  | Some (JS.JStr s) =>
      let t := JS.trim s in
      (issueIf (JS.strlen s <? 2)%Z ["body"; "name"] "Name must be at least 2 characters long"
       ++ issueIf (50 <? JS.strlen s)%Z ["body"; "name"] "Name must be at most 50 characters long"
       ++ issueIf (negb (andb (negb (String.eqb t EmptyString))
                              (JS.forallChars (fun c => orb (JS.isLetter c) (JS.isSpace c)) t)))
                  ["body"; "name"] "Name can only contain letters and spaces",
       Some t)
  | Some v => ([invalidType ["body"; "name"] "string" v], None)
  end.

(** [z.number().int().min(13).max(120).optional()] *)
Definition parseUpdateAge (v : option JS.value) : list Issue * option Q :=
  match v with
  | None => ([], None)
  | Some (JS.JNum q) =>
      (issueIf (negb (JS.isInteger q)) ["body"; "age"] "Age must be an integer"
       ++ issueIf (negb (Qle_bool 13 q)) ["body"; "age"] "Age must be at least 13"
       ++ issueIf (negb (Qle_bool q 120)) ["body"; "age"] "Age must be at most 120",
       Some q)
  | Some v => ([invalidType ["body"; "age"] "number" v], None)
  end.

(** The object a [z.object] with the fields [name] and [age] yields:
    the fields that are defined, and no other key. *)
Definition updateBody (n : option string) (a : option Q) : JS.object :=
  match n with Some s => [("name", JS.JStr s)] | None => [] end
  ++ match a with Some q => [("age", JS.JNum q)] | None => [] end.

(** [updateUserSchema]: only [body] is declared, with [name] and [age],
    and the refinement that one of them is given, which runs unless a
    field has another type than declared. *)
Definition updateUserSchema (d : RequestData) : ParseResult ValidatedData :=
  let (nameIssues, n) := parseUpdateName (JS.get "name" (rd_body d)) in
  let (ageIssues, a) := parseUpdateAge (JS.get "age" (rd_body d)) in
  let refineIssues :=
    if orb (mistyped JS.isString (JS.get "name" (rd_body d)))
           (mistyped JS.isNumber (JS.get "age" (rd_body d)))
    then []
    else issueIf (negb (orb (JS.truthy n) (JS.defined a))) ["body"]
                 "At least one field (name or age) must be provided for update" in
  match nameIssues ++ ageIssues ++ refineIssues with
  | [] => Success (mkValidated (Some (updateBody n a)) None)
  | issues => Failure issues
  end.

(** [userParamsSchema.shape.params]:
    [id: z.string().min(1).regex(/^[0-9a-fA-F]{24}$/)] *)
Definition userParamsSchema_params (paramsId : option string) : ParseResult (option string) :=
  match paramsId with
  | None => Failure [mkIssue ["id"] "Required"]
  | Some s =>
      match issueIf (JS.strlen s <? 1)%Z ["id"] "User ID is required"
            ++ issueIf (negb (andb (JS.strlen s =? 24)%Z (JS.forallChars JS.isHexDigit s)))
                       ["id"] "Invalid user ID format" with
      | [] => Success (Some s)
      | issues => Failure issues
      end
  end.

End UserSchemas.

(** The request schemas of auth.schemas.ts that have no email field. *)
Module AuthSchemas.
Import Zod UserSchemas.

(** The pattern [/^\S+$/] *)
Definition noSpaces (s : string) : bool :=
  andb (negb (String.eqb s EmptyString)) (JS.forallChars (fun c => negb (JS.isSpace c)) s).

(** [z.string().min(1, ...).max(128, ...)] for [currentPassword] *)
Definition parseCurrentPassword (v : option JS.value) : list Issue * option string :=
  match v with
  | Some (JS.JStr s) =>
      (issueIf (JS.strlen s <? 1)%Z ["body"; "currentPassword"] "Current password is required"
       ++ issueIf (128 <? JS.strlen s)%Z ["body"; "currentPassword"]
                  "Current password must be at most 128 characters long",
       Some s)
  | Some v => ([invalidType ["body"; "currentPassword"] "string" v], None)
  | None => ([mkIssue ["body"; "currentPassword"] "Required"], None)
  end.

(** [z.string().min(6, ...).max(128, ...).regex(/^\S+$/, ...)] for
    [newPassword] *)
Definition parseNewPassword (v : option JS.value) : list Issue * option string :=
  match v with
  | Some (JS.JStr s) =>
      (issueIf (JS.strlen s <? 6)%Z ["body"; "newPassword"]
               "New password must be at least 6 characters long"
       ++ issueIf (128 <? JS.strlen s)%Z ["body"; "newPassword"]
                  "New password must be at most 128 characters long"
       ++ issueIf (negb (noSpaces s)) ["body"; "newPassword"]
                  "New password cannot contain spaces",
       Some s)
  | Some v => ([invalidType ["body"; "newPassword"] "string" v], None)
  | None => ([mkIssue ["body"; "newPassword"] "Required"], None)
  end.

(** [z.string().min(1, ...).max(500, ...)] for the reset [token] *)
Definition parseResetToken (v : option JS.value) : list Issue * option string :=
  match v with
  | Some (JS.JStr s) =>
      (issueIf (JS.strlen s <? 1)%Z ["body"; "token"] "Reset token is required"
       ++ issueIf (500 <? JS.strlen s)%Z ["body"; "token"] "Invalid reset token format",
       Some s)
  | Some v => ([invalidType ["body"; "token"] "string" v], None)
  | None => ([mkIssue ["body"; "token"] "Required"], None)
  end.

(** [changePasswordSchema]: the refinement runs once both fields are
    strings, and reports at [newPassword]. *)
Definition changePasswordSchema (d : RequestData) : ParseResult ValidatedData :=
  let (currentIssues, current) :=
    parseCurrentPassword (JS.get "currentPassword" (rd_body d)) in
  let (newIssues, new) := parseNewPassword (JS.get "newPassword" (rd_body d)) in
  match current, new with
  | Some c, Some n =>
      match currentIssues ++ newIssues
            ++ issueIf (String.eqb c n) ["body"; "newPassword"]
                       "New password must be different from current password" with
      | [] => Success (mkValidated
                         (Some [("currentPassword", JS.JStr c); ("newPassword", JS.JStr n)])
                         None)
      | issues => Failure issues
      end
  | _, _ => Failure (currentIssues ++ newIssues)
  end.

(** [passwordResetSchema] *)
Definition passwordResetSchema (d : RequestData) : ParseResult ValidatedData :=
  let (tokenIssues, token) := parseResetToken (JS.get "token" (rd_body d)) in
  let (newIssues, new) := parseNewPassword (JS.get "newPassword" (rd_body d)) in
  match token, new with
  | Some t, Some n =>
      match tokenIssues ++ newIssues with
      | [] => Success (mkValidated (Some [("token", JS.JStr t); ("newPassword", JS.JStr n)])
                                   None)
      | issues => Failure issues
      end
  | _, _ => Failure (tokenIssues ++ newIssues)
  end.

End AuthSchemas.

Module Validation.
Import Zod UserSchemas.

(** [validateRequest(schema)] *)
Definition validateRequest (schema : RequestData -> ParseResult ValidatedData)
    (req : Request.t) : Outcome :=
  let requestData := mkRequestData (Request.body req) (Request.params_id req) in
  match schema requestData with
  | Success validatedData =>
      let req :=
        match v_body validatedData with
        | Some b => Request.with_body b req
        | None => req
        end in
      let req :=
        match v_params_id validatedData with
        | Some p => Request.with_params_id p req
        | None => req
        end in
      Next req
  | Failure issues =>
      Reject (ApiError ("Request validation failed: " ++ errorMessages issues)%string 400)
  end.

(** [validateParams(schema)], that is [validate({ params: schema })] *)
Definition validateParams (schema : option string -> ParseResult (option string))
    (req : Request.t) : Outcome :=
  match schema (Request.params_id req) with
  | Success validatedParams => Next (Request.with_params_id validatedParams req)
  | Failure issues =>
      Reject (ApiError ("Validation failed: " ++ errorMessages issues)%string 400)
  end.

End Validation.

(* ===================================================================== *)
(** ** The user controller (user.controller.ts) *)
(* ===================================================================== *)

Module UserController.
Import UserModel.

(** [asyncHandler(fn)]: what the handler throws goes to the error handler *)
Definition asyncHandler (fn : M Response.t) : M Response.t :=
  catch fn (fun error => ret (globalErrorHandler error)).

(** [updateUser] *)
Definition updateUser (req : Request.t) (now : Z) : M Response.t :=
  asyncHandler
    (let id := Request.params_id req in
     let updateData := Request.body req in
     match id with
     | Some id =>
         if negb (JS.truthy (Some id)) then throw (ApiError "User ID is required" 400)
         else
           match Request.user req with
           | None => throw (JsError "TypeError" "Cannot read properties of undefined")
           | Some authUser =>
               if negb (String.eqb (AuthUser.id authUser) id) then
                 throw (ApiError "You can only update your own profile" 403)
               else
                 user <- UserService.updateUser id updateData now ;;
                 ret (Response.mk 200 true "User updated successfully" (Some user))
           end
     | None => throw (ApiError "User ID is required" 400)
     end).

(** [getUserById] *)
Definition getUserById (req : Request.t) : M Response.t :=
  asyncHandler
    (match Request.params_id req with
     | Some id =>
         if negb (JS.truthy (Some id)) then throw (ApiError "User ID is required" 400)
         else
           user <- UserService.getUserById id ;;
           ret (Response.mk 200 true "User retrieved successfully" (Some user))
     | None => throw (ApiError "User ID is required" 400)
     end).

(** [deleteUser] *)
Definition deleteUser (req : Request.t) : M Response.t :=
  asyncHandler
    (match Request.params_id req with
     | Some id =>
         if negb (JS.truthy (Some id)) then throw (ApiError "User ID is required" 400)
         else
           match Request.user req with
           | None => throw (JsError "TypeError" "Cannot read properties of undefined")
           | Some authUser =>
               if negb (String.eqb (AuthUser.id authUser) id) then
                 throw (ApiError "You can only delete your own profile" 403)
               else
                 _ <- UserService.deleteUser id ;;
                 ret (Response.mk 200 true "User deleted successfully" None)
           end
     | None => throw (ApiError "User ID is required" 400)
     end).

End UserController.

(* ===================================================================== *)
(** ** The authentication controller (auth.controller.ts) *)
(* ===================================================================== *)

Module AuthController.
Import UserModel.

(** [getProfile] *)
Definition getProfile (req : Request.t) : M Response.t :=
  UserController.asyncHandler
    (match Request.user req with
     | None => throw (JsError "TypeError" "Cannot read properties of undefined")
     | Some authUser =>
         user <- AuthService.getAuthenticatedUserProfile (AuthUser.id authUser) ;;
         ret (Response.mk 200 true "Profile retrieved successfully" (Some user))
     end).

End AuthController.

(* ===================================================================== *)
(** ** Rate limiting (rateLimiter.ts) *)
(* ===================================================================== *)

Module RateLimiter.

(** The options the source passes to [rateLimit]. *)
Record Options : Type := mkOptions {
  windowMs : Z;
  max : Z;
  skipSuccessfulRequests : bool;
  handlerMessage : string
}.

(** The four limiters of the module. *)
Inductive Bucket : Type :=
| generalLimiter
| authLimiter
| passwordResetLimiter
| createAccountLimiter.

Definition options (b : Bucket) : Options :=
  match b with
  | generalLimiter =>
      mkOptions (15 * 60 * 1000) 100 false
                "Too many requests from this IP, please try again later."
  | authLimiter =>
      mkOptions (15 * 60 * 1000) 5 true
                "Too many authentication attempts, please try again later."
  | passwordResetLimiter =>
      mkOptions (60 * 60 * 1000) 3 false
                "Too many password reset attempts, please try again later."
  | createAccountLimiter =>
      mkOptions (60 * 60 * 1000) 100 false
                "Too many accounts created from this IP, please try again later."
  end.

(** The [handler] option: it throws, which ends at the error handler. *)
Definition handler (o : Options) : Exn := ApiError (handlerMessage o) 429.

(** What the memory store of express-rate-limit keeps for a key. *)
Record Client : Type := mkClient { totalHits : Z; resetTime : Z }.

(** [store.increment(key)]: a key that is new, or whose window is over,
    starts a window at [now]; then the hit is counted. *)
Definition increment (o : Options) (key : string) (now : Z) (store : gmap string Client)
    : Client * gmap string Client :=
  let c :=
    match store !! key with
    | Some c => if (resetTime c <=? now)%Z then mkClient 0 (now + windowMs o) else c
    | None => mkClient 0 (now + windowMs o)
    end in
  let c' := mkClient (totalHits c + 1) (resetTime c) in
  (c', <[key := c']> store).

(** [store.decrement(key)] *)
Definition decrement (key : string) (store : gmap string Client) : gmap string Client :=
  match store !! key with
  | Some c =>
      if (0 <? totalHits c)%Z then <[key := mkClient (totalHits c - 1) (resetTime c)]> store
      else store
  | None => store
  end.

(** The middleware on arrival of a request: count it, and tell whether
    the count now exceeds [max]. *)
Definition onRequest (o : Options) (key : string) (now : Z) (store : gmap string Client)
    : bool * gmap string Client :=
  let (c, store') := increment o key now store in
  ((max o <? totalHits c)%Z, store').

(** The listener on the response's [finish] event: with
    [skipSuccessfulRequests], a response below 400 is taken out of the
    count again. *)
Definition onFinish (o : Options) (key : string) (statusCode : Z)
    (store : gmap string Client) : gmap string Client :=
  if andb (skipSuccessfulRequests o) (statusCode <? 400)%Z then decrement key store
  else store.

(** Each limiter has a store of its own. *)
Record Limiters : Type := mkLimiters {
  general : gmap string Client;
  auth : gmap string Client;
  passwordReset : gmap string Client;
  createAccount : gmap string Client
}.

Definition storeOf (b : Bucket) (l : Limiters) : gmap string Client :=
  match b with
  | generalLimiter => general l
  | authLimiter => auth l
  | passwordResetLimiter => passwordReset l
  | createAccountLimiter => createAccount l
  end.

Definition setStore (b : Bucket) (s : gmap string Client) (l : Limiters) : Limiters :=
  match b with
  | generalLimiter => mkLimiters s (auth l) (passwordReset l) (createAccount l)
  | authLimiter => mkLimiters (general l) s (passwordReset l) (createAccount l)
  | passwordResetLimiter => mkLimiters (general l) (auth l) s (createAccount l)
  | createAccountLimiter => mkLimiters (general l) (auth l) (passwordReset l) s
  end.

End RateLimiter.

(* ===================================================================== *)
(** ** The process state and the route pipeline (user.routes.ts) *)
(* ===================================================================== *)

(** What the process holds across requests: the limiters' stores and the
    users collection. *)
Record World : Type := mkWorld {
  limiters : RateLimiter.Limiters;
  users : UserModel.Collection
}.

Module Router.
Import UserModel.

Definition Handler : Type := World -> Response.t * World.

(** A database computation run as part of a request. *)
Definition onUsers {A} (m : M A) (w : World) : Result A * World :=
  let (r, db) := m (users w) in (r, mkWorld (limiters w) db).

(** A limiter in front of the rest of the route: a request over the
    limit is answered by the limiter's handler and [next] is not run. *)
Definition limit (b : RateLimiter.Bucket) (req : Request.t) (now : Z) (next : Handler)
    : Handler :=
  fun w =>
    let o := RateLimiter.options b in
    let (limited, store1) :=
      RateLimiter.onRequest o (Request.ip req) now (RateLimiter.storeOf b (limiters w)) in
    let w1 := mkWorld (RateLimiter.setStore b store1 (limiters w)) (users w) in
    let (resp, w2) :=
      if limited then (globalErrorHandler (RateLimiter.handler o), w1) else next w1 in
    (resp,
     mkWorld (RateLimiter.setStore b
                (RateLimiter.onFinish o (Request.ip req) (Response.statusCode resp)
                                      (RateLimiter.storeOf b (limiters w2)))
                (limiters w2))
             (users w2)).

(** A middleware that reads the database. *)
Definition useM (mw : M Outcome) (next : Request.t -> Handler) : Handler :=
  fun w =>
    match onUsers mw w with
    | (Ok (Next req), w') => next req w'
    | (Ok (Reject e), w') => (globalErrorHandler e, w')
    | (Throw e, w') => (globalErrorHandler e, w')
    end.

(** A middleware that only looks at the request. *)
Definition use (mw : Outcome) (next : Request.t -> Handler) : Handler :=
  fun w =>
    match mw with
    | Next req => next req w
    | Reject e => (globalErrorHandler e, w)
    end.

(** A controller at the end of a route. *)
Definition handle (c : M Response.t) : Handler :=
  fun w =>
    match onUsers c w with
    | (Ok resp, w') => (resp, w')
    | (Throw e, w') => (globalErrorHandler e, w')
    end.

(** Requests arriving one after the other at a route guarded by the
    limiter [b]: each comes with its time of arrival and the rest of its
    route. *)
Fixpoint serve (b : RateLimiter.Bucket)
    (arrivals : list (Request.t * Z * Handler)) (w : World)
    : list Response.t * World :=
  match arrivals with
  | [] => ([], w)
  | (req, now, next) :: rest =>
      let (resp, w1) := limit b req now next w in
      let (resps, w2) := serve b rest w1 in
      (resp :: resps, w2)
  end.

Section WithExternals.
Context (X : Externals) (env : Env).

(** [router.put('/:id', generalLimiter, authenticate, requireSelfAccess,
    validateParams(userParamsSchema.shape.params),
    validateRequest(updateUserSchema), userController.updateUser)] *)
Definition putUser (req : Request.t) (now : Z) : Handler :=
  limit RateLimiter.generalLimiter req now
    (useM (AuthMiddleware.authenticate X env req now) (fun req =>
     use (AuthMiddleware.requireSelfAccess req) (fun req =>
     use (Validation.validateParams UserSchemas.userParamsSchema_params req) (fun req =>
     use (Validation.validateRequest UserSchemas.updateUserSchema req) (fun req =>
     handle (UserController.updateUser req now)))))).


(** [router.delete('/:id', generalLimiter, authenticate, requireSelfAccess,
    validateParams(userParamsSchema.shape.params), userController.deleteUser)] *)
Definition deleteUser (req : Request.t) (now : Z) : Handler :=
  limit RateLimiter.generalLimiter req now
    (useM (AuthMiddleware.authenticate X env req now) (fun req =>
     use (AuthMiddleware.requireSelfAccess req) (fun req =>
     use (Validation.validateParams UserSchemas.userParamsSchema_params req) (fun req =>
     handle (UserController.deleteUser req))))).

(** [router.get('/me', generalLimiter, authenticate, authController.getProfile)] *)
Definition getMe (req : Request.t) (now : Z) : Handler :=
  limit RateLimiter.generalLimiter req now
    (useM (AuthMiddleware.authenticate X env req now) (fun req =>
     handle (AuthController.getProfile req))).

End WithExternals.
End Router.

(* ===================================================================== *)
(** ** Vocabulary of the statements *)
(* ===================================================================== *)

Module Invariant.
Import UserModel.

Fixpoint distinct (l : list string) : bool :=
  match l with
  | [] => true
  | x :: rest => andb (negb (existsb (String.eqb x) rest)) (distinct rest)
  end.

(** MongoDB keeps [_id] unique. *)
Definition uniqueIds (db : Collection) : bool := distinct (map _id db).

(** Every stored email went through the schema's setters. *)
Definition normalizedEmails (db : Collection) : bool :=
  forallb (fun u => String.eqb (castEmail (email u)) (email u)) db.

(** Every stored id is an ObjectId in the form it is printed in. *)
Definition objectIds (db : Collection) : bool :=
  forallb (fun u => andb (UserQueries.isObjectId (_id u))
                         (String.eqb (UserQueries.objectIdOf (_id u)) (_id u))) db.


End Invariant.

(** A route that leaves the store of the limiter [b] alone. *)
Definition keepsStore (b : RateLimiter.Bucket) (next : Router.Handler) : Prop :=
  forall w, RateLimiter.storeOf b (limiters (snd (next w))) = RateLimiter.storeOf b (limiters w).

(** The key [key] has reached the maximum of [b] in a window that ends at
    [reset]. *)
Definition saturated (b : RateLimiter.Bucket) (key : string) (reset : Z) (w : World) : Prop :=
  exists c, RateLimiter.storeOf b (limiters w) !! key = Some c /\
            RateLimiter.resetTime c = reset /\
            RateLimiter.max (RateLimiter.options b) <= RateLimiter.totalHits c.

(** The request [req], arriving at [now], is over the limit of [b]: with
    it, its key has more hits in the current window than [max]. *)
Definition overLimit (b : RateLimiter.Bucket) (req : Request.t) (now : Z) (w : World) : bool :=
  fst (RateLimiter.onRequest (RateLimiter.options b) (Request.ip req) now
         (RateLimiter.storeOf b (limiters w))).

(** A route whose requests the limiter [b] counts: the limiter counts
    every request, or the route never answers below 400. *)
Definition counted (b : RateLimiter.Bucket) (next : Router.Handler) : Prop :=
  RateLimiter.skipSuccessfulRequests (RateLimiter.options b) = false \/
  forall w, 400 <= Response.statusCode (fst (next w)).

(** An arrival of the key [key] before [reset], at a route that leaves
    the store of [b] alone and is counted by it. *)
Definition arrives (b : RateLimiter.Bucket) (key : string) (reset : Z)
    (a : Request.t * Z * Router.Handler) : Prop :=
  Request.ip (fst (fst a)) = key /\ snd (fst a) < reset /\
  keepsStore b (snd a) /\ counted b (snd a).


(** The response [resp] is what the route of the arrival [a] answered. *)
Definition handledBy (a : Request.t * Z * Router.Handler) (resp : Response.t) : Prop :=
  exists w, resp = fst (snd a w).

(** [v] is [u] except, possibly, for the name, the age and the
    [updatedAt] timestamp Mongoose maintains. *)
Definition profileOnly (u v : UserModel.User) : Prop :=
  v = UserModel.mkUser (UserModel._id u) (UserModel.name v) (UserModel.email u)
        (UserModel.password u) (UserModel.age v) (UserModel.passwordResetToken u)
        (UserModel.passwordResetExpires u) (UserModel.createdAt u) (UserModel.updatedAt v).

(** [v] is [u] except, possibly, for the password hash, the reset token,
    its expiry and the [updatedAt] timestamp. *)
Definition credentialsOnly (u v : UserModel.User) : Prop :=
  v = UserModel.mkUser (UserModel._id u) (UserModel.name u) (UserModel.email u)
        (UserModel.password v) (UserModel.age u) (UserModel.passwordResetToken v)
        (UserModel.passwordResetExpires v) (UserModel.createdAt u) (UserModel.updatedAt v).

(** [b] is [a] unless [a] has the id [i]. *)
Definition untouchedUnless (i : string) (a b : UserModel.User) : Prop :=
  UserModel._id a <> i -> b = a.

(** An update document that sets nothing but [name] and [age]. *)
Definition profileKeys (updateData : JS.object) : Prop :=
  forall k, In k (JS.keys updateData) -> k = "name" \/ k = "age".

(** A write to [name] or [age]. *)
Definition profileWrite (a : UserService.Assignment) : Prop :=
  match a with
  | UserService.SetName _ | UserService.SetAge _ => True
  | _ => False
  end.

(** The fields of a user as the services hand it out. *)
Definition publicFields : list string :=
  ["name"; "email"; "age"; "createdAt"; "updatedAt"; "id"].

(** The record a successful registration appends. *)
Definition registered (X : Externals) (env : Env) (oid n e p : string) (a : Q) (now : Z)
    (salt : string) : UserModel.User :=
  UserModel.mkUser oid (UserModel.castName n) (UserModel.castEmail e)
                   (bcrypt_hash X p (BCRYPT_ROUND env) salt) a None None now now.

(** The filter and the order [getUsers] asks the engine for. *)
Definition queryFilter (q : UserQueryParams.t) : Filter :=
  mkFilter (if UserService.truthyNumber (UserQueryParams.age q)
            then UserQueryParams.age q else None)
           (if JS.truthy (UserQueryParams.search q) then UserQueryParams.search q else None).

Definition querySortBy (q : UserQueryParams.t) : SortField :=
  default ByCreatedAt (UserQueryParams.sortBy q).

Definition querySortOrder (q : UserQueryParams.t) : SortOrder :=
  default Desc (UserQueryParams.sortOrder q).

(** The same query for another page. *)
Definition atPage (p : Z) (q : UserQueryParams.t) : UserQueryParams.t :=
  UserQueryParams.mk (Some p) (UserQueryParams.limit q) (UserQueryParams.age q)
                     (UserQueryParams.sortBy q) (UserQueryParams.sortOrder q)
                     (UserQueryParams.search q).

(** The engine answers a query over [db] with the records [matching], in
    this order: it counts them, and for a skip that is not negative and a
    positive limit it hands out the window they select. *)
Definition answers (E : QueryEngine) (filter : Filter) (sortBy : SortField)
    (sortOrder : SortOrder) (db : UserModel.Collection) (matching : list UserModel.User)
    : Prop :=
  countDocuments E filter db = Ok (Z.of_nat (length matching)) /\
  forall skip limit, 0 <= skip -> 0 < limit ->
    findPage E filter sortBy sortOrder skip limit db
    = Ok (firstn (Z.to_nat limit) (skipn (Z.to_nat skip) matching)).

(** The entries of a listing; none when the call threw. *)
Definition entries (r : Result PaginatedResponse.t * UserModel.Collection) : list JS.object :=
  match fst r with
  | Ok response => PaginatedResponse.data response
  | Throw _ => []
  end.

(** A string of ASCII characters.  The strings of this development are
    sequences of bytes; on an ASCII string the length in bytes is the
    [length] JavaScript reports, and the white space and the letter case
    of [JS.isSpace], [JS.trim] and [JS.toLowerCase] are those of
    JavaScript. *)
Definition isAscii (s : string) : bool :=
  JS.forallChars (fun c => Nat.ltb (nat_of_ascii c) 128) s.

(** The field [k] of a body, if it is a string, is an ASCII string. *)
Definition asciiField (k : string) (o : JS.object) : bool :=
  match JS.get k o with
  | Some (JS.JStr s) => isAscii s
  | _ => true
  end.




(** A list of characters that does not start with white space. *)
Definition startsClean (l : list ascii) : bool :=
  match l with
  | [] => true
  | c :: _ => negb (JS.isSpace c)
  end.

(* ===================================================================== *)
(** ** Sample data *)
(* ===================================================================== *)

(** Used to run the definitions on concrete inputs: a transparent stand-in
    for bcrypt and HMAC, a slash-separated text format for tokens, two
    users, and a few requests. *)
Module Fixture.

Definition showZ (z : Z) : string := DecimalString.NilZero.string_of_int (Z.to_int z).

Definition toyHash (password : string) (rounds : Z) (salt : string) : string :=
  ("$2b$" ++ showZ rounds ++ "$" ++ salt ++ "$" ++ password)%string.

Fixpoint endsWith (s suffix : string) : bool :=
  orb (String.eqb s suffix)
      (match s with
       | EmptyString => false
       | String _ s' => endsWith s' suffix
       end).

Definition toyCompare (password hashed : string) : bool :=
  andb (JS.startsWith hashed "$2b$") (endsWith hashed ("$" ++ password)%string).

Definition readZ (s : string) : option Z :=
  option_map Z.of_int (DecimalString.NilZero.int_of_string s).

Definition toyHmac (secret : string) (p : Jwt.Payload) : string :=
  ("mac(" ++ secret ++ "," ++ default "-" (Jwt.id p) ++ "," ++ default "-" (Jwt.email p)
     ++ "," ++ showZ (default 0 (Jwt.iat p)) ++ "," ++ showZ (default 0 (Jwt.exp p)) ++ ")")%string.

(** Split at the character [sep]. *)
Fixpoint split (sep : ascii) (s : string) : list string :=
  match s with
  | EmptyString => [EmptyString]
  | String c s' =>
      if Ascii.eqb c sep then EmptyString :: split sep s'
      else match split sep s' with
           | x :: rest => String c x :: rest
           | [] => [String c EmptyString]
           end
  end.

Definition toyEncode (j : Jwt.Jws) : string :=
  let p := Jwt.payload j in
  (default EmptyString (Jwt.id p) ++ "/" ++ default EmptyString (Jwt.email p) ++ "/"
     ++ showZ (default 0 (Jwt.iat p)) ++ "/" ++ showZ (default 0 (Jwt.exp p)) ++ "/"
     ++ Jwt.signature j)%string.

Definition toyDecode (s : string) : option Jwt.Jws :=
  match split "/" s with
  | [i; e; issued; expires; sig] =>
      match readZ issued, readZ expires with
      | Some a, Some b => Some (Jwt.mkJws (Jwt.mkPayload (Some i) (Some e) (Some a) (Some b)) sig)
      | _, _ => None
      end
  | _ => None
  end.

Definition toyMs (s : string) : option Z :=
  if String.eqb s "7d" then Some (7 * 24 * 60 * 60 * 1000)
  else if String.eqb s "1h" then Some (60 * 60 * 1000)
  else None.

Definition X : Externals := mkExternals toyHash toyCompare toyHmac toyEncode toyDecode toyMs.

Definition env : Env :=
  mkEnv "0123456789abcdef0123456789abcdef" "7d" 12 None None.

Definition alice : UserModel.User :=
  UserModel.mkUser "64b7f0c2a1d3e4f5a6b7c8d9" "Alice" "alice@example.com"
                   (toyHash "secret1" 12 "salt") 30 None None 1000 1000.

Definition bob : UserModel.User :=
  UserModel.mkUser "64b7f0c2a1d3e4f5a6b7c8da" "Bob" "bob@example.com"
                   (toyHash "hunter22" 12 "pepper") 41
                   (Some "00ff") (Some 5000) 1000 2000.

Definition db : UserModel.Collection := [alice; bob].

(** An entropy source: the byte sequence 0, 1, 2, ... *)
Definition counter (i : nat) : Byte.byte :=
  default Byte.x00 (Byte.of_N (N.of_nat (i mod 256))).

Definition emptyLimiters : RateLimiter.Limiters := RateLimiter.mkLimiters ∅ ∅ ∅ ∅.

(** The answer of [requestPasswordReset] for an email, in the sample
    collection. *)
Definition resetAnswer (e : string) : Result ResetRequestResponse.t :=
  fst (AuthService.requestPasswordReset X env
         (PasswordResetRequestData.mk e) 4000 counter "nacl" db).

(** A bearer token for the sample user, issued at 1700000000 s. *)
Definition aliceToken : string :=
  "64b7f0c2a1d3e4f5a6b7c8d9/alice@example.com/1700000000/1700604800/mac(0123456789abcdef0123456789abcdef,64b7f0c2a1d3e4f5a6b7c8d9,alice@example.com,1700000000,1700604800)".

(** A process in which the address 10.0.0.1 has used up its three
    password-reset requests in a window that ends at 3600000, and a route
    that would delete every user if it ran. *)
Definition throttled : World :=
  mkWorld (RateLimiter.mkLimiters ∅ ∅ {[ "10.0.0.1" := RateLimiter.mkClient 3 3600000 ]} ∅)
          db.

Definition wipe : Router.Handler :=
  fun w => (Response.mk 200 true "done" None, mkWorld (limiters w) []).

Definition visitor : Request.t := Request.mk "10.0.0.1" None None [] None.

(** A request of the sample user to update their own profile, with two
    fields the update schema does not declare. *)
Definition putRequest : Request.t :=
  Request.mk "10.0.0.1" (Some ("Bearer " ++ aliceToken)%string)
             (Some "64b7f0c2a1d3e4f5a6b7c8d9")
             [("name", JS.JStr "Alicia"); ("email", JS.JStr "mallory@example.com");
              ("password", JS.JStr "overwritten"); ("age", JS.JNum 31)]
             None.

Definition world : World := mkWorld emptyLimiters db.

End Fixture.

(** A third user, and a stand-in for the query engine that filters by age
    and by a substring of the name or the email, and orders by insertion,
    forwards or backwards. *)
Module Scenario.

Definition carol : UserModel.User :=
  UserModel.mkUser "64b7f0c2a1d3e4f5a6b7c8db" "Carol" "carol@example.com"
                   (Fixture.toyHash "s3cret!" 12 "salt") 30 None None 3000 3000.

Definition db : UserModel.Collection := [Fixture.alice; Fixture.bob; carol].

Fixpoint contains (needle hay : string) : bool :=
  orb (String.prefix needle hay)
      (match hay with
       | EmptyString => false
       | String _ hay' => contains needle hay'
       end).

Definition matches (f : Filter) (u : UserModel.User) : bool :=
  andb (match filter_age f with
        | Some a => Qeq_bool (UserModel.age u) a
        | None => true
        end)
       (match filter_search f with
        | Some s =>
            orb (contains (JS.toLowerCase s) (JS.toLowerCase (UserModel.name u)))
                (contains (JS.toLowerCase s) (JS.toLowerCase (UserModel.email u)))
        | None => true
        end).

Definition ordered (o : SortOrder) (l : list UserModel.User) : list UserModel.User :=
  match o with
  | Asc => l
  | Desc => rev l
  end.

Definition engine : QueryEngine :=
  mkEngine
    (fun f _ o skip limit db =>
       if (skip <? 0)%Z then Throw (JsError "MongoServerError" "skip must not be negative")
       else Ok (firstn (Z.to_nat limit)
                       (skipn (Z.to_nat skip) (ordered o (List.filter (matches f) db)))))
    (fun f db => Ok (Z.of_nat (length (List.filter (matches f) db)))).

(** The users aged 30, oldest record first, two to a page. *)
Definition thirty : UserQueryParams.t :=
  UserQueryParams.mk None (Some 2) (Some 30%Q) None (Some Asc) None.

End Scenario.

(* ===================================================================== *)
(** * Properties *)
(* ===================================================================== *)

Import UserModel.

(** ** Running the monad *)

Lemma run_bind {S A B} (m : Eff S A) (k : A -> Eff S B) (s : S) :
  bind m k s = match m s with
               | (Ok a, s') => k a s'
               | (Throw e, s') => (Throw e, s')
               end.
Proof. reflexivity. Qed.

Lemma run_catch {S A} (m : Eff S A) (h : Exn -> Eff S A) (s : S) :
  catch m h s = match m s with
                | (Ok a, s') => (Ok a, s')
                | (Throw e, s') => h e s'
                end.
Proof. reflexivity. Qed.

Lemma run_findOne (p : User -> bool) (sel : list Path) (db : Collection) :
  findOne p sel db = (Ok (option_map (hydrate sel) (find p db)), db).
Proof. reflexivity. Qed.

Lemma isObjectId_run_findById (i : string) (sel : list Path) (db : Collection) :
  UserQueries.findById i sel db
  = if UserQueries.isObjectId i
    then (Ok (option_map (hydrate sel) (find (byId (UserQueries.objectIdOf i)) db)), db)
    else (UserQueries.castError, db).
Proof. reflexivity. Qed.

Ltac run :=
  repeat (rewrite ?run_catch, ?run_bind, ?run_findOne; cbn [option_map lift ret throw rethrowApiOr isApiError]).

(** ** Self-access rule *)

(** C7. The self-access rule rejects a request without an authenticated
    context with 401, one without a resource id with 400, one whose
    context id differs from the resource id with 403, and lets a request
    through, unchanged, exactly when the context id equals the resource
    id. *)
Theorem requireSelfAccess_contract (req : Request.t) :
  (Request.user req = None ->
     exists m, AuthMiddleware.requireSelfAccess req = Reject (ApiError m 401)) /\
  (forall u, Request.user req = Some u -> JS.truthy (Request.params_id req) = false ->
     exists m, AuthMiddleware.requireSelfAccess req = Reject (ApiError m 400)) /\
  (forall u i, Request.user req = Some u -> Request.params_id req = Some i ->
     i <> EmptyString -> AuthUser.id u <> i ->
     exists m, AuthMiddleware.requireSelfAccess req = Reject (ApiError m 403)) /\
  (AuthMiddleware.requireSelfAccess req = Next req <->
     exists u i, Request.user req = Some u /\ Request.params_id req = Some i /\
                 i <> EmptyString /\ AuthUser.id u = i).
Proof.
  unfold AuthMiddleware.requireSelfAccess.
  destruct (Request.user req) as [u|] eqn:Hu.
  - destruct (Request.params_id req) as [i|] eqn:Hi; cbn [JS.truthy negb].
    + destruct (String.eqb_spec i EmptyString) as [->|Hne]; cbn [negb].
      * repeat split; try discriminate.
        -- intros u' _ _. eauto.
        -- intros u' i' _ [= <-] Hn. congruence.
        -- intros (u' & i' & _ & [= <-] & Hn & _). congruence.
      * case_bool_decide as Heq; cbn [negb].
        -- injection Heq as Heq. repeat split; try discriminate; try congruence.
           intros _. exists u, i. auto.
        -- repeat split; try discriminate.
           ++ intros u' i' [= <-] [= <-] _ _. eauto.
           ++ intros (u' & i' & [= <-] & [= <-] & _ & Hid). congruence.
    + repeat split; try discriminate.
      * intros u' _ _. eauto.
      * intros (u' & i' & _ & Habs & _). discriminate.
  - repeat split; try discriminate.
    + intros _. eauto.
    + intros (u' & i' & Habs & _). discriminate.
Qed.

Lemma requireSelfAccess_contract_witness :
  AuthMiddleware.requireSelfAccess
    (Request.mk "10.0.0.1" None (Some "A") [] (Some (AuthUser.mk "A" "a@example.com")))
  = Next (Request.mk "10.0.0.1" None (Some "A") [] (Some (AuthUser.mk "A" "a@example.com"))).
Proof.
  apply (proj2 (proj2 (proj2 (requireSelfAccess_contract _)))).
  exists (AuthUser.mk "A" "a@example.com"), "A".
  repeat split; discriminate.
Defined.

(** ** Facts about the collection *)

Lemma find_none_iff {A} (p : A -> bool) (l : list A) :
  find p l = None <-> forall x, In x l -> p x = false.
Proof.
  split.
  - apply find_none.
  - induction l as [|a l IH]; intros H; [reflexivity|].
    cbn. rewrite (H a (or_introl eq_refl)). apply IH. intros x Hx. apply H. now right.
Qed.

Lemma byId_true (i : string) (u : User) : byId i u = true <-> _id u = i.
Proof. unfold byId. apply String.eqb_eq. Qed.

Lemma byId_false (i : string) (u : User) : byId i u = false <-> _id u <> i.
Proof. unfold byId. apply String.eqb_neq. Qed.

Lemma byEmail_false (e : string) (u : User) : byEmail e u = false <-> email u <> castEmail e.
Proof. unfold byEmail. apply String.eqb_neq. Qed.

Lemma find_byId_id (i : string) (db : Collection) (u : User) :
  find (byId i) db = Some u -> _id u = i.
Proof. intros H. apply find_some in H. now apply byId_true. Qed.

(** ** Login *)

(** C2. Whether no user has the given email, or the user found has a
    stored hash the given password does not verify against, [loginUser]
    throws the same [ApiError]: status 401 with the one message
    [Invalid login credentials]; the collection is left as it was. *)
Theorem loginUser_unauthorized_indistinguishable
    (X : Externals) (env : Env) (credentials : LoginCredentials.t) (now : Z) (db : Collection) :
  ((forall u, In u db -> email u <> castEmail (LoginCredentials.email credentials)) \/
   (exists u, find (byEmail (LoginCredentials.email credentials)) db = Some u /\
              bcrypt_compare X (LoginCredentials.password credentials) (password u) = false)) ->
  AuthService.loginUser X env credentials now db
  = (Throw (ApiError "Invalid login credentials" 401), db).
Proof.
  intros [Hnone | (u & Hu & Hcmp)]; unfold AuthService.loginUser; run.
  - replace (find _ db) with (@None User).
    + reflexivity.
    + symmetry. apply find_none_iff. intros u Hu. apply byEmail_false. auto.
  - rewrite Hu. cbn [option_map]. run.
    unfold get_password, hydrate. cbn. rewrite Hcmp. reflexivity.
Qed.

Lemma loginUser_unauthorized_indistinguishable_witness :
  AuthService.loginUser Fixture.X Fixture.env
    (LoginCredentials.mk "nobody@example.com" "secret1") 0 Fixture.db
  = (Throw (ApiError "Invalid login credentials" 401), Fixture.db)
  /\
  AuthService.loginUser Fixture.X Fixture.env
    (LoginCredentials.mk "Alice@Example.com" "wrong-password") 0 Fixture.db
  = (Throw (ApiError "Invalid login credentials" 401), Fixture.db).
Proof.
  split; apply loginUser_unauthorized_indistinguishable.
  - left. intros u [<- | [<- | []]]; vm_compute; discriminate.
  - right. exists Fixture.alice. split; reflexivity.
Defined.

(** ** Saving a loaded document *)

Lemma save_loaded (X : Externals) (env : Env) (d : UserDocument) (now : Z) (salt : string)
    (db : Collection) :
  isNew d = false -> modifiedPaths d <> [] -> validateDoc d = true ->
  save X env d now salt db
  = (Ok (mkDoc (applyModified (preSave X env d salt) now (fields (preSave X env d salt)))
               (populated d) false []),
     updateFirst (byId (_id (fields d))) (applyModified (preSave X env d salt) now) db).
Proof.
  intros Hnew Hmod Hval. unfold save. rewrite Hval. cbn [negb].
  assert (Hnew' : isNew (preSave X env d salt) = false).
  { unfold preSave. destruct (negb _); assumption. }
  assert (Hmod' : modifiedPaths (preSave X env d salt) = modifiedPaths d).
  { unfold preSave. destruct (negb _); reflexivity. }
  assert (Hpop : populated (preSave X env d salt) = populated d).
  { unfold preSave. destruct (negb _); reflexivity. }
  assert (Hid : _id (fields (preSave X env d salt)) = _id (fields d)).
  { unfold preSave. destruct (negb _); reflexivity. }
  rewrite Hnew', Hmod', Hpop, Hid.
  destruct (modifiedPaths d); [contradiction|]. reflexivity.
Qed.

(** ** Change of password *)

(** C4, as stated, fails: no user has the id [abc], and the call does not
    fail NotFound; the cast of the id fails, which the handler reports
    with status 500. *)
Lemma changePassword_malformed_id :
  (forall u, In u Fixture.db -> _id u <> "abc") /\
  AuthService.changePassword Fixture.X Fixture.env "abc"
    (ChangePasswordData.mk "secret1" "newSecret9") 7000 "nacl" Fixture.db
  = (Throw (ApiError "Password change failed" 500), Fixture.db) /\
  AuthService.changePassword Fixture.X Fixture.env "abc"
    (ChangePasswordData.mk "secret1" "newSecret9") 7000 "nacl" Fixture.db
  <> (Throw (ApiError "User not found" 404), Fixture.db).
Proof.
  split; [|split].
  - intros u [<- | [<- | []]]; discriminate.
  - reflexivity.
  - discriminate.
Qed.

(** C4, amended.  [changePassword] looks the user up with [findById],
    which casts the id.  For an id that is not an ObjectId (24 hexadecimal
    digits) the call throws 500 and writes nothing.  For an id that is
    one: it throws 404 when no user has that id; it throws 400 when the
    current password does not verify against the stored hash, and then
    the collection, hence the stored hash, is as before; when the current
    password verifies, the bcrypt hash of the new password (a non-empty
    string other than the stored hash itself), made with [BCRYPT_ROUND]
    rounds, is stored on that user and on no other record.  Whenever the
    collection changes at all, the id was an ObjectId and the current
    password had verified against the hash of the user with that id. *)
Theorem changePassword_contract
    (X : Externals) (env : Env) (userId : string) (passwordData : ChangePasswordData.t)
    (now : Z) (salt : string) (db : Collection) :
  (UserQueries.isObjectId userId = false ->
     AuthService.changePassword X env userId passwordData now salt db
     = (Throw (ApiError "Password change failed" 500), db)) /\
  (UserQueries.isObjectId userId = true ->
   (forall u, In u db -> _id u <> UserQueries.objectIdOf userId) ->
     AuthService.changePassword X env userId passwordData now salt db
     = (Throw (ApiError "User not found" 404), db)) /\
  (forall u, UserQueries.isObjectId userId = true ->
     find (byId (UserQueries.objectIdOf userId)) db = Some u ->
     bcrypt_compare X (ChangePasswordData.currentPassword passwordData) (password u) = false ->
     AuthService.changePassword X env userId passwordData now salt db
     = (Throw (ApiError "Current password is incorrect" 400), db)) /\
  (forall u, UserQueries.isObjectId userId = true ->
     find (byId (UserQueries.objectIdOf userId)) db = Some u ->
     bcrypt_compare X (ChangePasswordData.currentPassword passwordData) (password u) = true ->
     ChangePasswordData.newPassword passwordData <> EmptyString ->
     ChangePasswordData.newPassword passwordData <> password u ->
     AuthService.changePassword X env userId passwordData now salt db
     = (Ok (MessageResponse.mk true "Password changed successfully"),
        updateFirst (byId (UserQueries.objectIdOf userId))
          (fun w => mkUser (_id w) (name w) (email w)
                      (bcrypt_hash X (ChangePasswordData.newPassword passwordData)
                                   (BCRYPT_ROUND env) salt)
                      (age w) (passwordResetToken w) (passwordResetExpires w)
                      (createdAt w) now)
          db)) /\
  (snd (AuthService.changePassword X env userId passwordData now salt db) <> db ->
     UserQueries.isObjectId userId = true /\
     exists u, find (byId (UserQueries.objectIdOf userId)) db = Some u /\
       bcrypt_compare X (ChangePasswordData.currentPassword passwordData) (password u) = true).
Proof.
  split; [|split; [|split; [|split]]].
  - intros Hoid. unfold AuthService.changePassword. run.
    rewrite isObjectId_run_findById, Hoid. reflexivity.
  - intros Hoid Hnone. unfold AuthService.changePassword. run.
    rewrite isObjectId_run_findById, Hoid.
    replace (find _ db) with (@None User); [reflexivity|].
    symmetry. apply find_none_iff. intros u Hu. apply byId_false. auto.
  - intros u Hoid Hu Hcmp. unfold AuthService.changePassword. run.
    rewrite isObjectId_run_findById, Hoid, Hu. cbn [option_map]. run.
    unfold get_password, hydrate. cbn. rewrite Hcmp. reflexivity.
  - intros u Hoid Hu Hcmp Hne Hdiff. unfold AuthService.changePassword. run.
    rewrite isObjectId_run_findById, Hoid, Hu. cbn [option_map]. run.
    unfold get_password, hydrate. cbn [populated hasPath existsb Path_eqb orb fields].
    cbn [Password.comparePassword]. rewrite Hcmp. cbn [negb].
    unfold set_password. cbn [populated hasPath existsb Path_eqb orb fields andb].
    destruct (String.eqb_spec (ChangePasswordData.newPassword passwordData) (password u))
      as [Heq|_]; [contradiction|].
    run. rewrite save_loaded.
    + cbn. rewrite (find_byId_id _ _ _ Hu). reflexivity.
    + reflexivity.
    + discriminate.
    + cbn. destruct (String.eqb_spec (ChangePasswordData.newPassword passwordData) EmptyString);
        [contradiction | reflexivity].
  - intros Hchg.
    destruct (UserQueries.isObjectId userId) eqn:Hoid.
    + split; [reflexivity|].
      destruct (find (byId (UserQueries.objectIdOf userId)) db) as [u|] eqn:Hu.
      * exists u. split; [reflexivity|].
        destruct (bcrypt_compare X _ (password u)) eqn:Hcmp; [reflexivity|].
        exfalso. apply Hchg. unfold AuthService.changePassword. run.
        rewrite isObjectId_run_findById, Hoid, Hu. cbn [option_map]. run.
        unfold get_password, hydrate. cbn. rewrite Hcmp. reflexivity.
      * exfalso. apply Hchg. unfold AuthService.changePassword. run.
        rewrite isObjectId_run_findById, Hoid, Hu. reflexivity.
    + exfalso. apply Hchg. unfold AuthService.changePassword. run.
      rewrite isObjectId_run_findById, Hoid. reflexivity.
Qed.

Lemma changePassword_contract_witness :
  AuthService.changePassword Fixture.X Fixture.env "64B7F0C2A1D3E4F5A6B7C8D9"
    (ChangePasswordData.mk "secret1" "newSecret9") 7000 "nacl" Fixture.db
  = (Ok (MessageResponse.mk true "Password changed successfully"),
     [mkUser "64b7f0c2a1d3e4f5a6b7c8d9" "Alice" "alice@example.com"
             "$2b$12$nacl$newSecret9" 30 None None 1000 7000;
      Fixture.bob])
  /\
  AuthService.changePassword Fixture.X Fixture.env "64b7f0c2a1d3e4f5a6b7c8d9"
    (ChangePasswordData.mk "guess" "newSecret9") 7000 "nacl" Fixture.db
  = (Throw (ApiError "Current password is incorrect" 400), Fixture.db)
  /\
  AuthService.changePassword Fixture.X Fixture.env "64b7f0c2a1d3e4f5a6b7c8ff"
    (ChangePasswordData.mk "secret1" "newSecret9") 7000 "nacl" Fixture.db
  = (Throw (ApiError "User not found" 404), Fixture.db)
  /\
  AuthService.changePassword Fixture.X Fixture.env "not-an-object-id"
    (ChangePasswordData.mk "secret1" "newSecret9") 7000 "nacl" Fixture.db
  = (Throw (ApiError "Password change failed" 500), Fixture.db).
Proof.
  split; [|split; [|split]].
  - exact (proj1 (proj2 (proj2 (proj2
             (changePassword_contract Fixture.X Fixture.env "64B7F0C2A1D3E4F5A6B7C8D9"
                (ChangePasswordData.mk "secret1" "newSecret9") 7000 "nacl" Fixture.db))))
             Fixture.alice eq_refl eq_refl eq_refl
             ltac:(discriminate) ltac:(discriminate)).
  - exact (proj1 (proj2 (proj2
             (changePassword_contract Fixture.X Fixture.env "64b7f0c2a1d3e4f5a6b7c8d9"
                (ChangePasswordData.mk "guess" "newSecret9") 7000 "nacl" Fixture.db)))
             Fixture.alice eq_refl eq_refl eq_refl).
  - apply (proj1 (proj2
             (changePassword_contract Fixture.X Fixture.env "64b7f0c2a1d3e4f5a6b7c8ff"
                (ChangePasswordData.mk "secret1" "newSecret9") 7000 "nacl" Fixture.db)));
      [reflexivity|].
    intros u [<- | [<- | []]]; discriminate.
  - exact (proj1
             (changePassword_contract Fixture.X Fixture.env "not-an-object-id"
                (ChangePasswordData.mk "secret1" "newSecret9") 7000 "nacl" Fixture.db)
             eq_refl).
Defined.

(** ** Unique ids *)

Lemma existsb_eqb_In (x : string) (l : list string) :
  existsb (String.eqb x) l = true <-> In x l.
Proof.
  rewrite existsb_exists. split.
  - intros (y & Hy & Heq). apply String.eqb_eq in Heq. now subst.
  - intros H. exists x. split; [assumption | apply String.eqb_refl].
Qed.

Lemma uniqueIds_cons (a : User) (db : Collection) :
  Invariant.uniqueIds (a :: db) = true ->
  (forall w, In w db -> _id w <> _id a) /\ Invariant.uniqueIds db = true.
Proof.
  unfold Invariant.uniqueIds. cbn [map Invariant.distinct].
  intros H. apply andb_prop in H as [Hn Hd]. split; [|assumption].
  intros w Hw Heq. apply negb_true_iff in Hn.
  assert (existsb (String.eqb (_id a)) (map _id db) = true) as Habs.
  { apply existsb_eqb_In. rewrite <- Heq. now apply in_map. }
  congruence.
Qed.

Lemma updateFirst_byId_found (p : User -> bool) (f : User -> User) (db : Collection) (u : User) :
  Invariant.uniqueIds db = true -> find p db = Some u ->
  updateFirst (byId (_id u)) f db = updateFirst p f db.
Proof.
  induction db as [|a db IH]; intros Huniq Hfind; [discriminate|].
  apply uniqueIds_cons in Huniq as [Hhead Huniq].
  cbn in Hfind |- *. destruct (p a) eqn:Hpa.
  - injection Hfind as ->. unfold byId at 1. now rewrite String.eqb_refl.
  - assert (Hin : In u db) by (apply find_some in Hfind; tauto).
    replace (byId (_id u) a) with false.
    + f_equal. now apply IH.
    + symmetry. apply byId_false. intros Heq. apply (Hhead u Hin). now symmetry.
Qed.

Lemma find_updateFirst (p : User -> bool) (f : User -> User) (db : Collection) (u : User) :
  Invariant.uniqueIds db = true -> find p db = Some u -> _id (f u) = _id u ->
  find (byId (_id u)) (updateFirst p f db) = Some (f u).
Proof.
  induction db as [|a db IH]; intros Huniq Hfind Hid; [discriminate|].
  apply uniqueIds_cons in Huniq as [Hhead Huniq].
  cbn in Hfind |- *. destruct (p a) eqn:Hpa.
  - injection Hfind as ->. cbn. unfold byId. now rewrite Hid, String.eqb_refl.
  - assert (Hin : In u db) by (apply find_some in Hfind; tauto).
    cbn. replace (byId (_id u) a) with false; [now apply IH|].
    symmetry. apply byId_false. intros Heq. apply (Hhead u Hin). now symmetry.
Qed.


(** ** Reset of a password *)





(** ** Request of a password reset *)

Lemma strlen_list (s : string) : String.length s = length (list_ascii_of_string s).
Proof. induction s as [|c s IH]; cbn; [reflexivity | now rewrite IH]. Qed.

Lemma hexByte_digits (b : Byte.byte) : forallb JS.isHexDigit (Crypto.hexByte b) = true.
Proof. destruct b; reflexivity. Qed.

Lemma toHex_chars (bs : list Byte.byte) :
  list_ascii_of_string (Crypto.toHex bs) = flat_map Crypto.hexByte bs.
Proof. unfold Crypto.toHex. apply list_ascii_of_string_of_list_ascii. Qed.

Lemma toHex_length (bs : list Byte.byte) :
  String.length (Crypto.toHex bs) = (2 * length bs)%nat.
Proof.
  rewrite strlen_list, toHex_chars.
  induction bs as [|b bs IH]; [reflexivity|].
  cbn [flat_map]. rewrite length_app, IH. cbn. lia.
Qed.

Lemma toHex_hex (bs : list Byte.byte) : JS.forallChars JS.isHexDigit (Crypto.toHex bs) = true.
Proof.
  unfold JS.forallChars. rewrite toHex_chars.
  induction bs as [|b bs IH]; [reflexivity|].
  cbn [flat_map]. rewrite forallb_app, hexByte_digits, IH. reflexivity.
Qed.

Lemma randomBytes_length (rnd : nat -> Byte.byte) (n : nat) :
  length (Crypto.randomBytes rnd n) = n.
Proof. unfold Crypto.randomBytes. now rewrite length_map, length_seq. Qed.

(** C1, as the code has it.  [requestPasswordReset] always returns a
    result with [success: true].  When no user has the email, the result
    is the generic message without a reset token and nothing is written.
    When a user has it (in a collection with unique ids), a token of 32
    random bytes in hexadecimal is stored on that user with an expiry 15
    minutes after now, the password is left as it is, and the result
    carries that token. *)
Theorem requestPasswordReset_contract
    (X : Externals) (env : Env) (requestData : PasswordResetRequestData.t) (now : Z)
    (rnd : nat -> Byte.byte) (salt : string) (db : Collection) :
  Invariant.uniqueIds db = true ->
  (exists r db',
     AuthService.requestPasswordReset X env requestData now rnd salt db = (Ok r, db') /\
     ResetRequestResponse.success r = true) /\
  ((forall u, In u db -> email u <> castEmail (PasswordResetRequestData.email requestData)) ->
   AuthService.requestPasswordReset X env requestData now rnd salt db
   = (Ok (ResetRequestResponse.mk true
            "If the email exists, a password reset link has been sent" None), db)) /\
  (forall u, find (byEmail (PasswordResetRequestData.email requestData)) db = Some u ->
   exists message resetToken db',
     AuthService.requestPasswordReset X env requestData now rnd salt db
     = (Ok (ResetRequestResponse.mk true message (Some resetToken)), db') /\
     resetToken = Crypto.toHex (Crypto.randomBytes rnd 32) /\
     String.length resetToken = 64%nat /\
     JS.forallChars JS.isHexDigit resetToken = true /\
     find (byId (_id u)) db'
     = Some (mkUser (_id u) (name u) (email u) (password u) (age u)
                    (Some resetToken) (Some (now + 15 * 60 * 1000)) (createdAt u) now)).
Proof.
  intros Huniq.
  set (f := fun w : User =>
              mkUser (_id w) (name w) (email w) (password w) (age w)
                     (Some (Crypto.toHex (Crypto.randomBytes rnd 32)))
                     (Some (now + 15 * 60 * 1000)) (createdAt w) now).
  assert (Hfound : forall u,
    find (byEmail (PasswordResetRequestData.email requestData)) db = Some u ->
    AuthService.requestPasswordReset X env requestData now rnd salt db
    = (Ok (ResetRequestResponse.mk true "Password reset token generated"
             (Some (Crypto.toHex (Crypto.randomBytes rnd 32)))),
       updateFirst (byEmail (PasswordResetRequestData.email requestData)) f db)).
  { intros u Hu. unfold AuthService.requestPasswordReset. run. rewrite Hu. cbn [option_map]. run.
    rewrite save_loaded; [|reflexivity|discriminate|reflexivity].
    cbn. rewrite (updateFirst_byId_found _ _ _ _ Huniq Hu). reflexivity. }
  assert (Hnone : find (byEmail (PasswordResetRequestData.email requestData)) db = None ->
    AuthService.requestPasswordReset X env requestData now rnd salt db
    = (Ok (ResetRequestResponse.mk true
             "If the email exists, a password reset link has been sent" None), db)).
  { intros Hn. unfold AuthService.requestPasswordReset. run. rewrite Hn. reflexivity. }
  split; [|split].
  - destruct (find (byEmail (PasswordResetRequestData.email requestData)) db) as [u|] eqn:Hu.
    + rewrite (Hfound u eq_refl). eauto.
    + rewrite (Hnone eq_refl). eauto.
  - intros Hno. apply Hnone. apply find_none_iff. intros u Hu. apply byEmail_false. auto.
  - intros u Hu. eexists. eexists. eexists. split; [apply (Hfound u Hu)|].
    split; [reflexivity|]. split; [|split].
    + now rewrite toHex_length, randomBytes_length.
    + apply toHex_hex.
    + apply (find_updateFirst _ f _ _ Huniq Hu). reflexivity.
Qed.

Lemma requestPasswordReset_contract_witness :
  exists message resetToken db',
    AuthService.requestPasswordReset Fixture.X Fixture.env
      (PasswordResetRequestData.mk "alice@example.com") 4000 Fixture.counter "nacl" Fixture.db
    = (Ok (ResetRequestResponse.mk true message (Some resetToken)), db') /\
    resetToken = Crypto.toHex (Crypto.randomBytes Fixture.counter 32) /\
    String.length resetToken = 64%nat /\
    JS.forallChars JS.isHexDigit resetToken = true /\
    find (byId (_id Fixture.alice)) db'
    = Some (mkUser (_id Fixture.alice) (name Fixture.alice) (email Fixture.alice)
                   (password Fixture.alice) (age Fixture.alice)
                   (Some resetToken) (Some (4000 + 15 * 60 * 1000))
                   (createdAt Fixture.alice) 4000).
Proof.
  exact (proj2 (proj2 (requestPasswordReset_contract Fixture.X Fixture.env
                         (PasswordResetRequestData.mk "alice@example.com") 4000
                         Fixture.counter "nacl" Fixture.db eq_refl))
           Fixture.alice eq_refl).
Defined.

(** C1, as stated, fails: for an email that exists the answer carries a
    reset token and another message than for an email that does not. *)
Lemma requestPasswordReset_answers_differ :
  Fixture.resetAnswer "alice@example.com"
  = Ok (ResetRequestResponse.mk true "Password reset token generated"
          (Some "000102030405060708090a0b0c0d0e0f101112131415161718191a1b1c1d1e1f")) /\
  Fixture.resetAnswer "nobody@example.com"
  = Ok (ResetRequestResponse.mk true
          "If the email exists, a password reset link has been sent" None) /\
  Fixture.resetAnswer "alice@example.com" <> Fixture.resetAnswer "nobody@example.com".
Proof.
  assert (Ha : Fixture.resetAnswer "alice@example.com"
    = Ok (ResetRequestResponse.mk true "Password reset token generated"
            (Some "000102030405060708090a0b0c0d0e0f101112131415161718191a1b1c1d1e1f")))
    by (vm_compute; reflexivity).
  assert (Hn : Fixture.resetAnswer "nobody@example.com"
    = Ok (ResetRequestResponse.mk true
            "If the email exists, a password reset link has been sent" None))
    by (vm_compute; reflexivity).
  split; [exact Ha | split; [exact Hn|]].
  rewrite Ha, Hn. discriminate.
Qed.

(** ** Tokens *)

Lemma verifyToken_malformed (X : Externals) (env : Env) (token : string) (now : Z) :
  JWT.jwtSecret env <> EmptyString ->
  token = EmptyString \/ jws_decode X token = None ->
  JWT.verifyToken X env token now = Throw (ApiError "Invalid authentication token" 401).
Proof.
  intros Hsecret Hbad. unfold JWT.verifyToken, JWT.verify.
  destruct (String.eqb_spec (JWT.jwtSecret env) EmptyString) as [|_]; [contradiction|].
  destruct (String.eqb_spec token EmptyString) as [|Hne]; [reflexivity|].
  destruct Hbad as [|Hdec]; [contradiction|]. rewrite Hdec. reflexivity.
Qed.

Lemma verifyToken_bad_signature (X : Externals) (env : Env) (token : string) (now : Z)
    (j : Jwt.Jws) :
  JWT.jwtSecret env <> EmptyString ->
  jws_decode X token = Some j ->
  Jwt.signature j <> hmac X (JWT.jwtSecret env) (Jwt.payload j) ->
  JWT.verifyToken X env token now = Throw (ApiError "Invalid authentication token" 401).
Proof.
  intros Hsecret Hdec Hsig. unfold JWT.verifyToken, JWT.verify.
  destruct (String.eqb_spec (JWT.jwtSecret env) EmptyString) as [|_]; [contradiction|].
  destruct (String.eqb_spec token EmptyString) as [|Hne]; [reflexivity|].
  rewrite Hdec.
  destruct (String.eqb_spec (Jwt.signature j) (hmac X (JWT.jwtSecret env) (Jwt.payload j)));
    [contradiction | reflexivity].
Qed.

(** C6. With a signing key configured and a lifetime the timespan parser
    accepts, on a wire format that reads back the token it wrote:
    [generateToken] returns a token; [verifyToken] on that token returns
    the claims, with the subject's id and email, as long as the clock (in
    seconds) is before [exp], and throws the expiry error from [exp] on;
    and a token that is empty, does not parse, or carries a signature that
    is not the HMAC of its payload makes [verifyToken] throw the
    invalid-token error. *)
Theorem generateToken_verifyToken
    (X : Externals) (env : Env) (sid semail : string) (issuedAt span : Z) :
  JWT.jwtSecret env <> EmptyString ->
  ms X (JWT.jwtExpires env) = Some span ->
  jws_encode X (JWT.seal X (JWT.jwtSecret env) (JWT.stamp sid semail span issuedAt))
    <> EmptyString ->
  jws_decode X
    (jws_encode X (JWT.seal X (JWT.jwtSecret env) (JWT.stamp sid semail span issuedAt)))
  = Some (JWT.seal X (JWT.jwtSecret env) (JWT.stamp sid semail span issuedAt)) ->
  exists token claims expiry,
    JWT.generateToken X env sid semail issuedAt = Ok token /\
    Jwt.id claims = Some sid /\ Jwt.email claims = Some semail /\
    Jwt.iat claims = Some (issuedAt / 1000) /\
    Jwt.exp claims = Some expiry /\ expiry = issuedAt / 1000 + span / 1000 /\
    (forall now, now / 1000 < expiry -> JWT.verifyToken X env token now = Ok claims) /\
    (forall now, expiry <= now / 1000 ->
       JWT.verifyToken X env token now
       = Throw (ApiError "Authentication token has expired" 401)) /\
    (forall forged now,
       forged = EmptyString \/ jws_decode X forged = None \/
       (exists j, jws_decode X forged = Some j /\
                  Jwt.signature j <> hmac X (JWT.jwtSecret env) (Jwt.payload j)) ->
       JWT.verifyToken X env forged now
       = Throw (ApiError "Invalid authentication token" 401)).
Proof.
  intros Hsecret Hms Hne Hdec.
  exists (jws_encode X (JWT.seal X (JWT.jwtSecret env) (JWT.stamp sid semail span issuedAt))),
         (JWT.stamp sid semail span issuedAt), (issuedAt / 1000 + span / 1000).
  assert (Hs : String.eqb (JWT.jwtSecret env) EmptyString = false)
    by now apply String.eqb_neq.
  split; [|split; [|split; [|split; [|split; [|split; [|split; [|split]]]]]]];
    try reflexivity.
  - unfold JWT.generateToken, JWT.sign. rewrite Hs, Hms. reflexivity.
  - intros now Hlt. unfold JWT.verifyToken, JWT.verify. rewrite Hs.
    apply String.eqb_neq in Hne. rewrite Hne, Hdec.
    cbn [JWT.seal Jwt.signature Jwt.payload]. rewrite String.eqb_refl.
    cbn [negb JWT.stamp Jwt.exp]. unfold JWT.clockTimestamp.
    destruct (Z.leb_spec (issuedAt / 1000 + span / 1000) (now / 1000)); [lia|].
    reflexivity.
  - intros now Hge. unfold JWT.verifyToken, JWT.verify. rewrite Hs.
    apply String.eqb_neq in Hne. rewrite Hne, Hdec.
    cbn [JWT.seal Jwt.signature Jwt.payload]. rewrite String.eqb_refl.
    cbn [negb JWT.stamp Jwt.exp]. unfold JWT.clockTimestamp.
    destruct (Z.leb_spec (issuedAt / 1000 + span / 1000) (now / 1000)); [|lia].
    reflexivity.
  - intros forged now [Hempty | [Hnone | (j & Hj & Hsig)]].
    + apply verifyToken_malformed; auto.
    + apply verifyToken_malformed; auto.
    + now apply verifyToken_bad_signature with (j := j).
Qed.

Lemma generateToken_verifyToken_witness :
  exists token claims expiry,
    JWT.generateToken Fixture.X Fixture.env "64b7f0c2a1d3e4f5a6b7c8d9" "alice@example.com"
                      1700000000000 = Ok token /\
    Jwt.id claims = Some "64b7f0c2a1d3e4f5a6b7c8d9" /\
    Jwt.email claims = Some "alice@example.com" /\
    Jwt.iat claims = Some (1700000000000 / 1000) /\
    Jwt.exp claims = Some expiry /\
    expiry = 1700000000000 / 1000 + (7 * 24 * 60 * 60 * 1000) / 1000 /\
    (forall now, now / 1000 < expiry ->
       JWT.verifyToken Fixture.X Fixture.env token now = Ok claims) /\
    (forall now, expiry <= now / 1000 ->
       JWT.verifyToken Fixture.X Fixture.env token now
       = Throw (ApiError "Authentication token has expired" 401)) /\
    (forall forged now,
       forged = EmptyString \/ jws_decode Fixture.X forged = None \/
       (exists j, jws_decode Fixture.X forged = Some j /\
                  Jwt.signature j
                  <> hmac Fixture.X (JWT.jwtSecret Fixture.env) (Jwt.payload j)) ->
       JWT.verifyToken Fixture.X Fixture.env forged now
       = Throw (ApiError "Invalid authentication token" 401)).
Proof.
  apply (generateToken_verifyToken Fixture.X Fixture.env
           "64b7f0c2a1d3e4f5a6b7c8d9" "alice@example.com"
           1700000000000 (7 * 24 * 60 * 60 * 1000)).
  - discriminate.
  - reflexivity.
  - vm_compute. discriminate.
  - vm_compute. reflexivity.
Defined.

(** ** Emails without regard to case *)

Lemma lowerChar_idem (c : ascii) : JS.lowerChar (JS.lowerChar c) = JS.lowerChar c.
Proof. destruct c as [[] [] [] [] [] [] [] []]; reflexivity. Qed.

Lemma isSpace_lowerChar (c : ascii) : JS.isSpace (JS.lowerChar c) = JS.isSpace c.
Proof. destruct c as [[] [] [] [] [] [] [] []]; reflexivity. Qed.

Lemma dropSpaces_lower (l : list ascii) :
  JS.dropSpaces (map JS.lowerChar l) = map JS.lowerChar (JS.dropSpaces l).
Proof.
  induction l as [|c l IH]; [reflexivity|].
  cbn. rewrite isSpace_lowerChar. destruct (JS.isSpace c); [exact IH | reflexivity].
Qed.

Lemma toLowerCase_idem (s : string) : JS.toLowerCase (JS.toLowerCase s) = JS.toLowerCase s.
Proof.
  unfold JS.toLowerCase. rewrite list_ascii_of_string_of_list_ascii, map_map.
  f_equal. apply map_ext. intros c. apply lowerChar_idem.
Qed.

Lemma trim_toLowerCase (s : string) : JS.trim (JS.toLowerCase s) = JS.toLowerCase (JS.trim s).
Proof.
  unfold JS.trim, JS.toLowerCase. rewrite !list_ascii_of_string_of_list_ascii.
  f_equal. now rewrite dropSpaces_lower, <- map_rev, dropSpaces_lower, <- map_rev.
Qed.

(** [trim] is idempotent. *)

Lemma dropSpaces_clean (l : list ascii) : startsClean (JS.dropSpaces l) = true.
Proof.
  induction l as [|c l IH]; [reflexivity|].
  cbn. destruct (JS.isSpace c) eqn:E; [exact IH|]. cbn. now rewrite E.
Qed.

Lemma dropSpaces_of_clean (l : list ascii) : startsClean l = true -> JS.dropSpaces l = l.
Proof.
  destruct l as [|c l]; [reflexivity|].
  cbn. destruct (JS.isSpace c); [discriminate | reflexivity].
Qed.

Lemma dropSpaces_snoc (l : list ascii) (c : ascii) :
  JS.isSpace c = false -> JS.dropSpaces (l ++ [c]) = JS.dropSpaces l ++ [c].
Proof.
  intros Hc. induction l as [|d l IH]; cbn.
  - now rewrite Hc.
  - destruct (JS.isSpace d); [exact IH | reflexivity].
Qed.

Lemma clean_trailing (l : list ascii) :
  startsClean l = true -> startsClean (rev (JS.dropSpaces (rev l))) = true.
Proof.
  destruct l as [|c l]; [reflexivity|].
  cbn [startsClean rev]. intros Hc. apply negb_true_iff in Hc.
  rewrite dropSpaces_snoc by assumption.
  rewrite rev_app_distr. cbn. now rewrite Hc.
Qed.

Lemma trim_idem (s : string) : JS.trim (JS.trim s) = JS.trim s.
Proof.
  unfold JS.trim. rewrite list_ascii_of_string_of_list_ascii. f_equal.
  set (a := JS.dropSpaces (list_ascii_of_string s)).
  set (b := JS.dropSpaces (rev a)).
  assert (Ha : startsClean a = true) by apply dropSpaces_clean.
  assert (Hb : startsClean b = true) by apply dropSpaces_clean.
  rewrite (dropSpaces_of_clean (rev b)) by (apply clean_trailing; exact Ha).
  rewrite rev_involutive. now rewrite (dropSpaces_of_clean b).
Qed.

Lemma castEmail_idem (e : string) : castEmail (castEmail e) = castEmail e.
Proof.
  unfold castEmail.
  rewrite (trim_toLowerCase (JS.trim (JS.toLowerCase e))), trim_idem.
  now rewrite <- trim_toLowerCase, toLowerCase_idem.
Qed.

(** Comparison up to case, against [toLowerCase]. *)











(** ** Registration *)

Lemma has_delete_same (k : string) (o : JS.object) : JS.has k (JS.delete k o) = false.
Proof.
  unfold JS.has, JS.delete. induction o as [|[k' v] o IH]; [reflexivity|].
  cbn. destruct (String.eqb k k') eqn:E; cbn; [exact IH|].
  rewrite E. exact IH.
Qed.

(** What [toJSON] returns never has a [password] field. *)
Lemma toJSON_no_password (d : UserDocument) : JS.has "password" (toJSON d) = false.
Proof. unfold toJSON. apply has_delete_same. Qed.

Lemma save_new (X : Externals) (env : Env) (oid n e p : string) (a : Q) (now : Z)
    (salt : string) (db : Collection) :
  castName n <> EmptyString -> castEmail e <> EmptyString -> p <> EmptyString ->
  (forall u, In u db -> email u <> castEmail e) ->
  save X env (newUser oid n e p a) now salt db
  = (Ok (mkDoc (mkUser oid (castName n) (castEmail e) (bcrypt_hash X p (BCRYPT_ROUND env) salt)
                       a None None now now)
               [P_password] false []),
     db ++ [mkUser oid (castName n) (castEmail e) (bcrypt_hash X p (BCRYPT_ROUND env) salt)
                   a None None now now]).
Proof.
  intros Hn He Hp Hfree.
  apply String.eqb_neq in Hn, He, Hp.
  unfold save, newUser, validateDoc, allPaths.
  cbn [isNew fields forallb requiredOk name email password andb].
  rewrite Hn, He, Hp. cbn.
  replace (existsb _ db) with false; [reflexivity|].
  symmetry. apply not_true_is_false. intros Hex.
  apply existsb_exists in Hex as (u & Hu & Heq).
  apply String.eqb_eq in Heq. now apply (Hfree u Hu).
Qed.






(** ** Authentication middleware *)

Lemma verifyToken_throws_401 (X : Externals) (env : Env) (token : string) (now : Z) (e : Exn) :
  JWT.verifyToken X env token now = Throw e -> exists m, e = ApiError m 401.
Proof.
  unfold JWT.verifyToken, tryCatch.
  destruct (if String.eqb (JWT.jwtSecret env) EmptyString then _ else _) as [d|e']; [discriminate|].
  destruct (String.eqb (exnName e') "JsonWebTokenError");
    [|destruct (String.eqb (exnName e') "TokenExpiredError")];
    intros [= <-]; eauto.
Qed.

Lemma run_getUserByEmail (e : string) (b : bool) (db : Collection) :
  UserService.getUserByEmail e b db
  = (Ok (option_map (hydrate (if b then [P_password] else []))
                    (find (byEmail (JS.toLowerCase e)) db)), db).
Proof. reflexivity. Qed.

(** C8. [authenticate] ends in a 401 rejection when the request carries
    no bearer token, when the token fails verification, and when the
    token's email claim belongs to no user; when the token verifies and
    its email claim belongs to a user, that user's id and email are
    attached to the request.  [optionalAuth] lets the request through
    unchanged under each of those three conditions, attaches the same
    context on success, and never rejects.  Neither writes to the
    collection. *)
Theorem authenticate_contract
    (X : Externals) (env : Env) (req : Request.t) (now : Z) (db : Collection) :
  (JS.truthy (AuthMiddleware.extractToken req) = false ->
     AuthMiddleware.authenticate X env req now db
     = (Ok (Reject (ApiError "Access token is required. Please log in." 401)), db) /\
     AuthMiddleware.optionalAuth X env req now db = (Ok (Next req), db)) /\
  (forall token e,
     AuthMiddleware.extractToken req = Some token ->
     JWT.verifyToken X env token now = Throw e ->
     (exists m, AuthMiddleware.authenticate X env req now db
                = (Ok (Reject (ApiError m 401)), db)) /\
     AuthMiddleware.optionalAuth X env req now db = (Ok (Next req), db)) /\
  (forall token decoded did demail,
     AuthMiddleware.extractToken req = Some token -> token <> EmptyString ->
     JWT.verifyToken X env token now = Ok decoded ->
     Jwt.id decoded = Some did -> Jwt.email decoded = Some demail ->
     did <> EmptyString -> demail <> EmptyString ->
     (forall u, In u db -> email u <> castEmail (JS.toLowerCase demail)) ->
     AuthMiddleware.authenticate X env req now db
     = (Ok (Reject (ApiError "The user belonging to this token no longer exists." 401)), db) /\
     AuthMiddleware.optionalAuth X env req now db = (Ok (Next req), db)) /\
  (forall token decoded did demail u,
     AuthMiddleware.extractToken req = Some token -> token <> EmptyString ->
     JWT.verifyToken X env token now = Ok decoded ->
     Jwt.id decoded = Some did -> Jwt.email decoded = Some demail ->
     did <> EmptyString -> demail <> EmptyString ->
     find (byEmail (JS.toLowerCase demail)) db = Some u ->
     AuthMiddleware.authenticate X env req now db
     = (Ok (Next (Request.with_user (Some (AuthUser.mk (_id u) (email u))) req)), db) /\
     AuthMiddleware.optionalAuth X env req now db
     = (Ok (Next (Request.with_user (Some (AuthUser.mk (_id u) (email u))) req)), db)) /\
  (exists r, AuthMiddleware.optionalAuth X env req now db = (Ok (Next r), db)).
Proof.
  split; [|split; [|split; [|split]]].
  - intros Hno. unfold AuthMiddleware.authenticate, AuthMiddleware.optionalAuth.
    destruct (AuthMiddleware.extractToken req) as [token|]; [|split; reflexivity].
    rewrite Hno. split; reflexivity.
  - intros token e Htok Hver.
    unfold AuthMiddleware.authenticate, AuthMiddleware.optionalAuth. rewrite Htok.
    destruct (JS.truthy (Some token)); cbn [negb]; [|split; [eauto | reflexivity]].
    run. rewrite Hver. destruct (verifyToken_throws_401 _ _ _ _ _ Hver) as [m ->].
    split; [eauto | reflexivity].
  - intros token decoded did demail Htok Hne Hver Hid Hem Hdid Hdem Hgone.
    unfold AuthMiddleware.authenticate, AuthMiddleware.optionalAuth. rewrite Htok.
    apply String.eqb_neq in Hne, Hdid, Hdem.
    cbn [JS.truthy]. rewrite Hne. cbn [negb]. run. rewrite Hver. cbn [lift]. run.
    rewrite Hid, Hem. cbn [JS.truthy]. rewrite Hdid, Hdem. cbn [negb orb]. run.
    rewrite !run_getUserByEmail.
    replace (find _ db) with (@None User); [split; reflexivity|].
    symmetry. apply find_none_iff. intros u Hu. apply byEmail_false. auto.
  - intros token decoded did demail u Htok Hne Hver Hid Hem Hdid Hdem Hu.
    unfold AuthMiddleware.authenticate, AuthMiddleware.optionalAuth. rewrite Htok.
    apply String.eqb_neq in Hne, Hdid, Hdem.
    cbn [JS.truthy]. rewrite Hne. cbn [negb]. run. rewrite Hver. cbn [lift]. run.
    rewrite Hid, Hem. cbn [JS.truthy]. rewrite Hdid, Hdem. cbn [negb orb]. run.
    rewrite !run_getUserByEmail, Hu. split; reflexivity.
  - unfold AuthMiddleware.optionalAuth.
    destruct (AuthMiddleware.extractToken req) as [token|]; [|eexists; reflexivity].
    destruct (JS.truthy (Some token)); cbn [negb]; [|eexists; reflexivity].
    run. destruct (JWT.verifyToken X env token now) as [decoded|e]; [|eexists; reflexivity].
    cbn [lift]. run.
    destruct (Jwt.id decoded) as [did|], (Jwt.email decoded) as [demail|];
      try (eexists; reflexivity).
    destruct (orb _ _); [eexists; reflexivity|].
    run. rewrite run_getUserByEmail.
    destruct (find _ db); eexists; reflexivity.
Qed.

Lemma authenticate_contract_witness :
  AuthMiddleware.authenticate Fixture.X Fixture.env
    (Request.mk "10.0.0.1" (Some ("Bearer " ++ Fixture.aliceToken)%string) None [] None)
    1700000100000 Fixture.db
  = (Ok (Next (Request.mk "10.0.0.1" (Some ("Bearer " ++ Fixture.aliceToken)%string) None []
                 (Some (AuthUser.mk "64b7f0c2a1d3e4f5a6b7c8d9" "alice@example.com")))),
     Fixture.db)
  /\
  AuthMiddleware.authenticate Fixture.X Fixture.env
    (Request.mk "10.0.0.1" (Some "Basic dXNlcjpwYXNz") None [] None)
    1700000100000 Fixture.db
  = (Ok (Reject (ApiError "Access token is required. Please log in." 401)), Fixture.db).
Proof.
  split.
  - apply (proj1 (proj2 (proj2 (proj2
             (authenticate_contract Fixture.X Fixture.env
                (Request.mk "10.0.0.1" (Some ("Bearer " ++ Fixture.aliceToken)%string) None [] None)
                1700000100000 Fixture.db))))
             Fixture.aliceToken
             (Jwt.mkPayload (Some "64b7f0c2a1d3e4f5a6b7c8d9") (Some "alice@example.com")
                            (Some 1700000000) (Some 1700604800))
             "64b7f0c2a1d3e4f5a6b7c8d9" "alice@example.com" Fixture.alice);
      solve [vm_compute; reflexivity | vm_compute; discriminate].
  - apply (proj1 (authenticate_contract Fixture.X Fixture.env
                    (Request.mk "10.0.0.1" (Some "Basic dXNlcjpwYXNz") None [] None)
                    1700000100000 Fixture.db)).
    reflexivity.
Defined.

(** ** Rate limiting *)

Import RateLimiter.

Lemma storeOf_setStore (b : Bucket) (s : gmap string Client) (l : Limiters) :
  storeOf b (setStore b s l) = s.
Proof. destruct b; reflexivity. Qed.

Lemma storeOf_setStore_other (b b' : Bucket) (s : gmap string Client) (l : Limiters) :
  b <> b' -> storeOf b' (setStore b s l) = storeOf b' l.
Proof. destruct b, b'; intros H; try reflexivity; contradiction. Qed.

Lemma setStore_setStore (b : Bucket) (s s' : gmap string Client) (l : Limiters) :
  setStore b s' (setStore b s l) = setStore b s' l.
Proof. destruct b; reflexivity. Qed.

Lemma limit_saturated (b : Bucket) (req : Request.t) (now : Z) (next : Router.Handler)
    (w : World) (c : Client) :
  storeOf b (limiters w) !! Request.ip req = Some c ->
  now < resetTime c -> max (options b) <= totalHits c ->
  Router.limit b req now next w
  = (globalErrorHandler (handler (options b)),
     mkWorld (setStore b (<[Request.ip req := mkClient (totalHits c + 1) (resetTime c)]>
                            (storeOf b (limiters w)))
                         (limiters w))
             (users w)).
Proof.
  intros Hc Hwin Hmax. unfold Router.limit, onRequest, increment. rewrite Hc.
  destruct (Z.leb_spec (resetTime c) now); [lia|].
  cbn [totalHits resetTime].
  destruct (Z.ltb_spec (max (options b)) (totalHits c + 1)); [|lia].
  cbn [limiters users]. rewrite storeOf_setStore, setStore_setStore.
  unfold onFinish.
  replace (Response.statusCode (globalErrorHandler (handler (options b))) <? 400)%Z with false
    by reflexivity.
  rewrite andb_false_r. reflexivity.
Qed.

Lemma serve_saturated (b : Bucket) (key : string) (reset : Z)
    (arrivals : list (Request.t * Z * Router.Handler)) (w : World) :
  saturated b key reset w ->
  Forall (fun a => Request.ip (fst (fst a)) = key /\ snd (fst a) < reset) arrivals ->
  fst (Router.serve b arrivals w)
  = map (fun _ => globalErrorHandler (handler (options b))) arrivals /\
  users (snd (Router.serve b arrivals w)) = users w /\
  saturated b key reset (snd (Router.serve b arrivals w)).
Proof.
  revert w. induction arrivals as [|[[req now] next] rest IH]; intros w Hsat Hall.
  - cbn. auto.
  - pose proof (Forall_inv Hall) as [Hip Hnow]. pose proof (Forall_inv_tail Hall) as Hrest.
    cbn in Hip, Hnow.
    destruct Hsat as (c & Hc & Hreset & Hmax). subst key reset.
    cbn [Router.serve].
    rewrite (limit_saturated b req now next w c Hc ltac:(lia) Hmax).
    match goal with |- context [Router.serve b rest ?w1] => set (w1' := w1) end.
    assert (Hsat' : saturated b (Request.ip req) (resetTime c) w1').
    { exists (mkClient (totalHits c + 1) (resetTime c)). subst w1'. cbn [limiters].
      rewrite storeOf_setStore, lookup_insert_eq. cbn. repeat split; lia. }
    destruct (IH w1' Hsat' Hrest) as (Hresp & Husers & Hsat'').
    destruct (Router.serve b rest w1') as [resps w2] eqn:Hserve. cbn in Hresp, Husers, Hsat'' |- *.
    rewrite Hresp, Husers. auto.
Qed.

Lemma limit_other_bucket (b b' : Bucket) (req : Request.t) (now : Z) (next : Router.Handler)
    (w : World) :
  b <> b' -> keepsStore b' next ->
  storeOf b' (limiters (snd (Router.limit b req now next w))) = storeOf b' (limiters w).
Proof.
  intros Hne Hkeep. unfold Router.limit.
  destruct (onRequest _ _ _ _) as [limited store1].
  destruct limited.
  - cbn [snd limiters]. now rewrite !storeOf_setStore_other.
  - destruct (next _) as [resp w2] eqn:Hnext. cbn [snd limiters].
    rewrite storeOf_setStore_other by assumption.
    pose proof (Hkeep (mkWorld (setStore b store1 (limiters w)) (users w))) as Hk.
    rewrite Hnext in Hk. cbn [snd limiters] in Hk. rewrite Hk.
    now rewrite storeOf_setStore_other.
Qed.

(** X20. A request through a limiter leaves the count the limiter keeps
    for every other address as it was, whether the request is admitted or
    answered 429, as long as the rest of the route leaves the limiter's
    store alone. *)
Lemma limit_other_key (b : Bucket) (req : Request.t) (now : Z) (next : Router.Handler)
    (w : World) (key : string) :
  key <> Request.ip req -> keepsStore b next ->
  storeOf b (limiters (snd (Router.limit b req now next w))) !! key
  = storeOf b (limiters w) !! key.
Proof.
  intros Hne Hkeep. unfold Router.limit, onRequest, increment.
  match goal with |- context [<[_ := ?c']> _] => set (c1 := c') end.
  destruct (max (options b) <? totalHits c1)%Z.
  - cbn [snd limiters]. rewrite !storeOf_setStore. unfold onFinish, decrement.
    destruct (andb _ _); [|now rewrite lookup_insert_ne].
    rewrite lookup_insert_eq. destruct (0 <? totalHits c1)%Z; now rewrite ?lookup_insert_ne.
  - destruct (next _) as [resp w2] eqn:Hnext. cbn [snd limiters].
    rewrite storeOf_setStore.
    match type of Hnext with next ?w1 = _ => pose proof (Hkeep w1) as Hk end.
    rewrite Hnext in Hk. cbn [snd limiters] in Hk. rewrite storeOf_setStore in Hk. rewrite Hk.
    unfold onFinish, decrement.
    destruct (andb _ _); [|now rewrite lookup_insert_ne].
    rewrite lookup_insert_eq. destruct (0 <? totalHits c1)%Z; now rewrite ?lookup_insert_ne.
Qed.

(** A request that finds its key in a live window below the maximum. *)
Lemma limit_admitted (b : Bucket) (req : Request.t) (now : Z) (next : Router.Handler)
    (w : World) (c : Client) :
  storeOf b (limiters w) !! Request.ip req = Some c ->
  now < resetTime c -> 0 <= totalHits c < max (options b) -> keepsStore b next ->
  exists w1,
    users w1 = users w /\
    fst (Router.limit b req now next w) = fst (next w1) /\
    users (snd (Router.limit b req now next w)) = users (snd (next w1)) /\
    storeOf b (limiters (snd (Router.limit b req now next w))) !! Request.ip req
    = Some (mkClient
              (if andb (skipSuccessfulRequests (options b))
                       (Response.statusCode (fst (next w1)) <? 400)%Z
               then totalHits c else totalHits c + 1)
              (resetTime c)).
Proof.
  intros Hc Hwin Hcount Hkeep. unfold Router.limit, onRequest, increment. rewrite Hc.
  destruct (Z.leb_spec (resetTime c) now); [lia|].
  cbn [totalHits resetTime].
  destruct (Z.ltb_spec (max (options b)) (totalHits c + 1)); [lia|].
  match goal with |- context [next ?w0] => exists w0; set (w1 := w0) end.
  split; [reflexivity|].
  pose proof (Hkeep w1) as Hk.
  destruct (next w1) as [resp w2] eqn:Hnext. cbn [fst snd limiters users] in Hk |- *.
  split; [reflexivity|]. split; [reflexivity|].
  rewrite storeOf_setStore, Hk. subst w1. cbn [limiters]. rewrite storeOf_setStore.
  unfold onFinish, decrement.
  destruct (andb _ _).
  - rewrite lookup_insert_eq. cbn [totalHits resetTime].
    destruct (Z.ltb_spec 0 (totalHits c + 1)); [|lia].
    rewrite lookup_insert_eq. f_equal. f_equal. lia.
  - now rewrite lookup_insert_eq.
Qed.

(** A request whose key has no window, or one that is over. *)
Lemma limit_fresh (b : Bucket) (req : Request.t) (now : Z) (next : Router.Handler)
    (w : World) :
  (storeOf b (limiters w) !! Request.ip req = None \/
   exists c, storeOf b (limiters w) !! Request.ip req = Some c /\ resetTime c <= now) ->
  keepsStore b next ->
  exists w1,
    users w1 = users w /\
    fst (Router.limit b req now next w) = fst (next w1) /\
    users (snd (Router.limit b req now next w)) = users (snd (next w1)) /\
    storeOf b (limiters (snd (Router.limit b req now next w))) !! Request.ip req
    = Some (mkClient
              (if andb (skipSuccessfulRequests (options b))
                       (Response.statusCode (fst (next w1)) <? 400)%Z
               then 0 else 1)
              (now + windowMs (options b))).
Proof.
  intros Hstart Hkeep. unfold Router.limit, onRequest, increment.
  assert (Hc : match storeOf b (limiters w) !! Request.ip req with
               | Some c => if (resetTime c <=? now)%Z
                           then mkClient 0 (now + windowMs (options b)) else c
               | None => mkClient 0 (now + windowMs (options b))
               end = mkClient 0 (now + windowMs (options b))).
  { destruct Hstart as [-> | (c & -> & Hover)]; [reflexivity|].
    destruct (Z.leb_spec (resetTime c) now); [reflexivity | lia]. }
  rewrite Hc. cbn [totalHits resetTime].
  replace (max (options b) <? 0 + 1)%Z with false by (destruct b; reflexivity).
  match goal with |- context [next ?w0] => exists w0; set (w1 := w0) end.
  split; [reflexivity|].
  pose proof (Hkeep w1) as Hk.
  destruct (next w1) as [resp w2] eqn:Hnext. cbn [fst snd limiters users] in Hk |- *.
  split; [reflexivity|]. split; [reflexivity|].
  rewrite storeOf_setStore, Hk. subst w1. cbn [limiters]. rewrite storeOf_setStore.
  unfold onFinish, decrement.
  destruct (andb _ _).
  - rewrite lookup_insert_eq. cbn [totalHits resetTime].
    replace (0 <? 0 + 1)%Z with true by reflexivity.
    now rewrite lookup_insert_eq.
  - now rewrite lookup_insert_eq.
Qed.

(** C9. The limiters have the parameters the claim names: general 15
    minutes and 100; authentication 15 minutes and 5, not counting
    successful requests; password reset 1 hour and 3; account creation 1
    hour, with the maximum its options hold.  Once a key has reached the
    maximum of a limiter in a window, every further request of that key
    before the window ends is answered 429 by the limiter, whatever the
    rest of the route is, and the users collection is not touched.  Below
    the maximum, a request is handed to the rest of the route and counted,
    except that a limiter with [skipSuccessfulRequests] does not count a
    request answered below 400; a request that finds no window for its
    key, or one that is over, starts a window at its arrival.  A request
    through one limiter leaves the stores of the other limiters as they
    are. *)
Theorem rateLimiter_contract :
  (options generalLimiter
   = mkOptions (15 * 60 * 1000) 100 false
               "Too many requests from this IP, please try again later." /\
   options authLimiter
   = mkOptions (15 * 60 * 1000) 5 true
               "Too many authentication attempts, please try again later." /\
   options passwordResetLimiter
   = mkOptions (60 * 60 * 1000) 3 false
               "Too many password reset attempts, please try again later." /\
   windowMs (options createAccountLimiter) = 60 * 60 * 1000 /\
   skipSuccessfulRequests (options createAccountLimiter) = false /\
   0 < max (options createAccountLimiter)) /\
  (forall b, Response.statusCode (globalErrorHandler (handler (options b))) = 429) /\
  (forall b key reset arrivals w,
     saturated b key reset w ->
     Forall (fun a => Request.ip (fst (fst a)) = key /\ snd (fst a) < reset) arrivals ->
     fst (Router.serve b arrivals w)
     = map (fun _ => globalErrorHandler (handler (options b))) arrivals /\
     users (snd (Router.serve b arrivals w)) = users w /\
     saturated b key reset (snd (Router.serve b arrivals w))) /\
  (forall b req now next w c,
     storeOf b (limiters w) !! Request.ip req = Some c ->
     now < resetTime c -> 0 <= totalHits c < max (options b) -> keepsStore b next ->
     exists w1,
       users w1 = users w /\
       fst (Router.limit b req now next w) = fst (next w1) /\
       users (snd (Router.limit b req now next w)) = users (snd (next w1)) /\
       storeOf b (limiters (snd (Router.limit b req now next w))) !! Request.ip req
       = Some (mkClient
                 (if andb (skipSuccessfulRequests (options b))
                          (Response.statusCode (fst (next w1)) <? 400)%Z
                  then totalHits c else totalHits c + 1)
                 (resetTime c))) /\
  (forall b req now next w,
     (storeOf b (limiters w) !! Request.ip req = None \/
      exists c, storeOf b (limiters w) !! Request.ip req = Some c /\ resetTime c <= now) ->
     keepsStore b next ->
     exists w1,
       users w1 = users w /\
       fst (Router.limit b req now next w) = fst (next w1) /\
       users (snd (Router.limit b req now next w)) = users (snd (next w1)) /\
       storeOf b (limiters (snd (Router.limit b req now next w))) !! Request.ip req
       = Some (mkClient
                 (if andb (skipSuccessfulRequests (options b))
                          (Response.statusCode (fst (next w1)) <? 400)%Z
                  then 0 else 1)
                 (now + windowMs (options b)))) /\
  (forall b b' req now next w,
     b <> b' -> keepsStore b' next ->
     storeOf b' (limiters (snd (Router.limit b req now next w))) = storeOf b' (limiters w)).
Proof.
  split; [repeat split|]. split; [intros []; reflexivity|].
  split; [exact serve_saturated|]. split; [exact limit_admitted|].
  split; [exact limit_fresh | exact limit_other_bucket].
Qed.

Lemma rateLimiter_contract_witness :
  fst (Router.serve passwordResetLimiter
         [(Fixture.visitor, 1000, Fixture.wipe); (Fixture.visitor, 3599999, Fixture.wipe)]
         Fixture.throttled)
  = [globalErrorHandler (handler (options passwordResetLimiter));
     globalErrorHandler (handler (options passwordResetLimiter))] /\
  users (snd (Router.serve passwordResetLimiter
                [(Fixture.visitor, 1000, Fixture.wipe); (Fixture.visitor, 3599999, Fixture.wipe)]
                Fixture.throttled))
  = Fixture.db.
Proof.
  destruct (proj1 (proj2 (proj2 rateLimiter_contract))
              passwordResetLimiter "10.0.0.1" 3600000
              [(Fixture.visitor, 1000, Fixture.wipe); (Fixture.visitor, 3599999, Fixture.wipe)]
              Fixture.throttled) as (Hresp & Husers & _).
  - exists (mkClient 3 3600000). split; [reflexivity|]. split; [reflexivity|].
    cbn. lia.
  - repeat constructor.
  - split; assumption.
Defined.

(** ** Update of a user *)

Import UserService.

Lemma profileOnly_refl (u : User) : profileOnly u u.
Proof. destruct u; reflexivity. Qed.

Lemma profileOnly_trans (u v w : User) : profileOnly u v -> profileOnly v w -> profileOnly u w.
Proof. unfold profileOnly. intros -> ->. reflexivity. Qed.

Lemma Forall2_profileOnly_refl (db : Collection) : Forall2 profileOnly db db.
Proof. induction db; constructor; auto using profileOnly_refl. Qed.

Lemma castUpdate_profile (updateData : JS.object) (writes : list Assignment) :
  profileKeys updateData -> castUpdate updateData = Ok writes -> Forall profileWrite writes.
Proof.
  revert writes. induction updateData as [|[k v] rest IH]; intros writes Hkeys Hcast.
  - injection Hcast as <-. constructor.
  - assert (Hrest : profileKeys rest) by (intros k' Hk'; apply Hkeys; now right).
    assert (Hk : k = "name" \/ k = "age") by (apply Hkeys; now left).
    cbn [castUpdate] in Hcast.
    destruct (castUpdate rest) as [l|e] eqn:Hl.
    + specialize (IH l Hrest eq_refl).
      destruct Hk as [-> | ->]; cbn in Hcast; destruct v; try discriminate;
        injection Hcast as <-; constructor; auto; exact I.
    + destruct (castSet (k, v)) as [[a|]|e']; discriminate.
Qed.

Lemma assign_profileOnly (u : User) (a : Assignment) : profileWrite a -> profileOnly u (assign u a).
Proof. destruct a; cbn; intros H; try contradiction; destruct u; reflexivity. Qed.

Lemma fold_assign_profileOnly (writes : list Assignment) (u : User) :
  Forall profileWrite writes -> profileOnly u (fold_left assign writes u).
Proof.
  revert u. induction writes as [|a writes IH]; intros u Hall.
  - apply profileOnly_refl.
  - cbn. apply profileOnly_trans with (v := assign u a).
    + apply assign_profileOnly. exact (Forall_inv Hall).
    + apply IH. exact (Forall_inv_tail Hall).
Qed.

Lemma Forall2_updateFirst (R : User -> User -> Prop) (p : User -> bool) (u u' : User)
    (db : Collection) :
  (forall x, R x x) -> find p db = Some u -> R u u' ->
  Forall2 R db (updateFirst p (fun _ => u') db).
Proof.
  intros Hrefl. induction db as [|a db IH]; intros Hfind HR; [discriminate|].
  cbn in Hfind |- *. destruct (p a).
  - injection Hfind as ->. constructor; [assumption|].
    clear -Hrefl. induction db; constructor; auto.
  - constructor; auto.
Qed.

Lemma findByIdAndUpdate_frame (userId : string) (updateData : JS.object) (now : Z)
    (db : Collection) :
  profileKeys updateData ->
  Forall2 profileOnly db (snd (findByIdAndUpdate userId updateData now db)).
Proof.
  intros Hkeys. unfold findByIdAndUpdate.
  destruct (negb (UserQueries.isObjectId userId)); [apply Forall2_profileOnly_refl|].
  cbv zeta.
  destruct (castUpdate updateData) as [writes|e] eqn:Hcast;
    [|apply Forall2_profileOnly_refl].
  destruct (negb _); [apply Forall2_profileOnly_refl|].
  destruct (find (byId _) db) as [u|] eqn:Hu; [|apply Forall2_profileOnly_refl].
  destruct (existsb _ db); [apply Forall2_profileOnly_refl|].
  cbn [snd]. apply Forall2_updateFirst with (u := u);
    [apply profileOnly_refl | assumption |].
  assert (H : profileOnly u (fold_left assign writes u)).
  { apply fold_assign_profileOnly. now apply castUpdate_profile with (updateData := updateData). }
  unfold profileOnly in H |- *.
  destruct (fold_left assign writes u). unfold with_timestamps. cbn in H |- *. congruence.
Qed.

Lemma updateUser_snd (userId : string) (updateData : JS.object) (now : Z) (db : Collection) :
  snd (updateUser userId updateData now db) = snd (findByIdAndUpdate userId updateData now db).
Proof.
  unfold updateUser. run.
  destruct (findByIdAndUpdate userId updateData now db) as [[[d|]|e] db']; cbn;
    try reflexivity.
  unfold rethrowApiOr. destruct (isApiError e); reflexivity.
Qed.

Lemma updateUser_notFound (userId : string) (updateData : JS.object) (now : Z) (db : Collection)
    (writes : list Assignment) :
  UserQueries.isObjectId userId = true ->
  castUpdate updateData = Ok writes -> forallb validAssignment writes = true ->
  (forall u, In u db -> _id u <> UserQueries.objectIdOf userId) ->
  updateUser userId updateData now db = (Throw (ApiError "User not found" 404), db).
Proof.
  intros Hoid Hcast Hvalid Hnone. unfold updateUser. run. unfold findByIdAndUpdate.
  rewrite Hoid, Hcast, Hvalid. cbn [negb].
  replace (find (byId _) db) with (@None User); [reflexivity|].
  symmetry. apply find_none_iff. intros u Hu. apply byId_false. auto.
Qed.

Lemma updateUser_malformed (userId : string) (updateData : JS.object) (now : Z)
    (db : Collection) :
  UserQueries.isObjectId userId = false ->
  updateUser userId updateData now db = (Throw (ApiError "Failed to update user" 500), db).
Proof.
  intros Hoid. unfold updateUser. run. unfold findByIdAndUpdate.
  rewrite Hoid. reflexivity.
Qed.

Lemma updateUser_throws (userId : string) (updateData : JS.object) (now : Z)
    (db : Collection) (e : Exn) :
  fst (updateUser userId updateData now db) = Throw e ->
  snd (updateUser userId updateData now db) = db.
Proof.
  rewrite updateUser_snd. unfold updateUser. run. unfold findByIdAndUpdate.
  destruct (negb (UserQueries.isObjectId userId)); [reflexivity|]. cbv zeta.
  destruct (castUpdate updateData) as [writes|e']; [|reflexivity].
  destruct (negb _); [reflexivity|].
  destruct (find (byId _) db) as [u|]; [|reflexivity].
  destruct (existsb _ db); [reflexivity|]. discriminate.
Qed.

Lemma authenticate_total (X : Externals) (env : Env) (req : Request.t) (now : Z)
    (db : Collection) :
  exists o, AuthMiddleware.authenticate X env req now db = (Ok o, db).
Proof.
  unfold AuthMiddleware.authenticate.
  destruct (AuthMiddleware.extractToken req) as [token|]; [|eexists; reflexivity].
  destruct (JS.truthy (Some token)); cbn [negb]; [|eexists; reflexivity].
  run. destruct (JWT.verifyToken X env token now) as [decoded|e].
  - cbn [lift]. run.
    destruct (Jwt.id decoded) as [did|], (Jwt.email decoded) as [demail|];
      try (eexists; reflexivity).
    destruct (orb _ _); [eexists; reflexivity|].
    run. rewrite run_getUserByEmail. destruct (find _ db); eexists; reflexivity.
  - cbn [lift]. destruct (isApiError e); eexists; reflexivity.
Qed.

Lemma updateBody_keys (n : option string) (a : option Q) :
  profileKeys (UserSchemas.updateBody n a).
Proof.
  intros k. unfold UserSchemas.updateBody, JS.keys.
  destruct n, a; cbn; intuition.
Qed.

Lemma validateRequest_update_keys (req req' : Request.t) :
  Validation.validateRequest UserSchemas.updateUserSchema req = Next req' ->
  profileKeys (Request.body req').
Proof.
  unfold Validation.validateRequest, UserSchemas.updateUserSchema.
  destruct (UserSchemas.parseUpdateName _) as [nameIssues n].
  destruct (UserSchemas.parseUpdateAge _) as [ageIssues a].
  destruct (nameIssues ++ ageIssues ++ _); [|discriminate].
  cbn. intros [= <-]. cbn. apply updateBody_keys.
Qed.

Lemma controller_updateUser_frame (req : Request.t) (now : Z) (db : Collection) :
  profileKeys (Request.body req) ->
  Forall2 profileOnly db (snd (UserController.updateUser req now db)).
Proof.
  intros Hkeys. unfold UserController.updateUser, UserController.asyncHandler. run.
  destruct (Request.params_id req) as [i|]; [|apply Forall2_profileOnly_refl].
  destruct (JS.truthy (Some i)); cbn [negb]; [|apply Forall2_profileOnly_refl].
  destruct (Request.user req) as [authUser|]; [|apply Forall2_profileOnly_refl].
  destruct (negb _); [apply Forall2_profileOnly_refl|].
  run.
  pose proof (findByIdAndUpdate_frame i (Request.body req) now db Hkeys) as Hframe.
  rewrite <- updateUser_snd in Hframe.
  destruct (updateUser i (Request.body req) now db) as [[json|e] db']; exact Hframe.
Qed.

Lemma putUser_frame (X : Externals) (env : Env) (req : Request.t) (now : Z) (w : World) :
  Forall2 profileOnly (users w) (users (snd (Router.putUser X env req now w))).
Proof.
  unfold Router.putUser, Router.limit.
  destruct (onRequest _ _ _ _) as [limited store1].
  destruct limited; [apply Forall2_profileOnly_refl|].
  match goal with |- context [Router.useM ?m ?k ?w1] => destruct (Router.useM m k w1) as [resp w2] eqn:Hrun end.
  cbn [snd users].
  unfold Router.useM, Router.onUsers in Hrun. cbn [users limiters] in Hrun.
  destruct (authenticate_total X env req now (users w)) as [o Ho]. rewrite Ho in Hrun.
  destruct o as [req1|e]; [|injection Hrun as <- <-; apply Forall2_profileOnly_refl].
  unfold Router.use in Hrun.
  destruct (AuthMiddleware.requireSelfAccess req1) as [req2|e];
    [|injection Hrun as <- <-; apply Forall2_profileOnly_refl].
  destruct (Validation.validateParams _ req2) as [req3|e];
    [|injection Hrun as <- <-; apply Forall2_profileOnly_refl].
  destruct (Validation.validateRequest _ req3) as [req4|e] eqn:Hval;
    [|injection Hrun as <- <-; apply Forall2_profileOnly_refl].
  apply validateRequest_update_keys in Hval.
  unfold Router.handle, Router.onUsers in Hrun. cbn [users limiters] in Hrun.
  pose proof (controller_updateUser_frame req4 now (users w) Hval) as Hframe.
  destruct (UserController.updateUser req4 now (users w)) as [[r|e] db'];
    injection Hrun as <- <-; exact Hframe.
Qed.

(** C10. Whatever its outcome, [updateUser] with an update document whose
    only keys are [name] and [age] rewrites at most the name, the age and
    the [updatedAt] timestamp of stored users: the id, email, password
    hash, reset token, reset expiry and creation time of every user are
    as before.  A call that throws writes nothing at all: it throws 404
    when the id is an ObjectId no user has, and 500 when the id is not an
    ObjectId.  The body [validateRequest(updateUserSchema)] hands on has
    no key other than [name] and [age], so the same holds for every
    request through the update route. *)
Theorem updateUser_frame (X : Externals) (env : Env) :
  (forall u v, profileOnly u v ->
     _id v = _id u /\ email v = email u /\ password v = password u /\
     passwordResetToken v = passwordResetToken u /\
     passwordResetExpires v = passwordResetExpires u /\ createdAt v = createdAt u) /\
  (forall userId updateData now db,
     profileKeys updateData ->
     Forall2 profileOnly db (snd (updateUser userId updateData now db))) /\
  (forall userId updateData now db,
     (forall e, fst (updateUser userId updateData now db) = Throw e ->
        snd (updateUser userId updateData now db) = db) /\
     (forall writes,
        UserQueries.isObjectId userId = true ->
        castUpdate updateData = Ok writes -> forallb validAssignment writes = true ->
        (forall u, In u db -> _id u <> UserQueries.objectIdOf userId) ->
        updateUser userId updateData now db = (Throw (ApiError "User not found" 404), db)) /\
     (UserQueries.isObjectId userId = false ->
        updateUser userId updateData now db
        = (Throw (ApiError "Failed to update user" 500), db))) /\
  (forall req req',
     Validation.validateRequest UserSchemas.updateUserSchema req = Next req' ->
     profileKeys (Request.body req')) /\
  (forall req now w,
     Forall2 profileOnly (users w) (users (snd (Router.putUser X env req now w)))).
Proof.
  split; [|split; [|split; [|split]]].
  - unfold profileOnly. intros u v ->. cbn. auto 10.
  - intros userId updateData now db Hkeys. rewrite updateUser_snd.
    now apply findByIdAndUpdate_frame.
  - intros userId updateData now db. split; [|split].
    + apply updateUser_throws.
    + intros writes. apply updateUser_notFound.
    + apply updateUser_malformed.
  - exact validateRequest_update_keys.
  - exact (putUser_frame X env).
Qed.

Lemma updateUser_frame_witness :
  Forall2 profileOnly Fixture.db
    (snd (updateUser "64B7F0C2A1D3E4F5A6B7C8D9"
            [("name", JS.JStr "Alicia"); ("age", JS.JNum 31)] 8000 Fixture.db)) /\
  updateUser "000000000000000000000000"
    [("name", JS.JStr "Alicia"); ("age", JS.JNum 31)] 8000 Fixture.db
  = (Throw (ApiError "User not found" 404), Fixture.db) /\
  updateUser "alice"
    [("name", JS.JStr "Alicia"); ("age", JS.JNum 31)] 8000 Fixture.db
  = (Throw (ApiError "Failed to update user" 500), Fixture.db).
Proof.
  split; [|split].
  - apply (proj1 (proj2 (updateUser_frame Fixture.X Fixture.env))).
    intros k [<- | [<- | []]]; auto.
  - apply (proj1 (proj2 (proj1 (proj2 (proj2 (updateUser_frame Fixture.X Fixture.env)))
                           "000000000000000000000000"
                           [("name", JS.JStr "Alicia"); ("age", JS.JNum 31)] 8000 Fixture.db)))
      with (writes := [SetName "Alicia"; SetAge 31]).
    + reflexivity.
    + reflexivity.
    + reflexivity.
    + intros u [<- | [<- | []]]; discriminate.
  - apply (proj2 (proj2 (proj1 (proj2 (proj2 (updateUser_frame Fixture.X Fixture.env)))
                           "alice"
                           [("name", JS.JStr "Alicia"); ("age", JS.JNum 31)] 8000 Fixture.db))).
    reflexivity.
Defined.

(** The update with an id written in upper case reaches the record: the
    name, the age and [updatedAt] are rewritten, nothing else. *)
Example updateUser_sample :
  snd (updateUser "64B7F0C2A1D3E4F5A6B7C8D9"
         [("name", JS.JStr "Alicia"); ("age", JS.JNum 31)] 8000 Fixture.db)
  = [mkUser "64b7f0c2a1d3e4f5a6b7c8d9" "Alicia" "alice@example.com"
            "$2b$12$salt$secret1" 31 None None 1000 8000;
     Fixture.bob].
Proof. vm_compute. reflexivity. Qed.

(** A name of another type than a string: the issue says which type was
    received, and the refinement on the body is not run. *)
Example updateUserSchema_mistyped :
  Validation.validateRequest UserSchemas.updateUserSchema
    (Request.mk "10.0.0.1" None None [("name", JS.JNum 5)] None)
  = Reject (ApiError "Request validation failed: body.name: Expected string, received number"
                     400).
Proof. reflexivity. Qed.

(** The sample request through the update route: the name and the age are
    rewritten, the email and the password in the body are not applied. *)
Example putUser_sample :
  users (snd (Router.putUser Fixture.X Fixture.env Fixture.putRequest 1700000100000
                Fixture.world))
  = [mkUser "64b7f0c2a1d3e4f5a6b7c8d9" "Alicia" "alice@example.com"
            (Fixture.toyHash "secret1" 12 "salt") 31 None None 1000 1700000100000;
     Fixture.bob].
Proof. vm_compute. reflexivity. Qed.

(** ** The invariants are kept *)

Lemma updateFirst_ids (p : User -> bool) (f : User -> User) (db : Collection) :
  (forall u, _id (f u) = _id u) -> map _id (updateFirst p f db) = map _id db.
Proof.
  intros Hf. induction db as [|a db IH]; [reflexivity|].
  cbn. destruct (p a); cbn; [now rewrite Hf | now rewrite IH].
Qed.

Lemma updateFirst_emails (p : User -> bool) (f : User -> User) (db : Collection) :
  (forall u, email (f u) = email u) -> map email (updateFirst p f db) = map email db.
Proof.
  intros Hf. induction db as [|a db IH]; [reflexivity|].
  cbn. destruct (p a); cbn; [now rewrite Hf | now rewrite IH].
Qed.

(** Saving a loaded document whose email was not assigned keeps the ids
    and the emails of the collection. *)
Lemma save_loaded_keys (X : Externals) (env : Env) (d : UserDocument) (now : Z)
    (salt : string) (db : Collection) :
  isNew d = false -> isModified P_email d = false ->
  map _id (snd (save X env d now salt db)) = map _id db /\
  map email (snd (save X env d now salt db)) = map email db.
Proof.
  intros Hnew Hmail. unfold save.
  destruct (negb (validateDoc d)); [split; reflexivity|].
  assert (Hnew' : isNew (preSave X env d salt) = false)
    by (unfold preSave; destruct (negb _); assumption).
  assert (Hmail' : isModified P_email (preSave X env d salt) = false)
    by (unfold preSave; destruct (negb _); assumption).
  rewrite Hnew'. destruct (modifiedPaths (preSave X env d salt)) eqn:Hmod; [split; reflexivity|].
  cbn [snd]. split.
  - apply updateFirst_ids. reflexivity.
  - apply updateFirst_emails. intros u. unfold applyModified. cbn [email]. now rewrite Hmail'.
Qed.

Lemma uniqueIds_of_ids (db db' : Collection) :
  map _id db' = map _id db -> Invariant.uniqueIds db' = Invariant.uniqueIds db.
Proof. unfold Invariant.uniqueIds. now intros ->. Qed.

Lemma normalizedEmails_of_emails (db db' : Collection) :
  map email db' = map email db ->
  Invariant.normalizedEmails db' = Invariant.normalizedEmails db.
Proof.
  unfold Invariant.normalizedEmails.
  revert db'. induction db as [|a db IH]; intros [|a' db'] H; try discriminate; [reflexivity|].
  cbn in H |- *. injection H as Ha Hrest. rewrite Ha. f_equal. now apply IH.
Qed.

(** The three password operations rewrite neither an id nor an email. *)
Lemma password_operations_keep_keys (X : Externals) (env : Env) (now : Z) (salt : string)
    (db : Collection) :
  (forall userId passwordData,
     let db' := snd (AuthService.changePassword X env userId passwordData now salt db) in
     map _id db' = map _id db /\ map email db' = map email db) /\
  (forall requestData rnd,
     let db' := snd (AuthService.requestPasswordReset X env requestData now rnd salt db) in
     map _id db' = map _id db /\ map email db' = map email db) /\
  (forall resetData,
     let db' := snd (AuthService.resetPassword X env resetData now salt db) in
     map _id db' = map _id db /\ map email db' = map email db).
Proof.
  split; [|split].
  - intros userId passwordData. unfold AuthService.changePassword. run.
    rewrite isObjectId_run_findById.
    destruct (UserQueries.isObjectId userId); [|split; reflexivity].
    destruct (find (byId _) db) as [u|]; cbn [option_map]; [|split; reflexivity].
    run. unfold get_password, hydrate. cbn [populated hasPath existsb Path_eqb orb fields].
    cbn [Password.comparePassword]. destruct (bcrypt_compare X _ _); cbn [negb];
      [|split; reflexivity].
    run.
    match goal with |- context [save X env ?d now salt db] =>
      pose proof (save_loaded_keys X env d now salt db) as Hkeys;
      destruct (save X env d now salt db) as [[d'|e] db'] end.
    + cbn [snd] in *. apply Hkeys.
      * unfold set_password. cbn. destruct (String.eqb _ _); reflexivity.
      * unfold set_password. cbn. destruct (String.eqb _ _); reflexivity.
    + unfold rethrowApiOr. destruct (isApiError e); cbn [snd throw] in *; apply Hkeys;
        unfold set_password; cbn; destruct (String.eqb _ _); reflexivity.
  - intros requestData rnd. unfold AuthService.requestPasswordReset. run.
    destruct (find _ db) as [u|]; cbn [option_map]; [|split; reflexivity].
    run.
    match goal with |- context [save X env ?d now salt db] =>
      pose proof (save_loaded_keys X env d now salt db eq_refl eq_refl) as Hkeys;
      destruct (save X env d now salt db) as [[d'|e] db'] end; exact Hkeys.
  - intros resetData. unfold AuthService.resetPassword. run.
    destruct (find _ db) as [u|]; cbn [option_map]; [|split; reflexivity].
    run.
    match goal with |- context [save X env ?d now salt db] =>
      pose proof (save_loaded_keys X env d now salt db eq_refl eq_refl) as Hkeys;
      destruct (save X env d now salt db) as [[d'|e] db'] end.
    + exact Hkeys.
    + unfold rethrowApiOr. destruct (isApiError e); exact Hkeys.
Qed.

Lemma save_new_cases (X : Externals) (env : Env) (oid n e p : string) (a : Q) (now : Z)
    (salt : string) (db : Collection) :
  snd (save X env (newUser oid n e p a) now salt db) = db \/
  exists row, snd (save X env (newUser oid n e p a) now salt db) = db ++ [row] /\
              _id row = oid /\ email row = castEmail e.
Proof.
  unfold save. destruct (negb _); [now left|].
  unfold preSave, newUser.
  cbn [isModified modifiedPaths hasPath existsb Path_eqb orb negb isNew fields populated].
  destruct (existsb _ db); [now left|].
  right. eexists. split; [reflexivity|]. split; reflexivity.
Qed.

(** Registration keeps the emails normalized, and the ids unique when the
    ObjectId is fresh. *)
Lemma registerUser_keeps_invariants (X : Externals) (env : Env) (userData : RegisterUserData.t)
    (now : Z) (oid salt : string) (db : Collection) :
  let db' := snd (AuthService.registerUser X env userData now oid salt db) in
  (Invariant.normalizedEmails db = true -> Invariant.normalizedEmails db' = true) /\
  (Invariant.uniqueIds db = true -> ~ In oid (map _id db) -> Invariant.uniqueIds db' = true).
Proof.
  assert (Hcases :
    snd (AuthService.registerUser X env userData now oid salt db) = db \/
    exists row, snd (AuthService.registerUser X env userData now oid salt db) = db ++ [row] /\
                _id row = oid /\ email row = castEmail (RegisterUserData.email userData)).
  { unfold AuthService.registerUser. run.
    destruct (find _ db); cbn [option_map]; [now left|]. run.
    pose proof (save_new_cases X env oid (RegisterUserData.name userData)
                  (RegisterUserData.email userData) (RegisterUserData.password userData)
                  (RegisterUserData.age userData) now salt db) as Hsave.
    destruct (save X env _ now salt db) as [[d|e] db'].
    - cbn [snd] in Hsave. rewrite run_bind. unfold lift.
      destruct (JWT.generateToken X env _ _ now) as [token|e]; [exact Hsave|].
      unfold rethrowApiOr. destruct (isApiError e); exact Hsave.
    - cbn [snd] in Hsave. unfold rethrowApiOr. destruct (isApiError e); exact Hsave. }
  cbn zeta. destruct Hcases as [-> | (row & -> & Hid & Hmail)]; [tauto|].
  split.
  - unfold Invariant.normalizedEmails. rewrite !forallb_app. intros ->. cbn.
    rewrite Hmail, castEmail_idem, String.eqb_refl. reflexivity.
  - unfold Invariant.uniqueIds. rewrite map_app. cbn [map]. rewrite Hid.
    generalize (map _id db). intros ids. induction ids as [|i ids IH]; [reflexivity|].
    cbn [Invariant.distinct app]. intros Hd Hfresh. apply andb_prop in Hd as [Hi Hd].
    apply andb_true_intro. split.
    + rewrite existsb_app, negb_orb, Hi. cbn.
      destruct (String.eqb_spec i oid) as [->|]; [|reflexivity].
      exfalso. apply Hfresh. now left.
    + apply IH; [assumption|]. intros Hin. apply Hfresh. now right.
Qed.

(** An update of the profile rewrites neither an id nor an email. *)
Lemma profileOnly_keys (db db' : Collection) :
  Forall2 profileOnly db db' -> map _id db' = map _id db /\ map email db' = map email db.
Proof.
  induction 1 as [|u v db db' Huv _ [IHid IHmail]]; [split; reflexivity|].
  cbn. rewrite IHid, IHmail. unfold profileOnly in Huv. rewrite Huv. split; reflexivity.
Qed.

(** Unique ids and normalized emails survive the password operations and
    an update of the profile. *)
Lemma invariants_kept (X : Externals) (env : Env) (now : Z) (salt : string) (db : Collection) :
  Invariant.uniqueIds db = true -> Invariant.normalizedEmails db = true ->
  forall db',
    (exists userId passwordData,
       db' = snd (AuthService.changePassword X env userId passwordData now salt db)) \/
    (exists requestData rnd,
       db' = snd (AuthService.requestPasswordReset X env requestData now rnd salt db)) \/
    (exists resetData, db' = snd (AuthService.resetPassword X env resetData now salt db)) \/
    (exists userId updateData,
       profileKeys updateData /\ db' = snd (updateUser userId updateData now db)) ->
    Invariant.uniqueIds db' = true /\ Invariant.normalizedEmails db' = true.
Proof.
  intros Hids Hmails db' Hop.
  assert (Hkeys : map _id db' = map _id db /\ map email db' = map email db).
  { destruct (password_operations_keep_keys X env now salt db) as (Hchange & Hrequest & Hreset).
    destruct Hop as [(userId & passwordData & ->) | [(requestData & rnd & ->) |
                     [(resetData & ->) | (userId & updateData & Hprofile & ->)]]].
    - apply Hchange.
    - apply Hrequest.
    - apply Hreset.
    - apply profileOnly_keys. rewrite updateUser_snd. now apply findByIdAndUpdate_frame. }
  destruct Hkeys as [Hi He].
  now rewrite (uniqueIds_of_ids _ _ Hi), (normalizedEmails_of_emails _ _ He).
Qed.

(** ** The scenario of the specification, run on the sample collection *)

(** A user who registers can log in with the same credentials. *)
Example register_then_login :
  let registered :=
    AuthService.registerUser Fixture.X Fixture.env
      (RegisterUserData.mk "Jane Roe" "Jane@Example.com" "secret1" 30)
      9000 "64b7f0c2a1d3e4f5a6b7c8db" "nacl" Fixture.db in
  exists response,
    fst (AuthService.loginUser Fixture.X Fixture.env
           (LoginCredentials.mk "jane@example.com" "secret1") 9500 (snd registered))
    = Ok response /\
    JS.get "email" (AuthResponse.data_user response) = Some (JS.JStr "jane@example.com") /\
    JS.has "password" (AuthResponse.data_user response) = false.
Proof. eexists. vm_compute. repeat split. Qed.

(** A second registration under the same email, in another case, is a
    conflict. *)
Example register_twice :
  let registered :=
    AuthService.registerUser Fixture.X Fixture.env
      (RegisterUserData.mk "Jane Roe" "jane@example.com" "secret1" 30)
      9000 "64b7f0c2a1d3e4f5a6b7c8db" "nacl" Fixture.db in
  fst (AuthService.registerUser Fixture.X Fixture.env
         (RegisterUserData.mk "Jane Doe" "JANE@example.com" "secret2" 31)
         9100 "64b7f0c2a1d3e4f5a6b7c8dc" "nacl" (snd registered))
  = Throw (ApiError "Email already registered" 409).
Proof. vm_compute. reflexivity. Qed.

(** The update route on another user's id answers 403 and writes nothing. *)
Example putUser_other :
  let req := Request.with_params_id (Some "64b7f0c2a1d3e4f5a6b7c8da") Fixture.putRequest in
  Response.statusCode (fst (Router.putUser Fixture.X Fixture.env req 1700000100000 Fixture.world))
  = 403 /\
  users (snd (Router.putUser Fixture.X Fixture.env req 1700000100000 Fixture.world))
  = Fixture.db.
Proof. vm_compute. split; reflexivity. Qed.

(* ===================================================================== *)
(** * Further properties of the code *)
(* ===================================================================== *)

(** ** Tokens, continued *)

Lemma handler_throws (e : Exn) (decoded : Jwt.Payload) :
  (if String.eqb (exnName e) "JsonWebTokenError"
   then Throw (ApiError "Invalid authentication token" 401)
   else if String.eqb (exnName e) "TokenExpiredError"
        then Throw (ApiError "Authentication token has expired" 401)
        else Throw (ApiError "Authentication failed" 401)) <> Ok decoded.
Proof.
  destruct (String.eqb _ _); [discriminate|]. destruct (String.eqb _ _); discriminate.
Qed.

Lemma verifyToken_ok_inv (X : Externals) (env : Env) (token : string) (now : Z)
    (decoded : Jwt.Payload) :
  JWT.verifyToken X env token now = Ok decoded ->
  token <> EmptyString /\ JWT.jwtSecret env <> EmptyString /\
  (exists j, jws_decode X token = Some j /\ Jwt.payload j = decoded /\
             Jwt.signature j = hmac X (JWT.jwtSecret env) decoded) /\
  (forall e, Jwt.exp decoded = Some e -> now / 1000 < e) /\
  (exists i m, Jwt.id decoded = Some i /\ Jwt.email decoded = Some m).
Proof.
  unfold JWT.verifyToken, JWT.verify, tryCatch.
  destruct (String.eqb_spec (JWT.jwtSecret env) EmptyString) as [_|Hsecret];
    [intros H; now apply handler_throws in H|].
  destruct (String.eqb_spec token EmptyString) as [_|Htoken];
    [intros H; now apply handler_throws in H|].
  destruct (jws_decode X token) as [j|] eqn:Hdec;
    [|intros H; now apply handler_throws in H].
  destruct (String.eqb_spec (Jwt.signature j) (hmac X (JWT.jwtSecret env) (Jwt.payload j)))
    as [Hsig|_]; cbn [negb]; [|intros H; now apply handler_throws in H].
  assert (Hfields : forall d, d = Jwt.payload j ->
            (if andb (JS.defined (Jwt.id d)) (JS.defined (Jwt.email d))
             then Ok d else Throw (ApiError "Invalid token structure" 401)) = Ok decoded ->
            d = decoded /\ exists i m, Jwt.id decoded = Some i /\ Jwt.email decoded = Some m).
  { intros d _. destruct (Jwt.id d) as [i|] eqn:Hi, (Jwt.email d) as [m|] eqn:Hm; cbn;
      try discriminate. intros [= <-]. eauto. }
  destruct (Jwt.exp (Jwt.payload j)) as [e|] eqn:Hexp.
  - unfold JWT.clockTimestamp.
    destruct (Z.leb_spec e (now / 1000)) as [_|Hlive];
      [intros H; now apply handler_throws in H|].
    intros H. cbn in H.
    destruct (Hfields (Jwt.payload j) eq_refl) as [Heq Hboth].
    { destruct (andb _ _); [exact H | now apply handler_throws in H]. }
    subst decoded. repeat split; try assumption; eauto.
    intros e' He'. rewrite Hexp in He'. injection He' as <-. exact Hlive.
  - intros H. cbn in H.
    destruct (Hfields (Jwt.payload j) eq_refl) as [Heq Hboth].
    { destruct (andb _ _); [exact H | now apply handler_throws in H]. }
    subst decoded. repeat split; try assumption; eauto.
    intros e' He'. rewrite Hexp in He'. discriminate.
Qed.

(** X1. [verifyToken] returns claims only for a token that is not empty,
    parses, carries the HMAC of its payload under the configured key, has
    not reached its expiry, and names both an id and an email. *)
Theorem verifyToken_accepts_only_signed (X : Externals) (env : Env) (token : string) (now : Z)
    (decoded : Jwt.Payload) :
  JWT.verifyToken X env token now = Ok decoded ->
  token <> EmptyString /\ JWT.jwtSecret env <> EmptyString /\
  (exists j, jws_decode X token = Some j /\ Jwt.payload j = decoded /\
             Jwt.signature j = hmac X (JWT.jwtSecret env) decoded) /\
  (forall e, Jwt.exp decoded = Some e -> now / 1000 < e) /\
  (exists i m, Jwt.id decoded = Some i /\ Jwt.email decoded = Some m).
Proof. apply verifyToken_ok_inv. Qed.

Lemma verifyToken_accepts_only_signed_witness :
  Fixture.aliceToken <> EmptyString /\ JWT.jwtSecret Fixture.env <> EmptyString /\
  (exists j, jws_decode Fixture.X Fixture.aliceToken = Some j /\
             Jwt.payload j
             = Jwt.mkPayload (Some "64b7f0c2a1d3e4f5a6b7c8d9") (Some "alice@example.com")
                             (Some 1700000000) (Some 1700604800) /\
             Jwt.signature j
             = hmac Fixture.X (JWT.jwtSecret Fixture.env)
                    (Jwt.mkPayload (Some "64b7f0c2a1d3e4f5a6b7c8d9") (Some "alice@example.com")
                                   (Some 1700000000) (Some 1700604800))) /\
  (forall e,
     Jwt.exp (Jwt.mkPayload (Some "64b7f0c2a1d3e4f5a6b7c8d9") (Some "alice@example.com")
                            (Some 1700000000) (Some 1700604800)) = Some e ->
     1700000100000 / 1000 < e) /\
  (exists i m,
     Jwt.id (Jwt.mkPayload (Some "64b7f0c2a1d3e4f5a6b7c8d9") (Some "alice@example.com")
                           (Some 1700000000) (Some 1700604800)) = Some i /\
     Jwt.email (Jwt.mkPayload (Some "64b7f0c2a1d3e4f5a6b7c8d9") (Some "alice@example.com")
                              (Some 1700000000) (Some 1700604800)) = Some m).
Proof.
  apply (verifyToken_accepts_only_signed Fixture.X Fixture.env Fixture.aliceToken 1700000100000).
  vm_compute. reflexivity.
Defined.

(** ** The bearer token of a request *)

Lemma append_cons (c : ascii) (p t : string) :
  (String c p ++ t)%string = String c (p ++ t)%string.
Proof. reflexivity. Qed.

Lemma substring_all (s : string) : String.substring 0 (String.length s) s = s.
Proof. induction s as [|c s IH]; [reflexivity|]. cbn. now rewrite IH. Qed.

Lemma substringFrom_append (p t : string) :
  JS.substringFrom (String.length p) (p ++ t)%string = t.
Proof.
  unfold JS.substringFrom. induction p as [|c p IH]; simpl.
  - rewrite Nat.sub_0_r. apply substring_all.
  - exact IH.
Qed.

Lemma prefix_append (p t : string) : String.prefix p (p ++ t)%string = true.
Proof.
  induction p as [|c p IH]; simpl; [now destruct t|].
  destruct (ascii_dec c c); [exact IH | contradiction].
Qed.

Lemma prefix_split (p s : string) :
  String.prefix p s = true -> s = (p ++ JS.substringFrom (String.length p) s)%string.
Proof.
  revert s. induction p as [|c p IH]; intros s H.
  - simpl. unfold JS.substringFrom. now rewrite Nat.sub_0_r, substring_all.
  - destruct s as [|d s]; [discriminate|]. cbn in H.
    destruct (ascii_dec c d) as [->|]; [|discriminate].
    rewrite append_cons. f_equal. exact (IH s H).
Qed.

Lemma extractToken_spec (req : Request.t) (token : string) :
  AuthMiddleware.extractToken req = Some token <->
  Request.headers_authorization req = Some ("Bearer " ++ token)%string.
Proof.
  unfold AuthMiddleware.extractToken, JS.startsWith.
  destruct (Request.headers_authorization req) as [h|]; [|split; discriminate].
  split.
  - destruct (JS.truthy (Some h)); cbn [andb]; [|discriminate].
    destruct (String.prefix "Bearer " h) eqn:Hp; [|discriminate].
    intros [= <-]. f_equal. exact (prefix_split "Bearer " h Hp).
  - intros [= ->]. cbn [JS.truthy String.eqb append Ascii.eqb Bool.eqb negb andb].
    rewrite (prefix_append "Bearer " token).
    f_equal. exact (substringFrom_append "Bearer " token).
Qed.

(** X2. [extractToken] returns a token exactly when the Authorization
    header is [Bearer ] followed by that token; the prefix is matched
    with its case and its single space. *)
Theorem extractToken_bearer (req : Request.t) (token : string) :
  AuthMiddleware.extractToken req = Some token <->
  Request.headers_authorization req = Some ("Bearer " ++ token)%string.
Proof. apply extractToken_spec. Qed.

Lemma extractToken_bearer_witness :
  AuthMiddleware.extractToken
    (Request.mk "10.0.0.1" (Some ("Bearer " ++ Fixture.aliceToken)%string) None [] None)
  = Some Fixture.aliceToken.
Proof.
  apply (proj2 (extractToken_bearer _ Fixture.aliceToken)). reflexivity.
Defined.

(** ** What [authenticate] hands on *)

Lemma authenticate_cases (X : Externals) (env : Env) (req : Request.t) (now : Z)
    (db : Collection) :
  (exists m, AuthMiddleware.authenticate X env req now db
             = (Ok (Reject (ApiError m 401)), db)) \/
  (exists u, In u db /\
     AuthMiddleware.authenticate X env req now db
     = (Ok (Next (Request.with_user (Some (AuthUser.mk (_id u) (email u))) req)), db)).
Proof.
  unfold AuthMiddleware.authenticate.
  destruct (AuthMiddleware.extractToken req) as [token|]; [|left; eexists; reflexivity].
  destruct (JS.truthy (Some token)); cbn [negb]; [|left; eexists; reflexivity].
  run. destruct (JWT.verifyToken X env token now) as [decoded|e] eqn:Hver.
  - cbn [lift]. run.
    destruct (Jwt.id decoded) as [did|], (Jwt.email decoded) as [demail|];
      try (left; eexists; reflexivity).
    destruct (orb _ _); [left; eexists; reflexivity|].
    run. rewrite run_getUserByEmail.
    destruct (find _ db) as [u|] eqn:Hu; [|left; eexists; reflexivity].
    right. exists u. split; [|reflexivity]. apply find_some in Hu. tauto.
  - cbn [lift]. destruct (verifyToken_throws_401 _ _ _ _ _ Hver) as [m ->].
    left. eexists. reflexivity.
Qed.

(** X3. [authenticate] never throws and never writes.  It ends either in
    a rejection, always with status 401, or in a request that carries the
    id and the email of a user of the collection and is otherwise as it
    came; such a request passes [restrictTo] unchanged whatever roles are
    listed, and [requireSelfAccess] does not answer it with 401. *)
Theorem authenticate_outcomes (X : Externals) (env : Env) (req : Request.t) (now : Z)
    (db : Collection) :
  exists outcome,
    AuthMiddleware.authenticate X env req now db = (Ok outcome, db) /\
    match outcome with
    | Reject e => exists m, e = ApiError m 401
    | Next r =>
        (exists u, In u db /\
           r = Request.with_user (Some (AuthUser.mk (_id u) (email u))) req) /\
        (forall roles, AuthMiddleware.restrictTo roles r = Next r) /\
        (forall m, AuthMiddleware.requireSelfAccess r <> Reject (ApiError m 401))
    end.
Proof.
  destruct (authenticate_cases X env req now db) as [(m & H) | (u & Hu & H)]; rewrite H.
  - eexists. split; [reflexivity|]. cbn. eauto.
  - eexists. split; [reflexivity|]. cbn match. split; [eauto|]. split.
    + intros roles. reflexivity.
    + intros m. unfold AuthMiddleware.requireSelfAccess. cbn [Request.user Request.with_user].
      destruct (negb _); [discriminate|]. destruct (negb _); discriminate.
Qed.

Lemma authenticate_outcomes_witness :
  exists outcome,
    AuthMiddleware.authenticate Fixture.X Fixture.env Fixture.putRequest 1700000100000 Fixture.db
    = (Ok outcome, Fixture.db) /\
    match outcome with
    | Reject e => exists m, e = ApiError m 401
    | Next r =>
        (exists u, In u Fixture.db /\
           r = Request.with_user (Some (AuthUser.mk (_id u) (email u))) Fixture.putRequest) /\
        (forall roles, AuthMiddleware.restrictTo roles r = Next r) /\
        (forall m, AuthMiddleware.requireSelfAccess r <> Reject (ApiError m 401))
    end.
Proof.
  exact (authenticate_outcomes Fixture.X Fixture.env Fixture.putRequest 1700000100000 Fixture.db).
Defined.

(** ** Verification of a token on request *)

(** X4. [verifyAuthToken] never throws and never writes.  Its answer is
    valid exactly when the token verifies and a user has the id the token
    names, and then it carries the id and the email of the token; an
    answer that is not valid carries no user and an error text. *)
Theorem verifyAuthToken_answers (X : Externals) (env : Env) (token : string) (now : Z)
    (db : Collection) :
  exists r,
    AuthService.verifyAuthToken X env token now db = (Ok r, db) /\
    (TokenVerificationResult.valid r = true <->
       exists decoded i u,
         JWT.verifyToken X env token now = Ok decoded /\ Jwt.id decoded = Some i /\
         UserQueries.isObjectId i = true /\
         find (byId (UserQueries.objectIdOf i)) db = Some u) /\
    (TokenVerificationResult.valid r = true ->
       exists decoded i m,
         JWT.verifyToken X env token now = Ok decoded /\
         Jwt.id decoded = Some i /\ Jwt.email decoded = Some m /\
         r = TokenVerificationResult.mk true (Some (i, m)) None) /\
    (TokenVerificationResult.valid r = false ->
       TokenVerificationResult.user r = None /\
       exists message, TokenVerificationResult.error r = Some message).
Proof.
  unfold AuthService.verifyAuthToken. run.
  destruct (JWT.verifyToken X env token now) as [decoded|e] eqn:Hver; cbn [lift].
  - destruct (verifyToken_ok_inv _ _ _ _ _ Hver) as (_ & _ & _ & _ & i & m & Hi & Hm).
    run. rewrite Hi, Hm. cbn [default from_option id]. rewrite isObjectId_run_findById.
    destruct (UserQueries.isObjectId i) eqn:Hoid.
    + destruct (find (byId (UserQueries.objectIdOf i)) db) as [u|] eqn:Hu; cbn [option_map].
      * eexists. split; [reflexivity|]. cbn. repeat split; try discriminate.
        -- intros _. exists decoded, i, u. auto.
        -- intros _. exists decoded, i, m. auto.
      * eexists. split; [reflexivity|]. cbn. repeat split; try discriminate; eauto.
        intros (d' & i' & u' & [= <-] & Hi' & _ & Hu').
        rewrite Hi in Hi'. injection Hi' as <-. congruence.
    + eexists. split; [reflexivity|]. cbn. repeat split; try discriminate; eauto.
      intros (d' & i' & u' & [= <-] & Hi' & Hoid' & _).
      rewrite Hi in Hi'. injection Hi' as <-. congruence.
  - eexists. split; [reflexivity|]. cbn. repeat split; try discriminate; eauto.
    intros (d' & i' & u' & Habs & _). discriminate.
Qed.

Lemma verifyAuthToken_answers_witness :
  exists r,
    AuthService.verifyAuthToken Fixture.X Fixture.env Fixture.aliceToken 1700000100000 Fixture.db
    = (Ok r, Fixture.db) /\
    TokenVerificationResult.valid r = true.
Proof.
  destruct (verifyAuthToken_answers Fixture.X Fixture.env Fixture.aliceToken 1700000100000
              Fixture.db) as (r & Hrun & Hiff & _).
  exists r. split; [exact Hrun|]. apply Hiff.
  exists (Jwt.mkPayload (Some "64b7f0c2a1d3e4f5a6b7c8d9") (Some "alice@example.com")
                        (Some 1700000000) (Some 1700604800)),
         "64b7f0c2a1d3e4f5a6b7c8d9", Fixture.alice.
  repeat split; vm_compute; reflexivity.
Defined.

(** ** What the services hand out about a user *)

Lemma toJSON_keys (d : UserDocument) :
  populated d = [] \/ populated d = [P_password] -> JS.keys (toJSON d) = publicFields.
Proof. destruct d as [u pop new md]. cbn. intros [-> | ->]; reflexivity. Qed.

Lemma save_new_inv (X : Externals) (env : Env) (oid n e p : string) (a : Q) (now : Z)
    (salt : string) (db db' : Collection) (d : UserDocument) :
  save X env (newUser oid n e p a) now salt db = (Ok d, db') ->
  d = mkDoc (registered X env oid n e p a now salt) [P_password] false [] /\
  db' = db ++ [registered X env oid n e p a now salt] /\
  castEmail e <> EmptyString /\ p <> EmptyString.
Proof.
  unfold save. destruct (validateDoc (newUser oid n e p a)) eqn:Hval; cbn [negb];
    [|discriminate].
  unfold preSave, newUser in *.
  cbn [isModified modifiedPaths hasPath existsb Path_eqb orb negb isNew fields populated].
  destruct (existsb _ db); [discriminate|].
  intros [= <- <-].
  unfold validateDoc in Hval.
  cbn [isNew fields allPaths forallb requiredOk name email password] in Hval.
  repeat (apply andb_prop in Hval as [? Hval]).
  repeat split; try reflexivity.
  - apply String.eqb_neq. now apply negb_true_iff.
  - apply String.eqb_neq. now apply negb_true_iff.
Qed.

Lemma rethrow_not_ok {S A} (msg : string) (e : Exn) (s s' : S) (a : A) :
  rethrowApiOr msg e s <> (Ok a, s').
Proof. unfold rethrowApiOr. destruct (isApiError e); discriminate. Qed.

Lemma registerUser_ok_inv (X : Externals) (env : Env) (userData : RegisterUserData.t) (now : Z)
    (oid salt : string) (db db' : Collection) (r : AuthResponse.t) :
  AuthService.registerUser X env userData now oid salt db = (Ok r, db') ->
  let row := registered X env oid (RegisterUserData.name userData)
               (RegisterUserData.email userData) (RegisterUserData.password userData)
               (RegisterUserData.age userData) now salt in
  find (byEmail (RegisterUserData.email userData)) db = None /\
  db' = db ++ [row] /\
  RegisterUserData.password userData <> EmptyString /\
  exists token,
    JWT.generateToken X env oid (castEmail (RegisterUserData.email userData)) now = Ok token /\
    r = AuthResponse.mk true "User registered successfully"
          (toJSON (mkDoc row [P_password] false [])) token.
Proof.
  unfold AuthService.registerUser. run.
  destruct (find (byEmail (RegisterUserData.email userData)) db) as [v|] eqn:Hfind;
    cbn [option_map]; [discriminate|].
  run.
  destruct (save X env _ now salt db) as [[d|e] db1] eqn:Hsave;
    [|intros H; now apply rethrow_not_ok in H].
  apply save_new_inv in Hsave as (-> & -> & _ & Hp).
  rewrite run_bind. unfold lift. cbn [fields _id email registered].
  destruct (JWT.generateToken X env oid _ now) as [token|e] eqn:Htoken;
    [|intros H; now apply rethrow_not_ok in H].
  cbn [ret]. intros [= <- <-]. cbn zeta. repeat split; try assumption. eauto.
Qed.

(** X5. Whatever a service returns about a user has exactly the fields
    name, email, age, createdAt, updatedAt and id: registration, login,
    the profile of the authenticated user, creation, lookup by id, update,
    and every entry of a user listing (there with id first).  Neither the
    password hash nor the reset token or its expiry is among them. *)
Theorem user_json_public_fields (X : Externals) (env : Env) (db : Collection) :
  (forall userData now oid salt r db',
     AuthService.registerUser X env userData now oid salt db = (Ok r, db') ->
     JS.keys (AuthResponse.data_user r) = publicFields) /\
  (forall credentials now r db',
     AuthService.loginUser X env credentials now db = (Ok r, db') ->
     JS.keys (AuthResponse.data_user r) = publicFields) /\
  (forall userId json db',
     AuthService.getAuthenticatedUserProfile userId db = (Ok json, db') ->
     JS.keys json = publicFields) /\
  (forall userData now oid salt json db',
     UserService.createUser X env userData now oid salt db = (Ok json, db') ->
     JS.keys json = publicFields) /\
  (forall userId json db',
     UserService.getUserById userId db = (Ok json, db') -> JS.keys json = publicFields) /\
  (forall userId updateData now json db',
     UserService.updateUser userId updateData now db = (Ok json, db') ->
     JS.keys json = publicFields) /\
  (forall E queryParams r db',
     UserService.getUsers E queryParams db = (Ok r, db') ->
     Forall (fun o => JS.keys o = ["id"; "name"; "email"; "age"; "createdAt"; "updatedAt"])
            (PaginatedResponse.data r)).
Proof.
  split; [|split; [|split; [|split; [|split; [|split]]]]].
  - intros userData now oid salt r db' H.
    apply registerUser_ok_inv in H as (_ & _ & _ & token & _ & ->).
    cbn [AuthResponse.data_user]. apply toJSON_keys. now right.
  - intros credentials now r db'. unfold AuthService.loginUser. run.
    destruct (find _ db) as [u|]; cbn [option_map]; [|discriminate].
    run. unfold get_password, hydrate.
    cbn [populated hasPath existsb Path_eqb orb fields Password.comparePassword].
    destruct (bcrypt_compare X _ _); cbn [negb]; [|discriminate].
    rewrite run_bind. unfold lift.
    destruct (JWT.generateToken X env _ _ now) as [token|e];
      [|intros H; now apply rethrow_not_ok in H].
    cbn [ret]. intros [= <- <-]. cbn [AuthResponse.data_user]. apply toJSON_keys. now right.
  - intros userId json db'. unfold AuthService.getAuthenticatedUserProfile. run.
    rewrite isObjectId_run_findById.
    destruct (UserQueries.isObjectId userId); [|intros H; now apply rethrow_not_ok in H].
    destruct (find _ db) as [u|]; cbn [option_map]; [|discriminate].
    cbn [ret]. intros [= <- <-]. apply toJSON_keys. now left.
  - intros userData now oid salt json db'. unfold UserService.createUser. run.
    destruct (find _ db) as [v|]; cbn [option_map]; [discriminate|].
    run.
    destruct (save X env _ now salt db) as [[d|e] db1] eqn:Hsave;
      [|intros H; now apply rethrow_not_ok in H].
    apply save_new_inv in Hsave as (-> & -> & _).
    cbn [ret]. intros [= <- <-]. apply toJSON_keys. now right.
  - intros userId json db'. unfold UserService.getUserById. run.
    rewrite isObjectId_run_findById.
    destruct (UserQueries.isObjectId userId); [|intros H; now apply rethrow_not_ok in H].
    destruct (find _ db) as [u|]; cbn [option_map]; [|discriminate].
    cbn [ret]. intros [= <- <-]. apply toJSON_keys. now left.
  - intros userId updateData now json db'. unfold UserService.updateUser. run.
    destruct (UserService.findByIdAndUpdate userId updateData now db) as [[[d|]|e] db1] eqn:Hupd;
      [| discriminate | intros H; now apply rethrow_not_ok in H].
    cbn [ret]. intros [= <- <-]. apply toJSON_keys. left.
    unfold UserService.findByIdAndUpdate in Hupd.
    destruct (negb (UserQueries.isObjectId userId)); [discriminate|].
    cbv zeta in Hupd.
    destruct (UserService.castUpdate updateData); [|discriminate].
    destruct (negb _); [discriminate|].
    destruct (find _ db); [|discriminate].
    destruct (existsb _ db); [discriminate|].
    injection Hupd as <- _. reflexivity.
  - intros E queryParams r db'. unfold UserService.getUsers. run.
    destruct (findPage E _ _ _ _ _ db) as [users|e]; [|discriminate].
    run. destruct (countDocuments E _ db) as [total|e]; [|discriminate].
    cbn [ret]. intros [= <- <-]. cbn [PaginatedResponse.data].
    induction users as [|u users IH]; constructor; [reflexivity | exact IH].
Qed.

Lemma user_json_public_fields_witness :
  JS.keys (toJSON (hydrate [P_password] Fixture.alice)) = publicFields.
Proof.
  apply (proj1 (proj2 (user_json_public_fields Fixture.X Fixture.env Fixture.db))
           (LoginCredentials.mk "alice@example.com" "secret1") 1700000000000
           (AuthResponse.mk true "Login successful" (toJSON (hydrate [P_password] Fixture.alice))
              Fixture.aliceToken)
           Fixture.db).
  vm_compute. reflexivity.
Defined.

(** ** Registration, then login *)

Lemma find_app_none {A} (p : A -> bool) (l l' : list A) :
  find p l = None -> find p (l ++ l') = find p l'.
Proof.
  induction l as [|a l IH]; [reflexivity|]. cbn. destruct (p a); [discriminate | exact IH].
Qed.

Lemma byEmail_cast (e e' : string) (u : User) :
  castEmail e' = castEmail e -> byEmail e' u = byEmail e u.
Proof. unfold byEmail. now intros ->. Qed.

Lemma find_byEmail_cast (e e' : string) (db : Collection) :
  castEmail e' = castEmail e -> find (byEmail e') db = find (byEmail e) db.
Proof.
  intros H. induction db as [|a db IH]; [reflexivity|].
  cbn. now rewrite (byEmail_cast e e' a H), IH.
Qed.

Lemma loginUser_found (X : Externals) (env : Env) (credentials : LoginCredentials.t) (now : Z)
    (db : Collection) (u : User) :
  find (byEmail (LoginCredentials.email credentials)) db = Some u ->
  AuthService.loginUser X env credentials now db
  = if bcrypt_compare X (LoginCredentials.password credentials) (password u) then
      match JWT.generateToken X env (_id u) (email u) now with
      | Ok token =>
          (Ok (AuthResponse.mk true "Login successful" (toJSON (hydrate [P_password] u)) token),
           db)
      | Throw e => (Throw e, db)
      end
    else (Throw (ApiError "Invalid login credentials" 401), db).
Proof.
  intros Hu. unfold AuthService.loginUser. run. rewrite Hu. cbn [option_map]. run.
  unfold get_password, hydrate.
  cbn [populated hasPath existsb Path_eqb orb fields Password.comparePassword].
  destruct (bcrypt_compare X _ _); cbn [negb]; [|reflexivity].
  rewrite run_bind. unfold lift.
  destruct (JWT.generateToken X env _ _ now) as [token|e] eqn:Htoken; [reflexivity|].
  unfold JWT.generateToken, tryCatch in Htoken.
  destruct (if String.eqb (JWT.jwtSecret env) EmptyString then _ else _); [discriminate|].
  injection Htoken as <-. reflexivity.
Qed.

(** X6. After a successful registration, a login under the same email
    (up to the case and the surrounding white space the schema's setters
    remove) finds the new user: it succeeds, with the same user object as
    the registration returned and a fresh token, whenever bcrypt verifies
    the password offered against the hash of the registered one, and
    throws 401 whenever it does not. *)
Theorem registerUser_then_loginUser
    (X : Externals) (env : Env) (userData : RegisterUserData.t) (now : Z) (oid salt : string)
    (db db' : Collection) (r : AuthResponse.t)
    (credentials : LoginCredentials.t) (later : Z) :
  AuthService.registerUser X env userData now oid salt db = (Ok r, db') ->
  castEmail (LoginCredentials.email credentials)
  = castEmail (RegisterUserData.email userData) ->
  (bcrypt_compare X (LoginCredentials.password credentials)
     (bcrypt_hash X (RegisterUserData.password userData) (BCRYPT_ROUND env) salt) = true ->
   forall token,
     JWT.generateToken X env oid (castEmail (RegisterUserData.email userData)) later = Ok token ->
     AuthService.loginUser X env credentials later db'
     = (Ok (AuthResponse.mk true "Login successful" (AuthResponse.data_user r) token), db')) /\
  (bcrypt_compare X (LoginCredentials.password credentials)
     (bcrypt_hash X (RegisterUserData.password userData) (BCRYPT_ROUND env) salt) = false ->
   AuthService.loginUser X env credentials later db'
   = (Throw (ApiError "Invalid login credentials" 401), db')).
Proof.
  intros Hreg Hcast.
  apply registerUser_ok_inv in Hreg as (Hfree & -> & _ & token0 & _ & ->).
  set (row := registered X env oid (RegisterUserData.name userData)
                (RegisterUserData.email userData) (RegisterUserData.password userData)
                (RegisterUserData.age userData) now salt).
  assert (Hfind : find (byEmail (LoginCredentials.email credentials)) (db ++ [row]) = Some row).
  { rewrite (find_byEmail_cast _ _ _ Hcast), (find_app_none _ _ _ Hfree).
    cbn. unfold byEmail. cbn [row registered email]. now rewrite String.eqb_refl. }
  rewrite (loginUser_found X env credentials later _ row Hfind).
  subst row. unfold registered. cbn [password _id email].
  split.
  - intros -> token ->. reflexivity.
  - intros ->. reflexivity.
Qed.

Lemma registerUser_then_loginUser_witness :
  exists r db' token,
    AuthService.registerUser Fixture.X Fixture.env
      (RegisterUserData.mk "Jane Roe" "Jane@Example.com" "secret1" 30)
      9000 "64b7f0c2a1d3e4f5a6b7c8db" "nacl" Fixture.db = (Ok r, db') /\
    AuthService.loginUser Fixture.X Fixture.env
      (LoginCredentials.mk " jane@example.com" "secret1") 9500 db'
    = (Ok (AuthResponse.mk true "Login successful" (AuthResponse.data_user r) token), db') /\
    AuthService.loginUser Fixture.X Fixture.env
      (LoginCredentials.mk "jane@example.com" "secret2") 9500 db'
    = (Throw (ApiError "Invalid login credentials" 401), db').
Proof.
  destruct (AuthService.registerUser Fixture.X Fixture.env
              (RegisterUserData.mk "Jane Roe" "Jane@Example.com" "secret1" 30)
              9000 "64b7f0c2a1d3e4f5a6b7c8db" "nacl" Fixture.db) as [[r|e] db'] eqn:Hreg;
    [|vm_compute in Hreg; discriminate].
  destruct (JWT.generateToken Fixture.X Fixture.env "64b7f0c2a1d3e4f5a6b7c8db"
              (castEmail "Jane@Example.com") 9500) as [token|e] eqn:Htoken;
    [|vm_compute in Htoken; discriminate].
  exists r, db', token. split; [reflexivity|]. split.
  - apply (proj1 (registerUser_then_loginUser Fixture.X Fixture.env _ _ _ _ _ _ _
                    (LoginCredentials.mk " jane@example.com" "secret1") 9500 Hreg eq_refl));
      [reflexivity | exact Htoken].
  - apply (proj2 (registerUser_then_loginUser Fixture.X Fixture.env _ _ _ _ _ _ _
                    (LoginCredentials.mk "jane@example.com" "secret2") 9500 Hreg eq_refl)).
    reflexivity.
Defined.

(** ** A token issued at login authenticates its holder *)

Lemma verifyToken_sealed (X : Externals) (env : Env) (token : string) (claims : Jwt.Payload)
    (now : Z) (i m : string) :
  JWT.jwtSecret env <> EmptyString -> token <> EmptyString ->
  jws_decode X token = Some (JWT.seal X (JWT.jwtSecret env) claims) ->
  Jwt.id claims = Some i -> Jwt.email claims = Some m ->
  (forall e, Jwt.exp claims = Some e -> now / 1000 < e) ->
  JWT.verifyToken X env token now = Ok claims.
Proof.
  intros Hsecret Htoken Hdec Hi Hm Hlive.
  apply String.eqb_neq in Hsecret, Htoken.
  unfold JWT.verifyToken, JWT.verify. rewrite Hsecret, Htoken, Hdec.
  cbn [JWT.seal Jwt.signature Jwt.payload]. rewrite String.eqb_refl. cbn [negb].
  destruct (Jwt.exp claims) as [e|] eqn:Hexp.
  - unfold JWT.clockTimestamp. specialize (Hlive e eq_refl).
    destruct (Z.leb_spec e (now / 1000)); [lia|].
    rewrite Hi, Hm. reflexivity.
  - rewrite Hi, Hm. reflexivity.
Qed.

Lemma authenticate_verified (X : Externals) (env : Env) (req : Request.t) (now : Z)
    (db : Collection) (token : string) (decoded : Jwt.Payload) (did demail : string) :
  AuthMiddleware.extractToken req = Some token -> token <> EmptyString ->
  JWT.verifyToken X env token now = Ok decoded ->
  Jwt.id decoded = Some did -> Jwt.email decoded = Some demail ->
  did <> EmptyString -> demail <> EmptyString ->
  AuthMiddleware.authenticate X env req now db
  = match find (byEmail (JS.toLowerCase demail)) db with
    | Some u => (Ok (Next (Request.with_user (Some (AuthUser.mk (_id u) (email u))) req)), db)
    | None =>
        (Ok (Reject (ApiError "The user belonging to this token no longer exists." 401)), db)
    end.
Proof.
  intros Htok Hne Hver Hid Hem Hdid Hdem.
  unfold AuthMiddleware.authenticate. rewrite Htok.
  apply String.eqb_neq in Hne, Hdid, Hdem.
  cbn [JS.truthy]. rewrite Hne. cbn [negb]. run. rewrite Hver. cbn [lift]. run.
  rewrite Hid, Hem. cbn [JS.truthy]. rewrite Hdid, Hdem. cbn [negb orb]. run.
  rewrite run_getUserByEmail. destruct (find _ db); reflexivity.
Qed.

Lemma castEmail_toLowerCase (e : string) : castEmail (JS.toLowerCase e) = castEmail e.
Proof. unfold castEmail. now rewrite toLowerCase_idem. Qed.

(** X7. A login that succeeds returns a token with which its holder is
    authenticated: with a signing key, a lifetime the timespan parser
    accepts and a wire format that reads back the token it wrote, the
    token [loginUser] returns for a stored user (id and email not empty,
    email in the normal form of the schema), sent as a bearer token
    before its expiry, makes [authenticate] attach the id and the email of
    that same user. *)
Theorem loginUser_token_authenticates
    (X : Externals) (env : Env) (credentials : LoginCredentials.t) (now later span : Z)
    (db : Collection) (u : User) (req : Request.t) :
  let token :=
    jws_encode X (JWT.seal X (JWT.jwtSecret env) (JWT.stamp (_id u) (email u) span now)) in
  find (byEmail (LoginCredentials.email credentials)) db = Some u ->
  bcrypt_compare X (LoginCredentials.password credentials) (password u) = true ->
  JWT.jwtSecret env <> EmptyString -> ms X (JWT.jwtExpires env) = Some span ->
  token <> EmptyString ->
  jws_decode X token
  = Some (JWT.seal X (JWT.jwtSecret env) (JWT.stamp (_id u) (email u) span now)) ->
  _id u <> EmptyString -> email u <> EmptyString -> castEmail (email u) = email u ->
  Request.headers_authorization req = Some ("Bearer " ++ token)%string ->
  later / 1000 < now / 1000 + span / 1000 ->
  AuthService.loginUser X env credentials now db
  = (Ok (AuthResponse.mk true "Login successful" (toJSON (hydrate [P_password] u)) token), db) /\
  AuthMiddleware.authenticate X env req later db
  = (Ok (Next (Request.with_user (Some (AuthUser.mk (_id u) (email u))) req)), db).
Proof.
  intros token Hu Hcmp Hsecret Hms Hne Hdec Hid Hmail Hnorm Hheader Hlive.
  split.
  - rewrite (loginUser_found X env credentials now db u Hu), Hcmp.
    unfold JWT.generateToken, JWT.sign.
    apply String.eqb_neq in Hsecret. rewrite Hsecret, Hms. reflexivity.
  - rewrite (authenticate_verified X env req later db token
               (JWT.stamp (_id u) (email u) span now) (_id u) (email u));
      try assumption; try reflexivity.
    + replace (find (byEmail (JS.toLowerCase (email u))) db) with (Some u); [reflexivity|].
      symmetry. rewrite <- Hu. apply find_byEmail_cast.
      rewrite castEmail_toLowerCase, Hnorm.
      apply find_some in Hu as [_ Hb]. unfold byEmail in Hb. now apply String.eqb_eq in Hb.
    + now apply extractToken_spec.
    + apply verifyToken_sealed with (i := _id u) (m := email u); try assumption; try reflexivity.
      intros e [= <-]. unfold JWT.clockTimestamp. exact Hlive.
Qed.

Lemma loginUser_token_authenticates_witness :
  AuthService.loginUser Fixture.X Fixture.env
    (LoginCredentials.mk "Alice@Example.com" "secret1") 1700000000000 Fixture.db
  = (Ok (AuthResponse.mk true "Login successful" (toJSON (hydrate [P_password] Fixture.alice))
           Fixture.aliceToken), Fixture.db) /\
  AuthMiddleware.authenticate Fixture.X Fixture.env
    (Request.mk "10.0.0.1" (Some ("Bearer " ++ Fixture.aliceToken)%string) None [] None)
    1700000100000 Fixture.db
  = (Ok (Next (Request.mk "10.0.0.1" (Some ("Bearer " ++ Fixture.aliceToken)%string) None []
                 (Some (AuthUser.mk "64b7f0c2a1d3e4f5a6b7c8d9" "alice@example.com")))),
     Fixture.db).
Proof.
  apply (loginUser_token_authenticates Fixture.X Fixture.env
           (LoginCredentials.mk "Alice@Example.com" "secret1")
           1700000000000 1700000100000 (7 * 24 * 60 * 60 * 1000) Fixture.db Fixture.alice
           (Request.mk "10.0.0.1" (Some ("Bearer " ++ Fixture.aliceToken)%string) None [] None));
    solve [vm_compute; reflexivity | vm_compute; discriminate].
Defined.

(** ** The life of a reset token *)






(** ** Login after a change of password *)





(** ** Removal of a user *)

Lemma run_findByIdAndDelete (i : string) (db : Collection) :
  UserQueries.findByIdAndDelete i db
  = if UserQueries.isObjectId i then
      match find (byId (UserQueries.objectIdOf i)) db with
      | Some u => (Ok (Some (hydrate [] u)),
                   UserQueries.removeFirst (byId (UserQueries.objectIdOf i)) db)
      | None => (Ok None, db)
      end
    else (UserQueries.castError, db).
Proof. reflexivity. Qed.

Lemma deleteUser_run (userId : string) (db : Collection) :
  UserQueries.isObjectId userId = true ->
  UserService.deleteUser userId db
  = match find (byId (UserQueries.objectIdOf userId)) db with
    | Some u => (Ok tt, UserQueries.removeFirst (byId (UserQueries.objectIdOf userId)) db)
    | None => (Throw (ApiError "User not found" 404), db)
    end.
Proof.
  intros Hoid. unfold UserService.deleteUser. run. rewrite run_findByIdAndDelete, Hoid.
  destruct (find _ db); reflexivity.
Qed.

Lemma getUserById_run (userId : string) (db : Collection) :
  UserQueries.isObjectId userId = true ->
  UserService.getUserById userId db
  = match find (byId (UserQueries.objectIdOf userId)) db with
    | Some u => (Ok (toJSON (hydrate [] u)), db)
    | None => (Throw (ApiError "User not found" 404), db)
    end.
Proof.
  intros Hoid. unfold UserService.getUserById. run. rewrite isObjectId_run_findById, Hoid.
  destruct (find _ db); reflexivity.
Qed.

Lemma removeFirst_In (i : string) (db : Collection) (w : User) :
  Invariant.uniqueIds db = true ->
  (In w (UserQueries.removeFirst (byId i) db) <-> In w db /\ _id w <> i).
Proof.
  induction db as [|a db IH]; intros Huniq; [cbn; tauto|].
  apply uniqueIds_cons in Huniq as [Hhead Huniq].
  cbn [UserQueries.removeFirst]. destruct (byId i a) eqn:Ha.
  - apply byId_true in Ha. subst i. split.
    + intros Hw. split; [now right | now apply Hhead].
    + intros [[<- | Hw] Hne]; [contradiction | assumption].
  - apply byId_false in Ha. cbn [In]. rewrite (IH Huniq). split.
    + intros [<- | [Hw Hne]]; auto.
    + intros [[<- | Hw] Hne]; auto.
Qed.

Lemma removeFirst_length (p : User -> bool) (db : Collection) (u : User) :
  find p db = Some u -> S (length (UserQueries.removeFirst p db)) = length db.
Proof.
  induction db as [|a db IH]; [discriminate|].
  cbn. destruct (p a); [reflexivity|]. intros H. cbn. f_equal. now apply IH.
Qed.

(** X10. [deleteUser], for a well-formed id: when no user has the id it
    throws 404 and the collection is as before; when a user has it, one
    record is removed, and in a collection with unique ids the records
    left are exactly those with another id, in which case a lookup or a
    second removal under the same id throws 404. *)
Theorem deleteUser_contract (userId : string) (db : Collection) :
  UserQueries.isObjectId userId = true ->
  ((forall u, In u db -> _id u <> UserQueries.objectIdOf userId) ->
   UserService.deleteUser userId db = (Throw (ApiError "User not found" 404), db)) /\
  (forall u, find (byId (UserQueries.objectIdOf userId)) db = Some u ->
   exists db',
     UserService.deleteUser userId db = (Ok tt, db') /\
     S (length db') = length db /\
     (Invariant.uniqueIds db = true ->
      (forall w, In w db' <-> In w db /\ _id w <> UserQueries.objectIdOf userId) /\
      UserService.getUserById userId db' = (Throw (ApiError "User not found" 404), db') /\
      UserService.deleteUser userId db' = (Throw (ApiError "User not found" 404), db'))).
Proof.
  intros Hoid. split.
  - intros Hnone. rewrite (deleteUser_run _ _ Hoid).
    replace (find _ db) with (@None User); [reflexivity|].
    symmetry. apply find_none_iff. intros u Hu. apply byId_false. auto.
  - intros u Hu. eexists. split; [rewrite (deleteUser_run _ _ Hoid), Hu; reflexivity|].
    split; [exact (removeFirst_length _ _ _ Hu)|].
    intros Huniq.
    assert (Hleft : forall w, In w (UserQueries.removeFirst (byId (UserQueries.objectIdOf userId)) db)
                              <-> In w db /\ _id w <> UserQueries.objectIdOf userId)
      by (intros w; now apply removeFirst_In).
    assert (Hgone : find (byId (UserQueries.objectIdOf userId))
                         (UserQueries.removeFirst (byId (UserQueries.objectIdOf userId)) db) = None).
    { apply find_none_iff. intros w Hw. apply byId_false. now apply Hleft in Hw. }
    split; [exact Hleft|].
    rewrite (getUserById_run _ _ Hoid), (deleteUser_run _ _ Hoid), Hgone. split; reflexivity.
Qed.

Lemma deleteUser_contract_witness :
  exists db',
    UserService.deleteUser "64b7f0c2a1d3e4f5a6b7c8d9" Fixture.db = (Ok tt, db') /\
    S (length db') = length Fixture.db /\
    UserService.getUserById "64b7f0c2a1d3e4f5a6b7c8d9" db'
    = (Throw (ApiError "User not found" 404), db').
Proof.
  destruct (proj2 (deleteUser_contract "64b7f0c2a1d3e4f5a6b7c8d9" Fixture.db eq_refl)
              Fixture.alice eq_refl) as (db' & Hrun & Hlen & Hrest).
  exists db'. split; [exact Hrun|]. split; [exact Hlen|].
  exact (proj1 (proj2 (Hrest eq_refl))).
Defined.

(** ** Routes *)

Lemma limit_cases (b : Bucket) (req : Request.t) (now : Z) (next : Router.Handler) (w : World) :
  exists w1,
    users w1 = users w /\
    ((fst (Router.limit b req now next w) = globalErrorHandler (handler (options b)) /\
      users (snd (Router.limit b req now next w)) = users w) \/
     (fst (Router.limit b req now next w) = fst (next w1) /\
      users (snd (Router.limit b req now next w)) = users (snd (next w1)))).
Proof.
  unfold Router.limit.
  destruct (onRequest _ _ _ _) as [limited store1].
  match goal with |- context [next ?w0] => exists w0 end.
  split; [reflexivity|].
  destruct limited.
  - left. split; reflexivity.
  - right. destruct (next _) as [resp w2]. split; reflexivity.
Qed.

Lemma objectIds_In (db : Collection) (u : User) :
  Invariant.objectIds db = true -> In u db ->
  UserQueries.isObjectId (_id u) = true /\ UserQueries.objectIdOf (_id u) = _id u.
Proof.
  unfold Invariant.objectIds. rewrite forallb_forall. intros Hall Hu.
  apply Hall in Hu. apply andb_prop in Hu as [Hoid Hcanon].
  split; [assumption | now apply String.eqb_eq].
Qed.

Lemma find_byId_In (db : Collection) (u : User) :
  In u db -> exists v, find (byId (_id u)) db = Some v /\ _id v = _id u.
Proof.
  intros Hu. destruct (find (byId (_id u)) db) as [v|] eqn:Hfind.
  - exists v. split; [reflexivity|]. now apply find_byId_id in Hfind.
  - apply find_none with (x := u) in Hfind; [|assumption].
    unfold byId in Hfind. now rewrite String.eqb_refl in Hfind.
Qed.


Lemma validateParams_objectId (req : Request.t) (i : string) :
  Request.params_id req = Some i -> UserQueries.isObjectId i = true ->
  Validation.validateParams UserSchemas.userParamsSchema_params req = Next req.
Proof.
  intros Hi Hoid. unfold Validation.validateParams, UserSchemas.userParamsSchema_params.
  rewrite Hi. unfold UserQueries.isObjectId in Hoid. rewrite Hoid.
  apply andb_prop in Hoid as [Hlen _]. apply Z.eqb_eq in Hlen. rewrite Hlen.
  cbn. destruct req; cbn in *. now subst.
Qed.

Lemma validateParams_next (req req' : Request.t) :
  Validation.validateParams UserSchemas.userParamsSchema_params req = Next req' ->
  req' = req /\ exists i, Request.params_id req = Some i /\ UserQueries.isObjectId i = true.
Proof.
  unfold Validation.validateParams, UserSchemas.userParamsSchema_params.
  destruct (Request.params_id req) as [i|] eqn:Hi; [|discriminate].
  destruct (JS.strlen i <? 1)%Z; cbn [Zod.issueIf app]; [discriminate|].
  destruct (andb _ _) eqn:Hoid; cbn [negb Zod.issueIf]; [|discriminate].
  intros [= <-]. split; [|eauto].
  destruct req; cbn in *. now subst.
Qed.


Lemma requireSelfAccess_cases (req : Request.t) (a : AuthUser.t) :
  Request.user req = Some a ->
  (AuthMiddleware.requireSelfAccess req = Next req /\
   Request.params_id req = Some (AuthUser.id a) /\ AuthUser.id a <> EmptyString) \/
  (exists m c, AuthMiddleware.requireSelfAccess req = Reject (ApiError m c) /\
               (c = 400 \/ c = 403)).
Proof.
  intros Ha. unfold AuthMiddleware.requireSelfAccess. rewrite Ha.
  destruct (Request.params_id req) as [i|]; cbn [JS.truthy negb].
  - destruct (String.eqb_spec i EmptyString) as [->|Hne]; cbn [negb].
    + right. eauto.
    + case_bool_decide as Heq; cbn [negb].
      * injection Heq as <-. left. auto.
      * right. eauto.
  - right. eauto.
Qed.

Lemma deleteUser_chain (X : Externals) (env : Env) (req : Request.t) (now : Z) (w : World) :
  Invariant.objectIds (users w) = true ->
  let out :=
    Router.useM (AuthMiddleware.authenticate X env req now) (fun req =>
    Router.use (AuthMiddleware.requireSelfAccess req) (fun req =>
    Router.use (Validation.validateParams UserSchemas.userParamsSchema_params req) (fun req =>
    Router.handle (UserController.deleteUser req)))) w in
  (users (snd out) = users w /\
   (Response.statusCode (fst out) = 400 \/ Response.statusCode (fst out) = 401 \/
    Response.statusCode (fst out) = 403)) \/
  (exists u, In u (users w) /\
     AuthMiddleware.authenticate X env req now (users w)
     = (Ok (Next (Request.with_user (Some (AuthUser.mk (_id u) (email u))) req)), users w) /\
     Request.params_id req = Some (_id u) /\
     users (snd out) = UserQueries.removeFirst (byId (_id u)) (users w) /\
     fst out = Response.mk 200 true "User deleted successfully" None).
Proof.
  intros Hids. cbn zeta. unfold Router.useM, Router.onUsers.
  destruct (authenticate_cases X env req now (users w)) as [(m & H) | (u & Hu & H)]; rewrite H.
  - left. split; [reflexivity|]. right. left. reflexivity.
  - destruct (objectIds_In _ _ Hids Hu) as [Hoid Hcanon].
    unfold Router.use.
    destruct (requireSelfAccess_cases
                (Request.with_user (Some (AuthUser.mk (_id u) (email u))) req)
                (AuthUser.mk (_id u) (email u)) eq_refl)
      as [(Hpass & Hparam & Hne) | (m & c & Hrej & Hc)]; [rewrite Hpass | rewrite Hrej].
    + cbn [AuthUser.id] in Hparam, Hne.
      rewrite (validateParams_objectId _ (_id u) Hparam Hoid).
      destruct (find_byId_In _ _ Hu) as (v & Hv & _).
      right. exists u. split; [assumption|]. split; [reflexivity|].
      split; [exact Hparam|].
      unfold Router.handle, Router.onUsers, UserController.deleteUser,
        UserController.asyncHandler.
      cbn [users limiters]. run. rewrite Hparam.
      apply String.eqb_neq in Hne. cbn [JS.truthy]. rewrite Hne. cbn [negb].
      cbn [Request.user Request.with_user AuthUser.id]. rewrite String.eqb_refl. cbn [negb].
      run. rewrite (deleteUser_run _ _ Hoid), Hcanon, Hv. split; reflexivity.
    + left. split; [reflexivity|].
      cbn [fst globalErrorHandler Response.statusCode statusOf].
      destruct Hc as [-> | ->]; cbn; auto.
Qed.

(** X11. The delete route removes nothing but the caller's own record.
    In a collection whose ids are well formed, a request through
    DELETE /:id either is answered 400, 401, 403 or 429 with every user
    left in place, or comes from a caller [authenticate] identifies as a
    stored user, names that user's id as the resource, is answered 200,
    and removes the record with that id and no other. *)
Theorem deleteUser_route_own_record (X : Externals) (env : Env) (req : Request.t) (now : Z)
    (w : World) :
  Invariant.objectIds (users w) = true ->
  let out := Router.deleteUser X env req now w in
  (users (snd out) = users w /\
   In (Response.statusCode (fst out)) [400; 401; 403; 429]) \/
  (exists u, In u (users w) /\
     AuthMiddleware.authenticate X env req now (users w)
     = (Ok (Next (Request.with_user (Some (AuthUser.mk (_id u) (email u))) req)), users w) /\
     Request.params_id req = Some (_id u) /\
     users (snd out) = UserQueries.removeFirst (byId (_id u)) (users w) /\
     fst out = Response.mk 200 true "User deleted successfully" None).
Proof.
  intros Hids. cbn zeta. unfold Router.deleteUser.
  destruct (limit_cases generalLimiter req now
              (Router.useM (AuthMiddleware.authenticate X env req now) (fun req =>
               Router.use (AuthMiddleware.requireSelfAccess req) (fun req =>
               Router.use (Validation.validateParams UserSchemas.userParamsSchema_params req)
                 (fun req => Router.handle (UserController.deleteUser req))))) w)
    as (w1 & Hw1 & [[Hresp Husers] | [Hresp Husers]]); rewrite Hresp, Husers.
  - left. split; [reflexivity|]. cbn. auto.
  - rewrite <- Hw1 in Hids |- *.
    destruct (deleteUser_chain X env req now w1 Hids) as [[Hsame Hstatus] | Hdel].
    + left. split; [exact Hsame|]. cbn [In]. intuition.
    + right. exact Hdel.
Qed.

Lemma deleteUser_route_own_record_witness :
  let req := Request.mk "10.0.0.1" (Some ("Bearer " ++ Fixture.aliceToken)%string)
                        (Some "64b7f0c2a1d3e4f5a6b7c8da") [] None in
  let out := Router.deleteUser Fixture.X Fixture.env req 1700000100000 Fixture.world in
  (users (snd out) = users Fixture.world /\
   In (Response.statusCode (fst out)) [400; 401; 403; 429]) \/
  (exists u, In u (users Fixture.world) /\
     AuthMiddleware.authenticate Fixture.X Fixture.env req 1700000100000 (users Fixture.world)
     = (Ok (Next (Request.with_user (Some (AuthUser.mk (_id u) (email u))) req)),
        users Fixture.world) /\
     Request.params_id req = Some (_id u) /\
     users (snd out) = UserQueries.removeFirst (byId (_id u)) (users Fixture.world) /\
     fst out = Response.mk 200 true "User deleted successfully" None).
Proof.
  apply (deleteUser_route_own_record Fixture.X Fixture.env
           (Request.mk "10.0.0.1" (Some ("Bearer " ++ Fixture.aliceToken)%string)
                       (Some "64b7f0c2a1d3e4f5a6b7c8da") [] None)
           1700000100000 Fixture.world).
  reflexivity.
Defined.

Lemma unique_id_eq (db : Collection) (u v : User) :
  Invariant.uniqueIds db = true -> In u db -> find (byId (_id u)) db = Some v -> v = u.
Proof.
  induction db as [|a db IH]; intros Huniq Hu Hv; [contradiction|].
  apply uniqueIds_cons in Huniq as [Hhead Huniq].
  cbn in Hv. destruct (byId (_id u) a) eqn:Ha.
  - injection Hv as <-. apply byId_true in Ha.
    destruct Hu as [-> | Hu]; [reflexivity|]. exfalso. apply (Hhead u Hu). now symmetry.
  - apply byId_false in Ha. destruct Hu as [-> | Hu]; [contradiction|]. now apply IH.
Qed.

(** X12. Removing a user ends the use of that user's tokens.  In a
    collection with unique ids where no other record has the user's
    email, after [deleteUser] has removed a user, [authenticate] rejects
    with 401 every request whose bearer token, however valid, names that
    user's email. *)
Theorem deleteUser_then_authenticate
    (X : Externals) (env : Env) (req : Request.t) (later : Z) (db : Collection) (u : User)
    (token : string) (decoded : Jwt.Payload) (did : string) :
  Invariant.uniqueIds db = true ->
  In u db -> UserQueries.isObjectId (_id u) = true -> UserQueries.objectIdOf (_id u) = _id u ->
  (forall w, In w db -> email w = email u -> _id w = _id u) ->
  castEmail (email u) = email u -> email u <> EmptyString ->
  AuthMiddleware.extractToken req = Some token -> token <> EmptyString ->
  JWT.verifyToken X env token later = Ok decoded ->
  Jwt.id decoded = Some did -> did <> EmptyString -> Jwt.email decoded = Some (email u) ->
  exists db',
    UserService.deleteUser (_id u) db = (Ok tt, db') /\
    AuthMiddleware.authenticate X env req later db'
    = (Ok (Reject (ApiError "The user belonging to this token no longer exists." 401)), db').
Proof.
  intros Huniq Hu Hoid Hcanon Honly Hnorm Hmail Htok Hne Hver Hid Hdid Hem.
  destruct (find_byId_In _ _ Hu) as (v & Hv & _).
  exists (UserQueries.removeFirst (byId (_id u)) db). split.
  - rewrite (deleteUser_run _ _ Hoid), Hcanon, Hv. reflexivity.
  - rewrite (authenticate_verified X env req later _ token decoded did (email u));
      try assumption.
    replace (find _ _) with (@None User); [reflexivity|].
    symmetry. apply find_none_iff. intros w Hw.
    apply removeFirst_In in Hw as [Hw Hother]; [|assumption].
    apply byEmail_false. rewrite castEmail_toLowerCase, Hnorm.
    intros Hsame. apply Hother. now apply Honly.
Qed.

Lemma deleteUser_then_authenticate_witness :
  exists db',
    UserService.deleteUser (_id Fixture.alice) Fixture.db = (Ok tt, db') /\
    AuthMiddleware.authenticate Fixture.X Fixture.env
      (Request.mk "10.0.0.1" (Some ("Bearer " ++ Fixture.aliceToken)%string) None [] None)
      1700000100000 db'
    = (Ok (Reject (ApiError "The user belonging to this token no longer exists." 401)), db').
Proof.
  apply (deleteUser_then_authenticate Fixture.X Fixture.env
           (Request.mk "10.0.0.1" (Some ("Bearer " ++ Fixture.aliceToken)%string) None [] None)
           1700000100000 Fixture.db Fixture.alice Fixture.aliceToken
           (Jwt.mkPayload (Some "64b7f0c2a1d3e4f5a6b7c8d9") (Some "alice@example.com")
                          (Some 1700000000) (Some 1700604800))
           "64b7f0c2a1d3e4f5a6b7c8d9").
  - reflexivity.
  - now left.
  - reflexivity.
  - reflexivity.
  - intros w [<- | [<- | []]]; [reflexivity | discriminate].
  - reflexivity.
  - discriminate.
  - reflexivity.
  - discriminate.
  - vm_compute. reflexivity.
  - reflexivity.
  - discriminate.
  - reflexivity.
Defined.

Lemma getProfile_run (req : Request.t) (a : AuthUser.t) (db : Collection) :
  Request.user req = Some a -> UserQueries.isObjectId (AuthUser.id a) = true ->
  AuthController.getProfile req db
  = match find (byId (UserQueries.objectIdOf (AuthUser.id a))) db with
    | Some v => (Ok (Response.mk 200 true "Profile retrieved successfully"
                       (Some (toJSON (hydrate [] v)))), db)
    | None => (Ok (globalErrorHandler (ApiError "User not found" 404)), db)
    end.
Proof.
  intros Ha Hoid. unfold AuthController.getProfile, UserController.asyncHandler. run.
  rewrite Ha. run. unfold AuthService.getAuthenticatedUserProfile. run.
  rewrite isObjectId_run_findById, Hoid.
  destruct (find _ db); reflexivity.
Qed.

Lemma limit_decided (b : Bucket) (req : Request.t) (now : Z) (next : Router.Handler)
    (w : World) :
  (overLimit b req now w = true ->
     fst (Router.limit b req now next w) = globalErrorHandler (handler (options b)) /\
     users (snd (Router.limit b req now next w)) = users w) /\
  (overLimit b req now w = false ->
     exists w1, users w1 = users w /\
       fst (Router.limit b req now next w) = fst (next w1) /\
       users (snd (Router.limit b req now next w)) = users (snd (next w1))).
Proof.
  unfold overLimit, Router.limit.
  destruct (onRequest _ _ _ _) as [limited store1]. cbn [fst].
  split; intros ->.
  - split; reflexivity.
  - match goal with |- context [next ?w0] => exists w0 end.
    split; [reflexivity|]. destruct (next _) as [resp w2]. split; reflexivity.
Qed.

(** X13. GET /me gives callers their own profile and nothing else.  In a
    collection with unique, well-formed ids the route never writes.  A
    request over the general limit is answered 429.  A request within the
    limit that [authenticate] rejects is answered with that rejection,
    and one of a caller [authenticate] identifies is answered 200 with
    the stored record of that user, as JSON.  As [authenticate] does one
    or the other, the answer is 401, 429 or that 200. *)
Theorem getMe_route (X : Externals) (env : Env) (req : Request.t) (now : Z) (w : World) :
  Invariant.objectIds (users w) = true -> Invariant.uniqueIds (users w) = true ->
  let out := Router.getMe X env req now w in
  users (snd out) = users w /\
  (overLimit generalLimiter req now w = true ->
     fst out = Response.mk 429 false "Too many requests from this IP, please try again later."
                 None) /\
  (overLimit generalLimiter req now w = false ->
     (forall e,
        AuthMiddleware.authenticate X env req now (users w) = (Ok (Reject e), users w) ->
        fst out = globalErrorHandler e) /\
     (forall u, In u (users w) ->
        AuthMiddleware.authenticate X env req now (users w)
        = (Ok (Next (Request.with_user (Some (AuthUser.mk (_id u) (email u))) req)), users w) ->
        fst out = Response.mk 200 true "Profile retrieved successfully"
                    (Some (toJSON (hydrate [] u))))) /\
  (Response.statusCode (fst out) = 401 \/ Response.statusCode (fst out) = 429 \/
   exists u, In u (users w) /\
     AuthMiddleware.authenticate X env req now (users w)
     = (Ok (Next (Request.with_user (Some (AuthUser.mk (_id u) (email u))) req)), users w) /\
     fst out = Response.mk 200 true "Profile retrieved successfully"
                 (Some (toJSON (hydrate [] u)))).
Proof.
  intros Hids Huniq. cbn zeta. unfold Router.getMe.
  set (next := Router.useM (AuthMiddleware.authenticate X env req now) (fun req =>
               Router.handle (AuthController.getProfile req))).
  assert (Hnext : forall w1, users w1 = users w ->
            users (snd (next w1)) = users w /\
            (forall e,
               AuthMiddleware.authenticate X env req now (users w) = (Ok (Reject e), users w) ->
               fst (next w1) = globalErrorHandler e) /\
            (forall u, In u (users w) ->
               AuthMiddleware.authenticate X env req now (users w)
               = (Ok (Next (Request.with_user (Some (AuthUser.mk (_id u) (email u))) req)),
                  users w) ->
               fst (next w1) = Response.mk 200 true "Profile retrieved successfully"
                                 (Some (toJSON (hydrate [] u)))) /\
            (Response.statusCode (fst (next w1)) = 401 \/
             exists u, In u (users w) /\
               AuthMiddleware.authenticate X env req now (users w)
               = (Ok (Next (Request.with_user (Some (AuthUser.mk (_id u) (email u))) req)),
                  users w) /\
               fst (next w1) = Response.mk 200 true "Profile retrieved successfully"
                                 (Some (toJSON (hydrate [] u))))).
  { intros w1 Hw1. rewrite <- Hw1 in Hids, Huniq |- *.
    unfold next, Router.useM, Router.onUsers.
    destruct (authenticate_cases X env req now (users w1)) as [(m & H) | (u & Hu & H)];
      rewrite H.
    - split; [reflexivity|]. split; [now intros e [= <-]|].
      split; [intros u _ [=] | left; reflexivity].
    - destruct (objectIds_In _ _ Hids Hu) as [Hoid Hcanon].
      destruct (find_byId_In _ _ Hu) as (v & Hv & _).
      pose proof (unique_id_eq _ _ _ Huniq Hu Hv) as ->.
      unfold Router.handle, Router.onUsers. cbn [users limiters].
      rewrite (getProfile_run
                 (Request.with_user (Some (AuthUser.mk (_id u) (email u))) req)
                 (AuthUser.mk (_id u) (email u)) _ eq_refl Hoid).
      cbn [AuthUser.id]. rewrite Hcanon, Hv.
      split; [reflexivity|]. split; [intros e [=]|].
      split; [|right; exists u; auto].
      intros u' Hu' [= Hid _].
      destruct (find_byId_In _ _ Hu') as (v' & Hv' & _).
      pose proof (unique_id_eq _ _ _ Huniq Hu' Hv') as ->.
      rewrite <- Hid, Hv in Hv'. now injection Hv' as <-. }
  destruct (limit_decided generalLimiter req now next w) as [Hover Hunder].
  destruct (overLimit generalLimiter req now w).
  - destruct (Hover eq_refl) as [Hresp Husers]. rewrite Hresp, Husers.
    split; [reflexivity|]. split; [reflexivity|]. split; [discriminate|].
    right. left. reflexivity.
  - destruct (Hunder eq_refl) as (w1 & Hw1 & Hresp & Husers). rewrite Hresp, Husers.
    destruct (Hnext w1 Hw1) as (Hsame & Hrej & Hok & Hany).
    split; [exact Hsame|]. split; [discriminate|]. split; [intros _; split; assumption|].
    destruct Hany as [H | H]; [left; exact H | right; right; exact H].
Qed.

Lemma getMe_route_witness :
  fst (Router.getMe Fixture.X Fixture.env Fixture.putRequest 1700000100000 Fixture.world)
  = Response.mk 200 true "Profile retrieved successfully"
      (Some [("name", JS.JStr "Alice"); ("email", JS.JStr "alice@example.com");
             ("age", JS.JNum 30); ("createdAt", JS.JDate 1000); ("updatedAt", JS.JDate 1000);
             ("id", JS.JStr "64b7f0c2a1d3e4f5a6b7c8d9")]).
Proof.
  apply (proj2 (proj1 (proj2 (proj2
           (getMe_route Fixture.X Fixture.env Fixture.putRequest 1700000100000 Fixture.world
              eq_refl eq_refl))) eq_refl) Fixture.alice).
  - left. reflexivity.
  - vm_compute. reflexivity.
Defined.




(** ** Listing users page by page *)

Lemma getUsers_run (E : QueryEngine) (q : UserQueryParams.t) (db : Collection)
    (matching : list User) :
  answers E (queryFilter q) (querySortBy q) (querySortOrder q) db matching ->
  1 <= default 1 (UserQueryParams.page q) -> 1 <= default 10 (UserQueryParams.limit q) ->
  UserService.getUsers E q db
  = (Ok (PaginatedResponse.mk true "Users retrieved successfully"
           (map UserService.listed
                (firstn (Z.to_nat (default 10 (UserQueryParams.limit q)))
                        (skipn (Z.to_nat ((default 1 (UserQueryParams.page q) - 1)
                                          * default 10 (UserQueryParams.limit q)))
                               matching)))
           (Pagination.mk (default 1 (UserQueryParams.page q))
                          (default 10 (UserQueryParams.limit q))
                          (Z.of_nat (length matching))
                          (JSNum.ceilDiv (Z.of_nat (length matching))
                                         (default 10 (UserQueryParams.limit q)))
                          (JSNum.lt (default 1 (UserQueryParams.page q))
                                    (JSNum.ceilDiv (Z.of_nat (length matching))
                                                   (default 10 (UserQueryParams.limit q))))
                          (1 <? default 1 (UserQueryParams.page q))%Z)),
     db).
Proof.
  intros [Hcount Hfind] Hpage Hlimit.
  unfold queryFilter, querySortBy, querySortOrder in Hcount, Hfind.
  unfold UserService.getUsers. run.
  rewrite Hfind by nia. run. rewrite Hcount. reflexivity.
Qed.

Lemma ceilDiv_bounds (total limit : Z) :
  0 < limit ->
  JSNum.ceilDiv total limit = JSNum.Finite (- ((- total) / limit)) /\
  (- ((- total) / limit) - 1) * limit < total <= - ((- total) / limit) * limit.
Proof.
  intros Hlimit. unfold JSNum.ceilDiv.
  destruct (Z.eqb_spec limit 0); [lia|]. split; [reflexivity|].
  pose proof (Z.div_mod (- total) limit ltac:(lia)) as Hdm.
  pose proof (Z.mod_pos_bound (- total) limit Hlimit) as Hmod.
  nia.
Qed.

(** X15. One page of [getUsers].  When the engine answers the query with
    the records [matching], for a page and a limit of at least 1 (1 and
    10 when they are not given), [getUsers] returns, without writing, the
    window of [matching] that starts after [(page - 1) * limit] records
    and holds at most [limit]; [total] is the number of matching records;
    [totalPages] is the least number of pages of that size that hold them
    all; [hasNext] says that records remain after this page, and then the
    page is full; [hasPrev] says that the page is not the first; a page
    after the last is empty. *)
Theorem getUsers_page (E : QueryEngine) (q : UserQueryParams.t) (db : Collection)
    (matching : list User) :
  let page := default 1 (UserQueryParams.page q) in
  let limit := default 10 (UserQueryParams.limit q) in
  answers E (queryFilter q) (querySortBy q) (querySortOrder q) db matching ->
  1 <= page -> 1 <= limit ->
  exists r n,
    UserService.getUsers E q db = (Ok r, db) /\
    PaginatedResponse.data r
    = map UserService.listed
          (firstn (Z.to_nat limit) (skipn (Z.to_nat ((page - 1) * limit)) matching)) /\
    (length (PaginatedResponse.data r) <= Z.to_nat limit)%nat /\
    Pagination.page (PaginatedResponse.pagination r) = page /\
    Pagination.limit (PaginatedResponse.pagination r) = limit /\
    Pagination.total (PaginatedResponse.pagination r) = Z.of_nat (length matching) /\
    Pagination.totalPages (PaginatedResponse.pagination r) = JSNum.Finite n /\
    (n - 1) * limit < Z.of_nat (length matching) <= n * limit /\
    (Pagination.hasNext (PaginatedResponse.pagination r) = true <->
       page * limit < Z.of_nat (length matching)) /\
    (Pagination.hasNext (PaginatedResponse.pagination r) = true ->
       length (PaginatedResponse.data r) = Z.to_nat limit) /\
    (Pagination.hasPrev (PaginatedResponse.pagination r) = true <-> 1 < page) /\
    (n < page -> PaginatedResponse.data r = []).
Proof.
  intros page limit Hans Hpage Hlimit.
  destruct (ceilDiv_bounds (Z.of_nat (length matching)) limit ltac:(lia)) as [Hceil Hn].
  set (n := - (- Z.of_nat (length matching) / limit)) in *.
  eexists. exists n. split; [exact (getUsers_run E q db matching Hans Hpage Hlimit)|].
  cbn [PaginatedResponse.data PaginatedResponse.pagination Pagination.page Pagination.limit
       Pagination.total Pagination.totalPages Pagination.hasNext Pagination.hasPrev].
  fold page limit. rewrite Hceil. cbn [JSNum.lt].
  assert (Hlen : length (firstn (Z.to_nat limit)
                           (skipn (Z.to_nat ((page - 1) * limit)) matching))
                 = Nat.min (Z.to_nat limit)
                           (length matching - Z.to_nat ((page - 1) * limit)))
    by now rewrite List.length_firstn, List.length_skipn.
  split; [reflexivity|]. split; [rewrite length_map, Hlen; lia|].
  split; [reflexivity|]. split; [reflexivity|]. split; [reflexivity|].
  split; [reflexivity|]. split; [exact Hn|]. split; [|split; [|split]].
  - rewrite Z.ltb_lt. nia.
  - rewrite Z.ltb_lt, length_map, Hlen. intros Hnext.
    assert (page * limit < Z.of_nat (length matching)) by nia. nia.
  - apply Z.ltb_lt.
  - intros Hpast.
    assert (Hzero : length (firstn (Z.to_nat limit)
                              (skipn (Z.to_nat ((page - 1) * limit)) matching)) = 0%nat)
      by (rewrite Hlen; nia).
    destruct (firstn _ _); [reflexivity | discriminate].
Qed.

Lemma getUsers_page_witness :
  exists r n,
    UserService.getUsers Scenario.engine Scenario.thirty Scenario.db = (Ok r, Scenario.db) /\
    PaginatedResponse.data r
    = map UserService.listed
          (firstn (Z.to_nat 2) (skipn (Z.to_nat ((1 - 1) * 2)) [Fixture.alice; Scenario.carol])) /\
    (length (PaginatedResponse.data r) <= Z.to_nat 2)%nat /\
    Pagination.page (PaginatedResponse.pagination r) = 1 /\
    Pagination.limit (PaginatedResponse.pagination r) = 2 /\
    Pagination.total (PaginatedResponse.pagination r)
    = Z.of_nat (length [Fixture.alice; Scenario.carol]) /\
    Pagination.totalPages (PaginatedResponse.pagination r) = JSNum.Finite n /\
    (n - 1) * 2 < Z.of_nat (length [Fixture.alice; Scenario.carol]) <= n * 2 /\
    (Pagination.hasNext (PaginatedResponse.pagination r) = true <->
       1 * 2 < Z.of_nat (length [Fixture.alice; Scenario.carol])) /\
    (Pagination.hasNext (PaginatedResponse.pagination r) = true ->
       length (PaginatedResponse.data r) = Z.to_nat 2) /\
    (Pagination.hasPrev (PaginatedResponse.pagination r) = true <-> 1 < 1) /\
    (n < 1 -> PaginatedResponse.data r = []).
Proof.
  apply (getUsers_page Scenario.engine Scenario.thirty Scenario.db
           [Fixture.alice; Scenario.carol]).
  - split; [reflexivity|]. intros skip limit Hskip Hlimit.
    cbn [findPage Scenario.engine]. destruct (Z.ltb_spec skip 0); [lia | reflexivity].
  - cbn. lia.
  - cbn. lia.
Defined.

Lemma chunks_concat {A} (size : nat) (l : list A) (n : nat) :
  (length l <= n * size)%nat ->
  concat (map (fun k => firstn size (skipn (k * size) l)) (seq 0 n)) = l.
Proof.
  revert l. induction n as [|n IH]; intros l Hlen.
  - destruct l; [reflexivity | cbn in Hlen; lia].
  - cbn [seq map concat]. rewrite <- seq_shift, map_map.
    transitivity (firstn size l ++ skipn size l); [|apply List.firstn_skipn].
    cbn [Nat.mul Nat.add skipn]. f_equal.
    transitivity (concat (map (fun k => firstn size (skipn (k * size) (skipn size l)))
                              (seq 0 n))).
    + f_equal. apply map_ext. intros k.
      rewrite List.skipn_skipn. do 2 f_equal. lia.
    + apply IH. rewrite List.length_skipn. lia.
Qed.

(** X16. The pages of [getUsers] partition the result.  When the engine
    answers the query with the records [matching], the entries of the
    pages 1 to [totalPages], one after the other, are the entries of
    [matching], each once and in the same order. *)
Theorem getUsers_pages_partition (E : QueryEngine) (q : UserQueryParams.t) (db : Collection)
    (matching : list User) (n : Z) :
  let limit := default 10 (UserQueryParams.limit q) in
  answers E (queryFilter q) (querySortBy q) (querySortOrder q) db matching ->
  1 <= limit ->
  JSNum.ceilDiv (Z.of_nat (length matching)) limit = JSNum.Finite n ->
  concat (map (fun k => entries (UserService.getUsers E (atPage (Z.of_nat (S k)) q) db))
              (seq 0 (Z.to_nat n)))
  = map UserService.listed matching.
Proof.
  intros limit Hans Hlimit Hn.
  destruct (ceilDiv_bounds (Z.of_nat (length matching)) limit ltac:(lia)) as [Hceil Hbounds].
  rewrite Hceil in Hn. injection Hn as Hn. rewrite Hn in Hbounds.
  transitivity (map UserService.listed
                    (concat (map (fun k => firstn (Z.to_nat limit)
                                             (skipn (k * Z.to_nat limit) matching))
                                 (seq 0 (Z.to_nat n)))));
    [|f_equal; apply chunks_concat; nia].
  rewrite concat_map, map_map. f_equal. apply map_ext. intros k.
  unfold entries.
  rewrite (getUsers_run E (atPage (Z.of_nat (S k)) q) db matching);
    [| exact Hans | cbn; lia | exact Hlimit].
  cbn [fst PaginatedResponse.data atPage UserQueryParams.page UserQueryParams.limit default
       from_option id].
  fold limit. do 3 f_equal. nia.
Qed.

Lemma getUsers_pages_partition_witness :
  concat (map (fun k => entries (UserService.getUsers Scenario.engine
                                   (atPage (Z.of_nat (S k))
                                      (UserQueryParams.mk None (Some 2) None None (Some Asc) None))
                                   Scenario.db))
              (seq 0 (Z.to_nat 2)))
  = map UserService.listed [Fixture.alice; Fixture.bob; Scenario.carol].
Proof.
  apply (getUsers_pages_partition Scenario.engine
           (UserQueryParams.mk None (Some 2) None None (Some Asc) None) Scenario.db
           [Fixture.alice; Fixture.bob; Scenario.carol] 2).
  - split; [reflexivity|]. intros skip limit Hskip Hlimit.
    cbn [findPage Scenario.engine]. destruct (Z.ltb_spec skip 0); [lia | reflexivity].
  - cbn. lia.
  - reflexivity.
Defined.

(** ** What the request schemas let through *)

Lemma issueIf_nil (failed : bool) (p : list string) (msg : string) :
  Zod.issueIf failed p msg = [] -> failed = false.
Proof. destruct failed; [discriminate | reflexivity]. Qed.

Lemma dropSpaces_length (l : list ascii) : (length (JS.dropSpaces l) <= length l)%nat.
Proof.
  induction l as [|c l IH]; [reflexivity|].
  cbn. destruct (JS.isSpace c); cbn; lia.
Qed.

Lemma trim_length (s : string) : JS.strlen (JS.trim s) <= JS.strlen s.
Proof.
  unfold JS.strlen, JS.trim. rewrite !strlen_list, list_ascii_of_string_of_list_ascii.
  rewrite length_rev.
  pose proof (dropSpaces_length (rev (JS.dropSpaces (list_ascii_of_string s)))) as H1.
  rewrite length_rev in H1.
  pose proof (dropSpaces_length (list_ascii_of_string s)) as H2. lia.
Qed.

Lemma parseUpdateName_mistyped (v : option JS.value) (issues : list Zod.Issue)
    (n : option string) :
  UserSchemas.parseUpdateName v = (issues, n) -> issues = [] ->
  Zod.mistyped JS.isString v = false.
Proof.
  unfold UserSchemas.parseUpdateName.
  destruct v as [[| | |s| | |]|]; try reflexivity; intros [= <- _]; discriminate.
Qed.

Lemma parseUpdateAge_mistyped (v : option JS.value) (issues : list Zod.Issue)
    (a : option Q) :
  UserSchemas.parseUpdateAge v = (issues, a) -> issues = [] ->
  Zod.mistyped JS.isNumber v = false.
Proof.
  unfold UserSchemas.parseUpdateAge.
  destruct v as [[| |q| | | |]|]; try reflexivity; intros [= <- _]; discriminate.
Qed.

(** X17. What [validateRequest(updateUserSchema)] hands on, for a body
    whose name, if it is a string, is an ASCII string.  The request it
    lets through is the one it got with the body replaced by an object of
    at most the fields name and age, at least one of them.  The name is
    the trimmed form of the string sent, which had at least 2 characters:
    it is not empty, has at most 50 characters, only letters and spaces,
    and no white space at either end.  The age is the number sent, an
    integer from 13 to 120. *)
Theorem updateUserSchema_output (req req' : Request.t) :
  asciiField "name" (Request.body req) = true ->
  Validation.validateRequest UserSchemas.updateUserSchema req = Next req' ->
  exists n a,
    req' = Request.with_body (UserSchemas.updateBody n a) req /\
    (n <> None \/ a <> None) /\
    (forall t, n = Some t ->
       (exists s, JS.get "name" (Request.body req) = Some (JS.JStr s) /\ t = JS.trim s /\
                  2 <= JS.strlen s) /\
       JS.trim t = t /\ t <> EmptyString /\ JS.strlen t <= 50 /\
       JS.forallChars (fun c => orb (JS.isLetter c) (JS.isSpace c)) t = true) /\
    (forall v, a = Some v ->
       JS.get "age" (Request.body req) = Some (JS.JNum v) /\
       JS.isInteger v = true /\ (13 <= v)%Q /\ (v <= 120)%Q).
Proof.
  intros _. unfold Validation.validateRequest, UserSchemas.updateUserSchema.
  cbn [UserSchemas.rd_body].
  destruct (UserSchemas.parseUpdateName _) as [nameIssues n] eqn:Hn.
  destruct (UserSchemas.parseUpdateAge _) as [ageIssues a] eqn:Ha.
  destruct (nameIssues ++ ageIssues ++ _) eqn:Hissues; [|discriminate].
  apply List.app_eq_nil in Hissues as [Hni Hrest].
  apply List.app_eq_nil in Hrest as [Hai Hri].
  rewrite (parseUpdateName_mistyped _ _ _ Hn Hni), (parseUpdateAge_mistyped _ _ _ Ha Hai)
    in Hri.
  cbn [orb] in Hri. apply issueIf_nil, negb_false_iff in Hri.
  cbn. intros [= <-]. exists n, a. split; [reflexivity|]. split; [|split].
  - destruct n; [left; discriminate|]. destruct a; [right; discriminate|]. discriminate.
  - intros t ->. unfold UserSchemas.parseUpdateName in Hn.
    destruct (JS.get "name" (Request.body req)) as [[| | |s| | |]|]; try discriminate.
    injection Hn as <- <-.
    apply List.app_eq_nil in Hni as [Hmin Hrest].
    apply List.app_eq_nil in Hrest as [Hmax Hpat].
    apply issueIf_nil in Hmin, Hmax, Hpat.
    apply negb_false_iff, andb_prop in Hpat as [Hne Hchars].
    apply Z.ltb_ge in Hmin, Hmax.
    split; [exists s; auto|]. split; [apply trim_idem|]. split.
    + apply String.eqb_neq. now apply negb_true_iff.
    + split; [|exact Hchars]. pose proof (trim_length s). lia.
  - intros v ->. unfold UserSchemas.parseUpdateAge in Ha.
    destruct (JS.get "age" (Request.body req)) as [[| |q| | | |]|]; try discriminate.
    injection Ha as <- <-.
    apply List.app_eq_nil in Hai as [Hint Hrest].
    apply List.app_eq_nil in Hrest as [Hmin Hmax].
    apply issueIf_nil, negb_false_iff in Hint, Hmin, Hmax.
    split; [reflexivity|]. split; [exact Hint|].
    split; now apply Qle_bool_iff.
Qed.

Lemma updateUserSchema_output_witness :
  asciiField "name" (Request.body Fixture.putRequest) = true /\
  exists n a,
    Request.with_body [("name", JS.JStr "Alicia"); ("age", JS.JNum 31)] Fixture.putRequest
    = Request.with_body (UserSchemas.updateBody n a) Fixture.putRequest /\
    (n <> None \/ a <> None) /\
    (forall t, n = Some t ->
       (exists s, JS.get "name" (Request.body Fixture.putRequest) = Some (JS.JStr s) /\
                  t = JS.trim s /\ 2 <= JS.strlen s) /\
       JS.trim t = t /\ t <> EmptyString /\ JS.strlen t <= 50 /\
       JS.forallChars (fun c => orb (JS.isLetter c) (JS.isSpace c)) t = true) /\
    (forall v, a = Some v ->
       JS.get "age" (Request.body Fixture.putRequest) = Some (JS.JNum v) /\
       JS.isInteger v = true /\ (13 <= v)%Q /\ (v <= 120)%Q).
Proof.
  split; [reflexivity|].
  apply (updateUserSchema_output Fixture.putRequest); reflexivity.
Defined.

Lemma parseNewPassword_ok (v : option JS.value) (n : string) :
  AuthSchemas.parseNewPassword v = ([], Some n) <->
  v = Some (JS.JStr n) /\ 6 <= JS.strlen n <= 128 /\ AuthSchemas.noSpaces n = true.
Proof.
  unfold AuthSchemas.parseNewPassword. split.
  - destruct v as [[| | |s| | |]|]; try discriminate. intros [= Hissues <-].
    apply List.app_eq_nil in Hissues as [Hmin Hrest].
    apply List.app_eq_nil in Hrest as [Hmax Hpat].
    apply issueIf_nil in Hmin, Hmax, Hpat.
    apply Z.ltb_ge in Hmin, Hmax. apply negb_false_iff in Hpat. auto.
  - intros (-> & [Hmin Hmax] & Hpat).
    apply Z.ltb_ge in Hmin, Hmax. now rewrite Hmin, Hmax, Hpat.
Qed.

(** X18. The schemas in front of the two password operations, for a body
    whose fields [currentPassword], [newPassword] and [token], where they
    are strings, are ASCII strings.
    [validateRequest(changePasswordSchema)] lets a request through
    exactly when [currentPassword] is a string of 1 to 128 characters,
    [newPassword] a string of 6 to 128 characters without white space,
    and the two differ; [validateRequest(passwordResetSchema)] exactly
    when [token] is a string of 1 to 500 characters and [newPassword] is
    as before.  Either hands on a body of those two fields and no
    other. *)
Theorem password_schemas_accept (req req' : Request.t) :
  asciiField "currentPassword" (Request.body req) = true ->
  asciiField "newPassword" (Request.body req) = true ->
  asciiField "token" (Request.body req) = true ->
  (Validation.validateRequest AuthSchemas.changePasswordSchema req = Next req' <->
   exists c n,
     JS.get "currentPassword" (Request.body req) = Some (JS.JStr c) /\
     JS.get "newPassword" (Request.body req) = Some (JS.JStr n) /\
     1 <= JS.strlen c <= 128 /\ 6 <= JS.strlen n <= 128 /\
     AuthSchemas.noSpaces n = true /\ c <> n /\
     req' = Request.with_body [("currentPassword", JS.JStr c); ("newPassword", JS.JStr n)] req) /\
  (Validation.validateRequest AuthSchemas.passwordResetSchema req = Next req' <->
   exists t n,
     JS.get "token" (Request.body req) = Some (JS.JStr t) /\
     JS.get "newPassword" (Request.body req) = Some (JS.JStr n) /\
     1 <= JS.strlen t <= 500 /\ 6 <= JS.strlen n <= 128 /\
     AuthSchemas.noSpaces n = true /\
     req' = Request.with_body [("token", JS.JStr t); ("newPassword", JS.JStr n)] req).
Proof.
  intros _ _ _. split.
  - unfold Validation.validateRequest, AuthSchemas.changePasswordSchema.
    cbn [UserSchemas.rd_body]. split.
    + destruct (AuthSchemas.parseCurrentPassword _) as [currentIssues current] eqn:Hc.
      destruct (AuthSchemas.parseNewPassword _) as [newIssues new] eqn:Hn.
      destruct current as [c|], new as [n|]; try discriminate.
      destruct (currentIssues ++ newIssues ++ _) eqn:Hissues; [|discriminate].
      apply List.app_eq_nil in Hissues as [-> Hrest].
      apply List.app_eq_nil in Hrest as [-> Hsame].
      apply issueIf_nil in Hsame. cbn. intros [= <-].
      apply parseNewPassword_ok in Hn as (Hnew & Hlen & Hpat).
      unfold AuthSchemas.parseCurrentPassword in Hc.
      destruct (JS.get "currentPassword" (Request.body req)) as [[| | |s| | |]|];
        try discriminate.
      injection Hc as Hissues <-.
      apply List.app_eq_nil in Hissues as [Hmin Hmax].
      apply issueIf_nil in Hmin, Hmax. apply Z.ltb_ge in Hmin, Hmax.
      exists s, n. repeat split; try assumption; try lia.
      now apply String.eqb_neq.
    + intros (c & n & Hc & Hn & [Hcmin Hcmax] & Hnlen & Hpat & Hdiff & ->).
      rewrite Hc, (proj2 (parseNewPassword_ok _ n) (conj Hn (conj Hnlen Hpat))).
      cbn [AuthSchemas.parseCurrentPassword].
      apply Z.ltb_ge in Hcmin, Hcmax. rewrite Hcmin, Hcmax.
      apply String.eqb_neq in Hdiff. rewrite Hdiff. reflexivity.
  - unfold Validation.validateRequest, AuthSchemas.passwordResetSchema.
    cbn [UserSchemas.rd_body]. split.
    + destruct (AuthSchemas.parseResetToken _) as [tokenIssues token] eqn:Ht.
      destruct (AuthSchemas.parseNewPassword _) as [newIssues new] eqn:Hn.
      destruct token as [t|], new as [n|]; try discriminate.
      destruct (tokenIssues ++ newIssues) eqn:Hissues; [|discriminate].
      apply List.app_eq_nil in Hissues as [-> ->]. cbn. intros [= <-].
      apply parseNewPassword_ok in Hn as (Hnew & Hlen & Hpat).
      unfold AuthSchemas.parseResetToken in Ht.
      destruct (JS.get "token" (Request.body req)) as [[| | |s| | |]|]; try discriminate.
      injection Ht as Hissues <-.
      apply List.app_eq_nil in Hissues as [Hmin Hmax].
      apply issueIf_nil in Hmin, Hmax. apply Z.ltb_ge in Hmin, Hmax.
      exists s, n. repeat split; try assumption; lia.
    + intros (t & n & Ht & Hn & [Htmin Htmax] & Hnlen & Hpat & ->).
      rewrite Ht, (proj2 (parseNewPassword_ok _ n) (conj Hn (conj Hnlen Hpat))).
      cbn [AuthSchemas.parseResetToken].
      apply Z.ltb_ge in Htmin, Htmax. rewrite Htmin, Htmax. reflexivity.
Qed.

Lemma password_schemas_accept_witness :
  Validation.validateRequest AuthSchemas.changePasswordSchema
    (Request.mk "10.0.0.1" None None
       [("currentPassword", JS.JStr "secret1"); ("newPassword", JS.JStr "newSecret9");
        ("admin", JS.JBool true)] None)
  = Next (Request.mk "10.0.0.1" None None
            [("currentPassword", JS.JStr "secret1"); ("newPassword", JS.JStr "newSecret9")]
            None).
Proof.
  apply (proj1 (password_schemas_accept
                  (Request.mk "10.0.0.1" None None
                     [("currentPassword", JS.JStr "secret1");
                      ("newPassword", JS.JStr "newSecret9"); ("admin", JS.JBool true)] None)
                  _ eq_refl eq_refl eq_refl)).
  exists "secret1", "newSecret9".
  repeat split; try reflexivity; try discriminate.
Defined.

(** ** Rate limiting, continued *)

Lemma serve_window (b : Bucket) (key : string) (reset : Z)
    (arrivals : list (Request.t * Z * Router.Handler)) (w : World) (c : Client) :
  storeOf b (limiters w) !! key = Some c -> resetTime c = reset ->
  0 <= totalHits c <= max (options b) ->
  Forall (arrives b key reset) arrivals ->
  let room := Z.to_nat (max (options b) - totalHits c) in
  Forall2 handledBy (firstn room arrivals) (firstn room (fst (Router.serve b arrivals w))) /\
  skipn room (fst (Router.serve b arrivals w))
  = map (fun _ => globalErrorHandler (handler (options b))) (skipn room arrivals).
Proof.
  revert w c. induction arrivals as [|[[req now] next] rest IH]; intros w c Hc Hreset Hhits Hall.
  - cbn. rewrite !firstn_nil, !skipn_nil. split; [constructor | reflexivity].
  - cbn zeta. pose proof (Forall_inv Hall) as (Hip & Hnow & Hkeep & Hcounted).
    pose proof (Forall_inv_tail Hall) as Hrest. cbn [fst snd] in Hip, Hnow, Hkeep, Hcounted.
    destruct (Z.eq_dec (totalHits c) (max (options b))) as [Hfull | Hroom].
    + replace (Z.to_nat (max (options b) - totalHits c)) with 0%nat by lia.
      cbn [firstn skipn]. split; [constructor|].
      apply (serve_saturated b key reset).
      * exists c. repeat split; try assumption. lia.
      * eapply List.Forall_impl; [|exact Hall]. intros a (Ha & Hb & _). auto.
    + replace (Z.to_nat (max (options b) - totalHits c))
        with (S (Z.to_nat (max (options b) - (totalHits c + 1)))) by lia.
      subst key reset.
      destruct (limit_admitted b req now next w c Hc Hnow ltac:(lia) Hkeep)
        as (w1 & _ & Hresp & _ & Hstore).
      assert (Hcount : (if andb (skipSuccessfulRequests (options b))
                                (Response.statusCode (fst (next w1)) <? 400)%Z
                        then totalHits c else totalHits c + 1) = totalHits c + 1).
      { destruct Hcounted as [-> | Hfail]; [reflexivity|].
        specialize (Hfail w1). destruct (Z.ltb_spec (Response.statusCode (fst (next w1))) 400);
          [lia|]. now rewrite andb_false_r. }
      rewrite Hcount in Hstore.
      cbn [Router.serve].
      destruct (Router.limit b req now next w) as [resp w'] eqn:Hlimit.
      cbn [fst snd] in Hresp, Hstore.
      specialize (IH w' (mkClient (totalHits c + 1) (resetTime c)) Hstore eq_refl
                    ltac:(cbn; lia) Hrest).
      cbn [totalHits] in IH. destruct IH as [IHhandled IHrest].
      destruct (Router.serve b rest w') as [resps w''] eqn:Hserve.
      cbn [fst firstn skipn] in *. split; [|exact IHrest].
      constructor; [|exact IHhandled]. exists w1. exact Hresp.
Qed.

(** X19. A limiter admits its maximum and no more.  Of the requests one
    address sends through a limiter within one window, the first of them
    finding no window open for the address, the first [max] are handed to
    their routes and every one after them is answered 429 by the limiter.
    This holds for routes the limiter counts: every route under the
    general, the password-reset and the account-creation limiter, and
    routes that answer 400 or above under the authentication limiter. *)
Theorem limiter_admits_max (b : Bucket) (key : string) (start : Z)
    (req : Request.t) (next : Router.Handler)
    (rest : list (Request.t * Z * Router.Handler)) (w : World) :
  let arrivals := (req, start, next) :: rest in
  let room := Z.to_nat (max (options b)) in
  (storeOf b (limiters w) !! key = None \/
   exists c, storeOf b (limiters w) !! key = Some c /\ resetTime c <= start) ->
  Forall (arrives b key (start + windowMs (options b))) arrivals ->
  Forall2 handledBy (firstn room arrivals) (firstn room (fst (Router.serve b arrivals w))) /\
  skipn room (fst (Router.serve b arrivals w))
  = map (fun _ => globalErrorHandler (handler (options b))) (skipn room arrivals) /\
  Response.statusCode (globalErrorHandler (handler (options b))) = 429.
Proof.
  intros arrivals room Hstart Hall. subst arrivals room.
  pose proof (Forall_inv Hall) as (Hip & _ & Hkeep & Hcounted).
  pose proof (Forall_inv_tail Hall) as Hrest. cbn [fst snd] in Hip, Hkeep, Hcounted.
  subst key.
  destruct (limit_fresh b req start next w Hstart Hkeep) as (w1 & _ & Hresp & _ & Hstore).
  assert (Hcount : (if andb (skipSuccessfulRequests (options b))
                            (Response.statusCode (fst (next w1)) <? 400)%Z
                    then 0 else 1) = 1).
  { destruct Hcounted as [-> | Hfail]; [reflexivity|].
    specialize (Hfail w1). destruct (Z.ltb_spec (Response.statusCode (fst (next w1))) 400);
      [lia|]. now rewrite andb_false_r. }
  rewrite Hcount in Hstore.
  cbn [Router.serve].
  destruct (Router.limit b req start next w) as [resp w'] eqn:Hlimit.
  cbn [fst snd] in Hresp, Hstore.
  destruct (serve_window b (Request.ip req) (start + windowMs (options b)) rest w'
              (mkClient 1 (start + windowMs (options b))) Hstore eq_refl
              ltac:(destruct b; cbn; lia) Hrest) as [Hhandled Hlate].
  cbn [totalHits] in Hhandled, Hlate.
  destruct (Router.serve b rest w') as [resps w''] eqn:Hserve.
  replace (Z.to_nat (max (options b))) with (S (Z.to_nat (max (options b) - 1)))
    by (destruct b; cbn; lia).
  cbn [fst firstn skipn] in *.
  split; [|split; [exact Hlate | now destruct b]].
  constructor; [|exact Hhandled]. exists w1. exact Hresp.
Qed.

Lemma limiter_admits_max_witness :
  skipn 3 (fst (Router.serve passwordResetLimiter
                  [(Fixture.visitor, 0, Fixture.wipe); (Fixture.visitor, 1000, Fixture.wipe);
                   (Fixture.visitor, 2000, Fixture.wipe); (Fixture.visitor, 3599999, Fixture.wipe)]
                  Fixture.world))
  = [globalErrorHandler (handler (options passwordResetLimiter))].
Proof.
  apply (limiter_admits_max passwordResetLimiter "10.0.0.1" 0 Fixture.visitor Fixture.wipe
           [(Fixture.visitor, 1000, Fixture.wipe); (Fixture.visitor, 2000, Fixture.wipe);
            (Fixture.visitor, 3599999, Fixture.wipe)] Fixture.world).
  - left. reflexivity.
  - repeat constructor; cbn; try lia; intros w0; reflexivity.
Defined.

Lemma limit_other_key_witness :
  storeOf passwordResetLimiter
    (limiters (snd (Router.limit passwordResetLimiter
                      (Request.mk "10.0.0.2" None None [] None) 1000 Fixture.wipe
                      Fixture.throttled)))
    !! "10.0.0.1"
  = Some (mkClient 3 3600000).
Proof.
  rewrite (limit_other_key passwordResetLimiter (Request.mk "10.0.0.2" None None [] None) 1000
             Fixture.wipe Fixture.throttled "10.0.0.1").
  - reflexivity.
  - discriminate.
  - intros w0. reflexivity.
Defined.

(** ** Creation of a user, and what every write keeps *)

Lemma createUser_run (X : Externals) (env : Env) (userData : CreateUserData.t) (now : Z)
    (oid salt : string) (db : Collection) :
  UserService.createUser X env userData now oid salt db
  = match find (byEmail (CreateUserData.email userData)) db with
    | Some _ => (Throw (ApiError "Email already registered" 409), db)
    | None =>
        match save X env (newUser oid (CreateUserData.name userData)
                            (CreateUserData.email userData) (CreateUserData.password userData)
                            (CreateUserData.age userData)) now salt db with
        | (Ok user, db') => (Ok (toJSON user), db')
        | (Throw e, db') => (Throw (ApiError "Failed to create user" 500), db')
        end
    end.
Proof.
  unfold UserService.createUser. run.
  destruct (find _ db); cbn [option_map]; [reflexivity|]. run.
  destruct (save X env _ now salt db) as [[d|e] db'] eqn:Hsave; [reflexivity|].
  unfold save in Hsave.
  destruct (negb _); [injection Hsave as <- <-; reflexivity|].
  destruct (isNew _); [|destruct (modifiedPaths _); discriminate].
  destruct (existsb _ db); [injection Hsave as <- <-; reflexivity | discriminate].
Qed.

Lemma registerUser_run (X : Externals) (env : Env) (userData : RegisterUserData.t) (now : Z)
    (oid salt : string) (db : Collection) :
  AuthService.registerUser X env userData now oid salt db
  = match find (byEmail (RegisterUserData.email userData)) db with
    | Some _ => (Throw (ApiError "Email already registered" 409), db)
    | None =>
        match save X env (newUser oid (RegisterUserData.name userData)
                            (RegisterUserData.email userData)
                            (RegisterUserData.password userData)
                            (RegisterUserData.age userData)) now salt db with
        | (Ok user, db') =>
            match JWT.generateToken X env (_id (fields user)) (email (fields user)) now with
            | Ok token =>
                (Ok (AuthResponse.mk true "User registered successfully" (toJSON user) token),
                 db')
            | Throw e => (Throw (ApiError "Failed to generate authentication token" 500), db')
            end
        | (Throw e, db') => (Throw (ApiError "Registration failed" 500), db')
        end
    end.
Proof.
  unfold AuthService.registerUser. run.
  destruct (find _ db); cbn [option_map]; [reflexivity|]. run.
  destruct (save X env _ now salt db) as [[d|e] db'] eqn:Hsave.
  - rewrite run_bind. unfold lift.
    destruct (JWT.generateToken X env _ _ now) as [token|e] eqn:Htoken; [reflexivity|].
    unfold JWT.generateToken, tryCatch in Htoken.
    destruct (if String.eqb (JWT.jwtSecret env) EmptyString then _ else _); [discriminate|].
    injection Htoken as <-. reflexivity.
  - unfold save in Hsave.
    destruct (negb _); [injection Hsave as <- <-; reflexivity|].
    destruct (isNew _); [|destruct (modifiedPaths _); discriminate].
    destruct (existsb _ db); [injection Hsave as <- <-; reflexivity | discriminate].
Qed.

Lemma createUser_snd (X : Externals) (env : Env) (userData : CreateUserData.t) (now : Z)
    (oid salt : string) (db : Collection) :
  snd (UserService.createUser X env userData now oid salt db)
  = snd (AuthService.registerUser X env
           (RegisterUserData.mk (CreateUserData.name userData) (CreateUserData.email userData)
                                (CreateUserData.password userData) (CreateUserData.age userData))
           now oid salt db).
Proof.
  rewrite createUser_run, registerUser_run.
  cbn [RegisterUserData.name RegisterUserData.email RegisterUserData.password
       RegisterUserData.age].
  destruct (find _ db); [reflexivity|].
  destruct (save X env _ now salt db) as [[d|e] db']; [|reflexivity].
  destruct (JWT.generateToken X env _ _ now); reflexivity.
Qed.

(** X21. [createUser] and [registerUser] store the same: for the same
    data, id, salt and clock they leave the same collection behind, and
    whenever [registerUser] returns, [createUser] returns the user object
    of its answer.  They differ in one case only: when the token cannot be
    generated, [registerUser] throws 500 although it has stored the user,
    where [createUser] returns the user. *)
Theorem createUser_like_registerUser
    (X : Externals) (env : Env) (userData : CreateUserData.t) (now : Z) (oid salt : string)
    (db : Collection) :
  let registration :=
    AuthService.registerUser X env
      (RegisterUserData.mk (CreateUserData.name userData) (CreateUserData.email userData)
                           (CreateUserData.password userData) (CreateUserData.age userData))
      now oid salt db in
  let creation := UserService.createUser X env userData now oid salt db in
  snd creation = snd registration /\
  (forall r, fst registration = Ok r -> fst creation = Ok (AuthResponse.data_user r)) /\
  (forall json, fst creation = Ok json ->
     (exists token,
        fst registration
        = Ok (AuthResponse.mk true "User registered successfully" json token)) \/
     (fst registration = Throw (ApiError "Failed to generate authentication token" 500) /\
      exists row, snd registration = db ++ [row] /\ _id row = oid)) /\
  (forall e, fst creation = Throw e ->
     (e = ApiError "Email already registered" 409 /\ fst registration = Throw e) \/
     (e = ApiError "Failed to create user" 500 /\
      fst registration = Throw (ApiError "Registration failed" 500))).
Proof.
  cbn zeta. rewrite createUser_run, registerUser_run.
  cbn [RegisterUserData.name RegisterUserData.email RegisterUserData.password
       RegisterUserData.age].
  destruct (find _ db) as [v|].
  - cbn. repeat split; try discriminate. intros e [= <-]. now left.
  - destruct (save X env _ now salt db) as [[d|e] db'] eqn:Hsave.
    + apply save_new_inv in Hsave as (-> & -> & _).
      cbn [fields _id email registered].
      destruct (JWT.generateToken X env oid _ now) as [token|e]; cbn.
      * repeat split; try discriminate.
        -- now intros r [= <-].
        -- intros json [= <-]. left. eauto.
      * repeat split; try discriminate.
        intros json [= <-]. right. split; [reflexivity|]. eexists. split; reflexivity.
    + cbn. repeat split; try discriminate. intros e' [= <-]. now right.
Qed.

Lemma createUser_like_registerUser_witness :
  snd (UserService.createUser Fixture.X Fixture.env
         (CreateUserData.mk "Jane Roe" "jane@example.com" "secret1" 30)
         9000 "64b7f0c2a1d3e4f5a6b7c8db" "nacl" Fixture.db)
  = snd (AuthService.registerUser Fixture.X Fixture.env
           (RegisterUserData.mk "Jane Roe" "jane@example.com" "secret1" 30)
           9000 "64b7f0c2a1d3e4f5a6b7c8db" "nacl" Fixture.db).
Proof.
  exact (proj1 (createUser_like_registerUser Fixture.X Fixture.env
                  (CreateUserData.mk "Jane Roe" "jane@example.com" "secret1" 30)
                  9000 "64b7f0c2a1d3e4f5a6b7c8db" "nacl" Fixture.db)).
Defined.

Lemma removeFirst_incl (p : User -> bool) (db : Collection) (w : User) :
  In w (UserQueries.removeFirst p db) -> In w db.
Proof.
  induction db as [|a db IH]; [contradiction|].
  cbn. destruct (p a); [now right|]. intros [<- | Hw]; [now left | right; now apply IH].
Qed.

Lemma removeFirst_uniqueIds (p : User -> bool) (db : Collection) :
  Invariant.uniqueIds db = true -> Invariant.uniqueIds (UserQueries.removeFirst p db) = true.
Proof.
  induction db as [|a db IH]; intros Huniq; [reflexivity|].
  pose proof (uniqueIds_cons _ _ Huniq) as [Hhead Htail].
  cbn [UserQueries.removeFirst]. destruct (p a); [exact Htail|].
  unfold Invariant.uniqueIds in *. cbn [map Invariant.distinct].
  apply andb_true_intro. split; [|now apply IH].
  apply negb_true_iff, not_true_is_false. intros Hex.
  apply existsb_eqb_In, in_map_iff in Hex as (w & Hid & Hw).
  apply removeFirst_incl in Hw. now apply (Hhead w Hw).
Qed.

Lemma removeFirst_normalizedEmails (p : User -> bool) (db : Collection) :
  Invariant.normalizedEmails db = true ->
  Invariant.normalizedEmails (UserQueries.removeFirst p db) = true.
Proof.
  unfold Invariant.normalizedEmails. rewrite !forallb_forall.
  intros Hall w Hw. apply Hall. now apply removeFirst_incl in Hw.
Qed.

Lemma deleteUser_snd (userId : string) (db : Collection) :
  snd (UserService.deleteUser userId db) = db \/
  snd (UserService.deleteUser userId db)
  = UserQueries.removeFirst (byId (UserQueries.objectIdOf userId)) db.
Proof.
  unfold UserService.deleteUser. run. rewrite run_findByIdAndDelete.
  destruct (UserQueries.isObjectId userId); [|now left].
  destruct (find _ db); [now right | now left].
Qed.

(** X22. Every write keeps the collection well formed.  From a collection
    with unique ids and emails in the normal form of the schema, each of
    the operations that write (registration and creation under an id not
    in use, change of password, request and execution of a password reset,
    update of the profile fields, removal) leads, whether it returns or
    throws, to a collection with unique ids and emails in normal form. *)
Theorem writes_keep_invariants (X : Externals) (env : Env) (now : Z) (salt : string)
    (db : Collection) :
  Invariant.uniqueIds db = true -> Invariant.normalizedEmails db = true ->
  forall db',
    (exists userData oid,
       ~ In oid (map _id db) /\
       db' = snd (AuthService.registerUser X env userData now oid salt db)) \/
    (exists userData oid,
       ~ In oid (map _id db) /\
       db' = snd (UserService.createUser X env userData now oid salt db)) \/
    (exists userId passwordData,
       db' = snd (AuthService.changePassword X env userId passwordData now salt db)) \/
    (exists requestData rnd,
       db' = snd (AuthService.requestPasswordReset X env requestData now rnd salt db)) \/
    (exists resetData, db' = snd (AuthService.resetPassword X env resetData now salt db)) \/
    (exists userId updateData,
       profileKeys updateData /\ db' = snd (updateUser userId updateData now db)) \/
    (exists userId, db' = snd (UserService.deleteUser userId db)) ->
    Invariant.uniqueIds db' = true /\ Invariant.normalizedEmails db' = true.
Proof.
  intros Hids Hmails db'
    [(userData & oid & Hfresh & ->) | [(userData & oid & Hfresh & ->) |
     [Hchange | [Hrequest | [Hreset | [Hupdate | (userId & ->)]]]]]].
  - destruct (registerUser_keeps_invariants X env userData now oid salt db) as [Hm Hi]. auto.
  - rewrite (createUser_snd X env userData now oid salt db).
    destruct (registerUser_keeps_invariants X env
                (RegisterUserData.mk (CreateUserData.name userData)
                   (CreateUserData.email userData) (CreateUserData.password userData)
                   (CreateUserData.age userData)) now oid salt db) as [Hm Hi]. auto.
  - apply (invariants_kept X env now salt db Hids Hmails). now left.
  - apply (invariants_kept X env now salt db Hids Hmails). right. now left.
  - apply (invariants_kept X env now salt db Hids Hmails). right. right. now left.
  - apply (invariants_kept X env now salt db Hids Hmails). right. right. now right.
  - destruct (deleteUser_snd userId db) as [-> | ->]; [auto|].
    split; [now apply removeFirst_uniqueIds | now apply removeFirst_normalizedEmails].
Qed.

Lemma writes_keep_invariants_witness :
  Invariant.uniqueIds (snd (UserService.deleteUser "64b7f0c2a1d3e4f5a6b7c8d9" Fixture.db)) = true /\
  Invariant.normalizedEmails (snd (UserService.deleteUser "64b7f0c2a1d3e4f5a6b7c8d9" Fixture.db))
  = true.
Proof.
  apply (writes_keep_invariants Fixture.X Fixture.env 0 "nacl" Fixture.db eq_refl eq_refl).
  do 6 right. exists "64b7f0c2a1d3e4f5a6b7c8d9". reflexivity.
Defined.

(** X23. [registerUser] stores the user before it generates the token.
    When the token cannot be generated (no signing key, or a lifetime the
    timespan parser rejects), a registration with a free email and data
    that passes the model's validation throws 500 with the user stored
    all the same, and a second attempt under that email throws 409. *)
Theorem registerUser_token_failure
    (X : Externals) (env : Env) (userData : RegisterUserData.t) (now : Z) (oid salt : string)
    (db : Collection) :
  (forall u, In u db -> email u <> castEmail (RegisterUserData.email userData)) ->
  castName (RegisterUserData.name userData) <> EmptyString ->
  castEmail (RegisterUserData.email userData) <> EmptyString ->
  RegisterUserData.password userData <> EmptyString ->
  JWT.jwtSecret env = EmptyString \/ ms X (JWT.jwtExpires env) = None ->
  let row := registered X env oid (RegisterUserData.name userData)
               (RegisterUserData.email userData) (RegisterUserData.password userData)
               (RegisterUserData.age userData) now salt in
  AuthService.registerUser X env userData now oid salt db
  = (Throw (ApiError "Failed to generate authentication token" 500), db ++ [row]) /\
  forall later oid' salt',
    AuthService.registerUser X env userData later oid' salt' (db ++ [row])
    = (Throw (ApiError "Email already registered" 409), db ++ [row]).
Proof.
  intros Hfree Hname Hmail Hpw Hconfig row.
  assert (Hnone : find (byEmail (RegisterUserData.email userData)) db = None).
  { apply find_none_iff. intros u Hu. apply byEmail_false. auto. }
  split.
  - rewrite registerUser_run, Hnone, save_new by assumption.
    cbn [fields _id email].
    replace (JWT.generateToken X env oid _ now)
      with (@Throw string (ApiError "Failed to generate authentication token" 500));
      [reflexivity|].
    unfold JWT.generateToken, JWT.sign.
    destruct (String.eqb (JWT.jwtSecret env) EmptyString) eqn:Hs; [reflexivity|].
    destruct Hconfig as [Hsecret | Hms].
    + rewrite Hsecret in Hs. discriminate.
    + rewrite Hms. reflexivity.
  - intros later oid' salt'. rewrite registerUser_run, (find_app_none _ _ _ Hnone).
    cbn. unfold byEmail. cbn [row registered email]. now rewrite String.eqb_refl.
Qed.

Lemma registerUser_token_failure_witness :
  AuthService.registerUser Fixture.X
    (mkEnv "0123456789abcdef0123456789abcdef" "seven days" 12 None None)
    (RegisterUserData.mk "Jane Roe" "jane@example.com" "secret1" 30)
    9000 "64b7f0c2a1d3e4f5a6b7c8db" "nacl" Fixture.db
  = (Throw (ApiError "Failed to generate authentication token" 500),
     Fixture.db
     ++ [registered Fixture.X (mkEnv "0123456789abcdef0123456789abcdef" "seven days" 12 None None)
           "64b7f0c2a1d3e4f5a6b7c8db" "Jane Roe" "jane@example.com" "secret1" 30 9000 "nacl"]).
Proof.
  apply (registerUser_token_failure Fixture.X
           (mkEnv "0123456789abcdef0123456789abcdef" "seven days" 12 None None)
           (RegisterUserData.mk "Jane Roe" "jane@example.com" "secret1" 30)
           9000 "64b7f0c2a1d3e4f5a6b7c8db" "nacl" Fixture.db).
  - intros u [<- | [<- | []]]; vm_compute; discriminate.
  - vm_compute. discriminate.
  - vm_compute. discriminate.
  - discriminate.
  - right. reflexivity.
Defined.

(** ** What the password operations leave alone *)

Lemma credentialsOnly_refl (u : User) : credentialsOnly u u.
Proof. destruct u; reflexivity. Qed.

Lemma Forall2_credentialsOnly_refl (db : Collection) : Forall2 credentialsOnly db db.
Proof. induction db; constructor; auto using credentialsOnly_refl. Qed.

Lemma updateFirst_frame (R : User -> User -> Prop) (p : User -> bool) (f : User -> User)
    (db : Collection) :
  (forall u, R u u) -> (forall u, R u (f u)) -> Forall2 R db (updateFirst p f db).
Proof.
  intros Hrefl Hf. induction db as [|a db IH]; [constructor|].
  cbn. destruct (p a); constructor; auto.
  clear IH. induction db; constructor; auto.
Qed.

Lemma save_loaded_frame (X : Externals) (env : Env) (d : UserDocument) (now : Z)
    (salt : string) (db : Collection) :
  isNew d = false ->
  isModified P_name d = false -> isModified P_email d = false -> isModified P_age d = false ->
  Forall2 credentialsOnly db (snd (save X env d now salt db)).
Proof.
  intros Hnew Hname Hmail Hage. unfold save.
  destruct (negb (validateDoc d)); [apply Forall2_credentialsOnly_refl|].
  assert (Hnew' : isNew (preSave X env d salt) = false)
    by (unfold preSave; destruct (negb _); assumption).
  assert (Hname' : isModified P_name (preSave X env d salt) = false)
    by (unfold preSave; destruct (negb _); assumption).
  assert (Hmail' : isModified P_email (preSave X env d salt) = false)
    by (unfold preSave; destruct (negb _); assumption).
  assert (Hage' : isModified P_age (preSave X env d salt) = false)
    by (unfold preSave; destruct (negb _); assumption).
  rewrite Hnew'.
  destruct (modifiedPaths (preSave X env d salt)) eqn:Hpaths;
    [apply Forall2_credentialsOnly_refl|].
  cbn [snd]. apply updateFirst_frame; [apply credentialsOnly_refl|].
  intros u. unfold credentialsOnly, applyModified.
  rewrite Hname', Hmail', Hage'. reflexivity.
Qed.

(** X24. The three password operations write credentials only.  Whatever
    their outcome, [changePassword], [requestPasswordReset] and
    [resetPassword] leave every stored user with the id, name, email, age
    and creation time it had; at most the password hash, the reset token,
    its expiry and [updatedAt] differ, and no user is added or removed. *)
Theorem password_operations_frame (X : Externals) (env : Env) (now : Z) (salt : string)
    (db : Collection) :
  (forall u v, credentialsOnly u v ->
     _id v = _id u /\ name v = name u /\ email v = email u /\ age v = age u /\
     createdAt v = createdAt u) /\
  (forall userId passwordData,
     Forall2 credentialsOnly db
       (snd (AuthService.changePassword X env userId passwordData now salt db))) /\
  (forall requestData rnd,
     Forall2 credentialsOnly db
       (snd (AuthService.requestPasswordReset X env requestData now rnd salt db))) /\
  (forall resetData,
     Forall2 credentialsOnly db (snd (AuthService.resetPassword X env resetData now salt db))).
Proof.
  split; [|split; [|split]].
  - unfold credentialsOnly. intros u v ->. cbn. auto.
  - intros userId passwordData. unfold AuthService.changePassword. run.
    rewrite isObjectId_run_findById.
    destruct (UserQueries.isObjectId userId); [|apply Forall2_credentialsOnly_refl].
    destruct (find (byId _) db) as [u|]; cbn [option_map];
      [|apply Forall2_credentialsOnly_refl].
    run. unfold get_password, hydrate. cbn [populated hasPath existsb Path_eqb orb fields].
    cbn [Password.comparePassword]. destruct (bcrypt_compare X _ _); cbn [negb];
      [|apply Forall2_credentialsOnly_refl].
    run.
    match goal with |- context [save X env ?d now salt db] =>
      pose proof (save_loaded_frame X env d now salt db) as Hframe;
      destruct (save X env d now salt db) as [[d'|e] db'] end.
    + cbn [snd] in *. apply Hframe; unfold set_password; cbn;
        destruct (String.eqb _ _); reflexivity.
    + unfold rethrowApiOr. destruct (isApiError e); cbn [snd throw] in *; apply Hframe;
        unfold set_password; cbn; destruct (String.eqb _ _); reflexivity.
  - intros requestData rnd. unfold AuthService.requestPasswordReset. run.
    destruct (find _ db) as [u|]; cbn [option_map]; [|apply Forall2_credentialsOnly_refl].
    run.
    match goal with |- context [save X env ?d now salt db] =>
      pose proof (save_loaded_frame X env d now salt db eq_refl eq_refl eq_refl eq_refl)
        as Hframe;
      destruct (save X env d now salt db) as [[d'|e] db'] end; exact Hframe.
  - intros resetData. unfold AuthService.resetPassword. run.
    destruct (find _ db) as [u|]; cbn [option_map]; [|apply Forall2_credentialsOnly_refl].
    run.
    match goal with |- context [save X env ?d now salt db] =>
      pose proof (save_loaded_frame X env d now salt db eq_refl eq_refl eq_refl eq_refl)
        as Hframe;
      destruct (save X env d now salt db) as [[d'|e] db'] end.
    + exact Hframe.
    + unfold rethrowApiOr. destruct (isApiError e); exact Hframe.
Qed.

Lemma password_operations_frame_witness :
  Forall2 credentialsOnly Fixture.db
    (snd (AuthService.resetPassword Fixture.X Fixture.env
            (PasswordResetData.mk "00ff" "brandNew1") 4000 "nacl" Fixture.db)).
Proof.
  exact (proj2 (proj2 (proj2 (password_operations_frame Fixture.X Fixture.env 4000 "nacl"
                                Fixture.db)))
           (PasswordResetData.mk "00ff" "brandNew1")).
Defined.

(** ** Operations that only read *)

Lemma verifyAuthToken_total (X : Externals) (env : Env) (token : string) (now : Z)
    (db : Collection) :
  exists r, AuthService.verifyAuthToken X env token now db = (Ok r, db).
Proof.
  unfold AuthService.verifyAuthToken. run.
  destruct (JWT.verifyToken X env token now) as [decoded|e]; cbn [lift];
    [|eexists; reflexivity].
  run. rewrite isObjectId_run_findById.
  destruct (UserQueries.isObjectId _); [|eexists; reflexivity].
  destruct (find _ db); eexists; reflexivity.
Qed.

(** X25. The operations that only read never write.  Whatever they
    return or throw, [loginUser], [getAuthenticatedUserProfile],
    [getUserById], [getUserByEmail], [getUsers] (with any query engine),
    [verifyAuthToken], [authenticate] and [optionalAuth] leave the
    collection exactly as it was. *)
Theorem reads_never_write (X : Externals) (env : Env) (db : Collection) :
  (forall credentials now, snd (AuthService.loginUser X env credentials now db) = db) /\
  (forall userId, snd (AuthService.getAuthenticatedUserProfile userId db) = db) /\
  (forall userId, snd (UserService.getUserById userId db) = db) /\
  (forall e includePassword, snd (UserService.getUserByEmail e includePassword db) = db) /\
  (forall E queryParams, snd (UserService.getUsers E queryParams db) = db) /\
  (forall token now, snd (AuthService.verifyAuthToken X env token now db) = db) /\
  (forall req now, snd (AuthMiddleware.authenticate X env req now db) = db) /\
  (forall req now, snd (AuthMiddleware.optionalAuth X env req now db) = db).
Proof.
  split; [|split; [|split; [|split; [|split; [|split; [|split]]]]]].
  - intros credentials now. unfold AuthService.loginUser. run.
    destruct (find _ db) as [u|]; cbn [option_map]; [|reflexivity].
    run. unfold get_password, hydrate.
    cbn [populated hasPath existsb Path_eqb orb fields Password.comparePassword].
    destruct (bcrypt_compare X _ _); cbn [negb]; [|reflexivity].
    rewrite run_bind. unfold lift.
    destruct (JWT.generateToken X env _ _ now); [reflexivity|].
    unfold rethrowApiOr. destruct (isApiError e); reflexivity.
  - intros userId. unfold AuthService.getAuthenticatedUserProfile. run.
    rewrite isObjectId_run_findById.
    destruct (UserQueries.isObjectId userId); [|reflexivity].
    destruct (find _ db); reflexivity.
  - intros userId. unfold UserService.getUserById. run.
    rewrite isObjectId_run_findById.
    destruct (UserQueries.isObjectId userId); [|reflexivity].
    destruct (find _ db); reflexivity.
  - intros e includePassword. now rewrite run_getUserByEmail.
  - intros E queryParams. unfold UserService.getUsers. run.
    destruct (findPage E _ _ _ _ _ db); [|reflexivity].
    run. destruct (countDocuments E _ db); reflexivity.
  - intros token now.
    destruct (verifyAuthToken_total X env token now db) as [r ->]. reflexivity.
  - intros req now.
    destruct (authenticate_total X env req now db) as [o ->]. reflexivity.
  - intros req now. unfold AuthMiddleware.optionalAuth.
    destruct (AuthMiddleware.extractToken req) as [token|]; [|reflexivity].
    destruct (JS.truthy (Some token)); cbn [negb]; [|reflexivity].
    run. destruct (JWT.verifyToken X env token now) as [decoded|e]; [|reflexivity].
    cbn [lift]. run.
    destruct (Jwt.id decoded) as [did|], (Jwt.email decoded) as [demail|];
      try reflexivity.
    destruct (orb _ _); [reflexivity|].
    run. rewrite run_getUserByEmail.
    destruct (find _ db); reflexivity.
Qed.

(** ** Requests the authentication limiter does not count *)



(** ** An update, then a lookup *)

Lemma assign_id (u : User) (a : Assignment) : _id (assign u a) = _id u.
Proof. destruct a; reflexivity. Qed.

Lemma fold_assign_id (writes : list Assignment) (u : User) :
  _id (fold_left assign writes u) = _id u.
Proof.
  revert u. induction writes as [|a writes IH]; intros u; [reflexivity|].
  cbn. now rewrite IH, assign_id.
Qed.

(** X27. What an update returns is what a lookup then finds.  In a
    collection with unique ids, when [updateUser] returns a user object
    for a well-formed id in its printed form, [getUserById] under that id
    returns the same object from the collection the update left, and the
    update changed no other record's id. *)
Theorem updateUser_then_getUserById (userId : string) (updateData : JS.object) (now : Z)
    (db db' : Collection) (json : JS.object) :
  Invariant.uniqueIds db = true ->
  UserQueries.isObjectId userId = true -> UserQueries.objectIdOf userId = userId ->
  updateUser userId updateData now db = (Ok json, db') ->
  UserService.getUserById userId db' = (Ok json, db') /\
  JS.get "id" json = Some (JS.JStr userId) /\
  map _id db' = map _id db.
Proof.
  intros Huniq Hoid Hcanon. unfold updateUser. run.
  destruct (findByIdAndUpdate userId updateData now db) as [[[d|]|e] db1] eqn:Hupd;
    [| discriminate | intros H; now apply rethrow_not_ok in H].
  cbn [ret]. intros [= <- <-].
  unfold findByIdAndUpdate in Hupd.
  rewrite Hoid, Hcanon in Hupd. cbn [negb] in Hupd. cbv zeta in Hupd.
  destruct (castUpdate updateData) as [writes|]; [|discriminate].
  destruct (negb _); [discriminate|].
  destruct (find (byId userId) db) as [u|] eqn:Hu; [|discriminate].
  destruct (existsb _ db); [discriminate|].
  injection Hupd as <- <-.
  set (u' := with_timestamps (createdAt u) now (fold_left assign writes u)).
  assert (Hid : _id u' = _id u) by (unfold u', with_timestamps; cbn; apply fold_assign_id).
  pose proof (find_byId_id _ _ _ Hu) as Hu_id.
  assert (Hfind : find (byId userId) (updateFirst (byId userId) (fun _ => u') db) = Some u').
  { rewrite <- Hu_id at 1. apply (find_updateFirst _ (fun _ => u') _ _ Huniq Hu). exact Hid. }
  split; [|split].
  - rewrite (getUserById_run _ _ Hoid), Hcanon, Hfind. reflexivity.
  - unfold toJSON, hydrate. cbn. unfold u', with_timestamps in Hid. cbn [_id] in Hid.
    now rewrite Hid, Hu_id.
  - clear Hfind. clearbody u'. induction db as [|a db IH]; [reflexivity|].
    cbn in Hu |- *. destruct (byId userId a) eqn:Ha.
    + injection Hu as ->. cbn. now rewrite Hid.
    + cbn. f_equal. apply uniqueIds_cons in Huniq as [_ Huniq]. now apply IH.
Qed.

Lemma updateUser_then_getUserById_witness :
  exists json db',
    updateUser "64b7f0c2a1d3e4f5a6b7c8d9" [("name", JS.JStr "Alicia"); ("age", JS.JNum 31)]
               8000 Fixture.db = (Ok json, db') /\
    UserService.getUserById "64b7f0c2a1d3e4f5a6b7c8d9" db' = (Ok json, db') /\
    JS.get "name" json = Some (JS.JStr "Alicia").
Proof.
  destruct (updateUser "64b7f0c2a1d3e4f5a6b7c8d9"
              [("name", JS.JStr "Alicia"); ("age", JS.JNum 31)] 8000 Fixture.db)
    as [[json|e] db'] eqn:Hupd; [|vm_compute in Hupd; discriminate].
  exists json, db'. split; [reflexivity|]. split.
  - exact (proj1 (updateUser_then_getUserById "64b7f0c2a1d3e4f5a6b7c8d9"
                    [("name", JS.JStr "Alicia"); ("age", JS.JNum 31)] 8000 Fixture.db db' json
                    eq_refl eq_refl eq_refl Hupd)).
  - vm_compute in Hupd. injection Hupd as <- _. reflexivity.
Defined.

(** ** The update route and its caller *)

Lemma Forall2_untouched_refl (i : string) (db : Collection) :
  Forall2 (untouchedUnless i) db db.
Proof. induction db; constructor; auto. now intros _. Qed.

Lemma updateFirst_untouched (i : string) (f : User -> User) (db : Collection) :
  Forall2 (untouchedUnless i) db (updateFirst (byId i) f db).
Proof.
  induction db as [|a db IH]; [constructor|].
  cbn. destruct (byId i a) eqn:Ha.
  - constructor; [|apply Forall2_untouched_refl].
    intros Hne. apply byId_true in Ha. contradiction.
  - constructor; [now intros _ | exact IH].
Qed.

Lemma controller_updateUser_untouched (req : Request.t) (now : Z) (db : Collection) (i : string) :
  Request.params_id req = Some i ->
  Forall2 (untouchedUnless (UserQueries.objectIdOf i)) db
          (snd (UserController.updateUser req now db)).
Proof.
  intros Hi. unfold UserController.updateUser, UserController.asyncHandler. run.
  rewrite Hi.
  destruct (JS.truthy (Some i)); cbn [negb]; [|apply Forall2_untouched_refl].
  destruct (Request.user req) as [authUser|]; [|apply Forall2_untouched_refl].
  destruct (negb _); [apply Forall2_untouched_refl|].
  run.
  assert (Hframe : Forall2 (untouchedUnless (UserQueries.objectIdOf i)) db
                     (snd (updateUser i (Request.body req) now db))).
  { rewrite updateUser_snd. unfold findByIdAndUpdate.
    destruct (negb (UserQueries.isObjectId i)); [apply Forall2_untouched_refl|].
    cbv zeta.
    destruct (castUpdate _); [|apply Forall2_untouched_refl].
    destruct (negb _); [apply Forall2_untouched_refl|].
    destruct (find (byId _) db); [|apply Forall2_untouched_refl].
    destruct (existsb _ db); [apply Forall2_untouched_refl|].
    apply updateFirst_untouched. }
  destruct (updateUser i (Request.body req) now db) as [[json|e] db']; exact Hframe.
Qed.

Lemma validateRequest_update_next (req req' : Request.t) :
  Validation.validateRequest UserSchemas.updateUserSchema req = Next req' ->
  Request.params_id req' = Request.params_id req.
Proof.
  unfold Validation.validateRequest.
  destruct (UserSchemas.updateUserSchema _) as [v|issues] eqn:Hschema; [|discriminate].
  unfold UserSchemas.updateUserSchema in Hschema.
  destruct (UserSchemas.parseUpdateName _) as [nameIssues n].
  destruct (UserSchemas.parseUpdateAge _) as [ageIssues a].
  destruct (nameIssues ++ ageIssues ++ _); [|discriminate].
  injection Hschema as <-. cbn. now intros [= <-].
Qed.

(** X28. The update route writes to the caller's own record only.  In a
    collection whose ids are well formed, a request through PUT /:id
    either leaves every user as it was, or comes from a caller
    [authenticate] identifies as a stored user and names that user's id
    as the resource; then every record with another id is left exactly as
    it was. *)
Theorem putUser_route_own_record (X : Externals) (env : Env) (req : Request.t) (now : Z)
    (w : World) :
  Invariant.objectIds (users w) = true ->
  let out := Router.putUser X env req now w in
  users (snd out) = users w \/
  exists u, In u (users w) /\
    AuthMiddleware.authenticate X env req now (users w)
    = (Ok (Next (Request.with_user (Some (AuthUser.mk (_id u) (email u))) req)), users w) /\
    Request.params_id req = Some (_id u) /\
    Forall2 (untouchedUnless (_id u)) (users w) (users (snd out)).
Proof.
  intros Hids. cbn zeta. unfold Router.putUser.
  destruct (limit_cases generalLimiter req now
              (Router.useM (AuthMiddleware.authenticate X env req now) (fun req =>
               Router.use (AuthMiddleware.requireSelfAccess req) (fun req =>
               Router.use (Validation.validateParams UserSchemas.userParamsSchema_params req)
                 (fun req =>
               Router.use (Validation.validateRequest UserSchemas.updateUserSchema req)
                 (fun req => Router.handle (UserController.updateUser req now)))))) w)
    as (w1 & Hw1 & [[Hresp Husers] | [Hresp Husers]]); rewrite Husers; [now left|].
  rewrite <- Hw1 in Hids |- *. clear Hresp Husers Hw1.
  unfold Router.useM, Router.onUsers.
  destruct (authenticate_cases X env req now (users w1)) as [(m & H) | (u & Hu & H)]; rewrite H;
    [now left|].
  destruct (objectIds_In _ _ Hids Hu) as [_ Hcanon].
  unfold Router.use.
  destruct (requireSelfAccess_cases
              (Request.with_user (Some (AuthUser.mk (_id u) (email u))) req)
              (AuthUser.mk (_id u) (email u)) eq_refl)
    as [(Hpass & Hparam & Hne) | (m & c & Hrej & Hc)]; [rewrite Hpass | rewrite Hrej; now left].
  cbn [AuthUser.id] in Hparam.
  destruct (Validation.validateParams _ _) as [req3|e] eqn:Hparams; [|now left].
  apply validateParams_next in Hparams as [-> _].
  destruct (Validation.validateRequest _ _) as [req4|e] eqn:Hbody; [|now left].
  apply validateRequest_update_next in Hbody. rewrite Hparam in Hbody.
  right. exists u. split; [assumption|]. split; [reflexivity|]. split; [exact Hparam|].
  unfold Router.handle, Router.onUsers. cbn [users limiters].
  pose proof (controller_updateUser_untouched req4 now (users w1) (_id u) Hbody) as Hframe.
  rewrite Hcanon in Hframe.
  destruct (UserController.updateUser req4 now (users w1)) as [[r|e] db']; exact Hframe.
Qed.

Lemma putUser_route_own_record_witness :
  Invariant.objectIds (users Fixture.world) = true /\
  let out := Router.putUser Fixture.X Fixture.env Fixture.putRequest 1700000100000
               Fixture.world in
  users (snd out) = users Fixture.world \/
  exists u, In u (users Fixture.world) /\
    AuthMiddleware.authenticate Fixture.X Fixture.env Fixture.putRequest 1700000100000
      (users Fixture.world)
    = (Ok (Next (Request.with_user (Some (AuthUser.mk (_id u) (email u))) Fixture.putRequest)),
       users Fixture.world) /\
    Request.params_id Fixture.putRequest = Some (_id u) /\
    Forall2 (untouchedUnless (_id u)) (users Fixture.world) (users (snd out)).
Proof.
  split; [reflexivity|].
  exact (putUser_route_own_record Fixture.X Fixture.env Fixture.putRequest 1700000100000
           Fixture.world eq_refl).
Defined.

(** ** Optional authentication *)

(** X29. [optionalAuth] attaches a user exactly when [authenticate] would
    let the request through, and then the same one: where [authenticate]
    hands on a request, [optionalAuth] hands on that same request, and
    where [authenticate] rejects, [optionalAuth] hands on the request as
    it came. *)
Theorem optionalAuth_agrees (X : Externals) (env : Env) (req : Request.t) (now : Z)
    (db : Collection) :
  match AuthMiddleware.authenticate X env req now db with
  | (Ok (Next r), _) => AuthMiddleware.optionalAuth X env req now db = (Ok (Next r), db)
  | _ => AuthMiddleware.optionalAuth X env req now db = (Ok (Next req), db)
  end.
Proof.
  unfold AuthMiddleware.authenticate, AuthMiddleware.optionalAuth.
  destruct (AuthMiddleware.extractToken req) as [token|]; [|reflexivity].
  destruct (JS.truthy (Some token)); cbn [negb]; [|reflexivity].
  run. destruct (JWT.verifyToken X env token now) as [decoded|e] eqn:Hver.
  - cbn [lift]. run.
    destruct (Jwt.id decoded) as [did|], (Jwt.email decoded) as [demail|]; try reflexivity.
    destruct (orb _ _); [reflexivity|].
    run. rewrite !run_getUserByEmail.
    destruct (find _ db); reflexivity.
  - cbn [lift]. destruct (isApiError e); reflexivity.
Qed.

Lemma optionalAuth_agrees_witness :
  AuthMiddleware.optionalAuth Fixture.X Fixture.env
    (Request.mk "10.0.0.1" (Some "Bearer forged") None [] None) 1700000100000 Fixture.db
  = (Ok (Next (Request.mk "10.0.0.1" (Some "Bearer forged") None [] None)), Fixture.db).
Proof.
  exact (optionalAuth_agrees Fixture.X Fixture.env
           (Request.mk "10.0.0.1" (Some "Bearer forged") None [] None) 1700000100000
           Fixture.db).
Defined.
